(** * FlipInput: the dual-amount conversion engine of the flip-input widget

    A shallow embedding of [src/components/themed/FlipInput.js]: the decimal
    sanitizer, the keystroke accumulator, the two conversions between the
    primary and the secondary amount, the reconciliation of new props and the
    clipboard paste, followed by the properties the specification states
    about them.

    JavaScript strings are modelled as [string]; a thrown exception is an
    [Outcome]; the component instance ([this.props], [this.state]) and the
    collaborators it talks to (the [onAmountChanged] callback, [showError],
    [setTimeout]) are one explicit record threaded through every handler. *)

From Stdlib Require Import String Ascii List ZArith Lia Bool Arith.
Import ListNotations.

Open Scope string_scope.

(* ================================================================== *)
(** ** JavaScript string primitives used by the widget *)
(* ================================================================== *)

Module JS.

Definition isDigit (c : ascii) : bool :=
  ((48 <=? nat_of_ascii c) && (nat_of_ascii c <=? 57))%nat.

Definition isPeriod (c : ascii) : bool := Ascii.eqb c ".".

(** The character class [[0-9.]] of the two regular expressions. *)
Definition isDecimalChar (c : ascii) : bool := isDigit c || isPeriod c.

(** [s.includes(c)] for a one-character needle. *)
Fixpoint includes (c : ascii) (s : string) : bool :=
  match s with
  | EmptyString => false
  | String a r => Ascii.eqb a c || includes c r
  end.

(** [s.replace(a, b)] with a string pattern: only the first occurrence of
    the one-character pattern [a] is replaced. *)
Fixpoint replaceFirst (a b : ascii) (s : string) : string :=
  match s with
  | EmptyString => EmptyString
  | String c r => if Ascii.eqb c a then String b r else String c (replaceFirst a b r)
  end.

(** [s.replace(/[^0-9.]/g, '')]. *)
Fixpoint removeNonDecimal (s : string) : string :=
  match s with
  | EmptyString => EmptyString
  | String c r => if isDecimalChar c then String c (removeNonDecimal r) else removeNonDecimal r
  end.

(** [s.match(/[^0-9.]/)] read as a condition: some character of [s] lies
    outside the class. *)
Fixpoint matchesNonDecimal (s : string) : bool :=
  match s with
  | EmptyString => false
  | String c r => negb (isDecimalChar c) || matchesNonDecimal r
  end.

(** [s.slice(0, -1)]: everything but the last character; the empty string
    stays empty. *)
Fixpoint sliceInit (s : string) : string :=
  match s with
  | EmptyString => EmptyString
  | String c EmptyString => EmptyString
  | String c r => String c (sliceInit r)
  end.

(** [s.slice(0, n)]. *)
Fixpoint slice0 (n : nat) (s : string) : string :=
  match n, s with
  | S k, String c r => String c (slice0 k r)
  | _, _ => EmptyString
  end.

(** [s.split('')]: the characters of [s], each as a string. *)
Fixpoint splitChars (s : string) : list string :=
  match s with
  | EmptyString => []
  | String c r => String c EmptyString :: splitChars r
  end.

(** Number of periods in a string. *)
Fixpoint periods (s : string) : nat :=
  match s with
  | EmptyString => 0
  | String c r => (if isPeriod c then 1 else 0) + periods r
  end.

(** Every character is a digit or a period. *)
Fixpoint allDecimal (s : string) : bool :=
  match s with
  | EmptyString => true
  | String c r => isDecimalChar c && allDecimal r
  end.

End JS.

(* ================================================================== *)
(** ** Truncation helpers of [locales/intl.js] and [util/utils.js] *)
(* ================================================================== *)

(** The text in front of the first period (the whole string when it has
    none). *)
Fixpoint integersOf (s : string) : string :=
  match s with
  | EmptyString => EmptyString
  | String c r => if JS.isPeriod c then EmptyString else String c (integersOf r)
  end.

(** What follows the first period, when there is one. *)
Fixpoint afterPeriod (s : string) : option string :=
  match s with
  | EmptyString => None
  | String c r => if JS.isPeriod c then Some r else afterPeriod r
  end.

(** Modelled from the spec: [truncateDecimalsPeriod] of [locales/intl.js],
    which is not among the sources.  Section 4.1: "Truncate (not round) to at
    most maxEntryDecimals fractional digits; collapse any extra embedded
    periods so the result has at most one decimal point"; glossary:
    "Truncate: drop excess fractional digits without rounding".  A string
    without a period has no fractional digits and is returned as it is; the
    spec gives the empty string no treatment of its own, so it is returned
    as it is too.  Otherwise the fractional digits are those between the first period and
    the next one (a second period is dropped together with what follows it),
    cut to [precision] of them; with a bound of zero the period goes too. *)
Definition truncateDecimalsPeriod (input : string) (precision : nat) : string :=
  match afterPeriod input with
  | None => input
  | Some rest =>
      match precision with
      | O => integersOf input
      | S _ => integersOf input ++ "." ++ JS.slice0 precision (integersOf rest)
      end
  end.

(** Modelled from the spec: [truncateDecimals] of [locales/intl.js], used by
    the keystroke handler; section 4.2 calls it "re-truncate to the decimal
    bound", the same truncation as above. *)
Definition truncateDecimals (input : string) (precision : nat) : string :=
  truncateDecimalsPeriod input precision.

(** Modelled from the spec: [truncateDecimals] of [util/utils.js], used by
    the two conversions; sections 4.3 and 4.4 write it
    [truncate(value, maxConversionDecimals)], the glossary's truncation. *)
Definition UTILS_truncateDecimals (input : string) (precision : nat) : string :=
  truncateDecimalsPeriod input precision.

(* ================================================================== *)
(** ** The sanitizer and the acceptance check (FlipInput.js 84-105) *)
(* ================================================================== *)

Definition sanitizeDecimalAmount (amount : string) (maxEntryDecimals : nat) : string :=
  (* Replace all commas into periods *)
  let amount := JS.replaceFirst "," "." amount in
  (* Remove characters except numbers and decimal separator *)
  let amount := JS.removeNonDecimal amount in
  (* Truncate decimals to limited decimal entries, also remove additional periods *)
  truncateDecimalsPeriod amount maxEntryDecimals.

Definition checkKeyPress (keyPressed decimalAmount : string) : bool :=
  if (keyPressed =? ".") && JS.includes "." decimalAmount then false
  else if JS.matchesNonDecimal keyPressed then false
  else true.

(** The accumulator that [onKeyPress] hands to [setStateAmounts], or [None]
    when the key is ignored (FlipInput.js 340-345). *)
Definition keyPressAmount (keyPressed decimalAmount : string) (maxEntryDecimals : nat)
  : option string :=
  let keyPressed := JS.replaceFirst "," "." keyPressed in
  if keyPressed =? "Backspace" then
    Some (truncateDecimals (JS.sliceInit decimalAmount) maxEntryDecimals)
  else if checkKeyPress keyPressed decimalAmount then
    Some (truncateDecimals (decimalAmount ++ keyPressed) maxEntryDecimals)
  else None.

(* ================================================================== *)
(** ** Exceptions *)
(* ================================================================== *)

Inductive Error : Type :=
| InvalidNumber
| DivisionByZero
| ClipboardError (reason : string).

(** What a call gives back: a value, or a thrown error. *)
Inductive Outcome (A : Type) : Type :=
| Returned (a : A)
| Thrown (e : Error).

Arguments Returned {A} a.
Arguments Thrown {A} e.

(* ================================================================== *)
(** ** Collaborators: decimal arithmetic and number formatting *)
(* ================================================================== *)

(** The two operations of the decimal-string library ([bns] of biggystring)
    that the widget calls.  The engine below is written against this
    interface. *)
Class BigNumberStrings : Type := {
  bns_mul : string -> string -> Outcome string;
  bns_div : string -> string -> nat -> Outcome string
}.

(** The formatter of [locales/intl.js] behind the display amounts. *)
Class Locale : Type := {
  formatNumberInput : string -> string;
  prettifyNumber : string -> string
}.

(** A non-negative decimal: [mantissa / 10 ^ scale]. *)
Record Decimal : Type := mkDecimal { mantissa : Z; scale : nat }.

Definition digitValue (c : ascii) : Z := Z.of_nat (nat_of_ascii c) - 48.

Definition digitChar (d : Z) : ascii := ascii_of_nat (48 + Z.to_nat d).

(** Reads a run of digits, most significant first, on top of [acc]; [None]
    at the first character that is not a digit. *)
Fixpoint readDigits (acc : Z) (s : string) : option Z :=
  match s with
  | EmptyString => Some acc
  | String c r => if JS.isDigit c then readDigits (10 * acc + digitValue c)%Z r else None
  end.

(** Digits with at most one period.  The empty string and a lone period read
    as zero; a second period, a sign or a letter is not a number. *)
Definition parseDecimal (s : string) : option Decimal :=
  match afterPeriod s with
  | None =>
      match readDigits 0 s with
      | Some m => Some (mkDecimal m 0)
      | None => None
      end
  | Some fraction =>
      match readDigits 0 (integersOf s ++ fraction) with
      | Some m => Some (mkDecimal m (String.length fraction))
      | None => None
      end
  end.

(** The last [width] decimal digits of [n]. *)
Fixpoint fixedDigits (width : nat) (n : Z) : string :=
  match width with
  | O => EmptyString
  | S w => fixedDigits w (n / 10)%Z ++ String (digitChar (n mod 10)%Z) EmptyString
  end.

Fixpoint trimLeadingZeros (s : string) : string :=
  match s with
  | String c r => if Ascii.eqb c "0" && negb (r =? "") then trimLeadingZeros r else s
  | EmptyString => EmptyString
  end.

Fixpoint trimTrailingZeros (s : string) : string :=
  match s with
  | EmptyString => EmptyString
  | String c r =>
      let r' := trimTrailingZeros r in
      if Ascii.eqb c "0" && (r' =? "") then EmptyString else String c r'
  end.

(** A number of digits that is enough for [n]: [n < 2 ^ digitsFor n]. *)
Definition digitsFor (n : Z) : nat := S (Z.to_nat (Z.log2 n)).

(** The canonical text of a decimal: no leading zeros in front of the
    period (a lone ["0"] stays), no trailing zeros behind it, and no period
    when nothing follows it. *)
Definition printDecimal (d : Decimal) : string :=
  let unit := (10 ^ Z.of_nat (scale d))%Z in
  let integers := trimLeadingZeros (fixedDigits (digitsFor (mantissa d / unit)) (mantissa d / unit)%Z) in
  let decimals := trimTrailingZeros (fixedDigits (scale d) (mantissa d mod unit)%Z) in
  if decimals =? "" then integers else integers ++ "." ++ decimals.

(** Modelled from the spec: the multiplication of the "exact-decimal
    arithmetic library (add/sub/mul/div/truncate/compare on string-encoded
    decimals, no binary floating point)" of section 6, an external library
    that is not among the sources.  The product is exact: mantissas multiply
    and scales add. *)
Definition exact_mul (x y : string) : Outcome string :=
  match parseDecimal x, parseDecimal y with
  | Some a, Some b =>
      Returned (printDecimal (mkDecimal (mantissa a * mantissa b)%Z (scale a + scale b)))
  | _, _ => Thrown InvalidNumber
  end.

(** Modelled from the spec: the division of the same library, "carried out
    to at least 18 fractional digits of precision before truncation"
    (section 4.4): the quotient is cut, not rounded, at [precision]
    fractional digits.  Section 4.4 has the widget short-circuit a zero ratio
    "rather than fault": dividing by a divisor whose value is zero, the empty
    string included, throws. *)
Definition exact_div (x y : string) (precision : nat) : Outcome string :=
  match parseDecimal x, parseDecimal y with
  | Some a, Some b =>
      if (mantissa b =? 0)%Z then Thrown DivisionByZero
      else
        Returned (printDecimal
          (mkDecimal ((mantissa a * 10 ^ Z.of_nat (scale b + precision))
                        / (mantissa b * 10 ^ Z.of_nat (scale a)))%Z
                     precision))
  | _, _ => Thrown InvalidNumber
  end.

#[export] Instance exactDecimals : BigNumberStrings :=
  {| bns_mul := exact_mul; bns_div := exact_div |}.

(** A formatter that shows the decimal text as it is; the properties below
    never depend on how amounts are displayed. *)
Definition plainLocale : Locale :=
  {| formatNumberInput := fun s => s; prettifyNumber := fun s => s |}.


(* ================================================================== *)
(** ** Props, state and amounts (FlipInput.js 18-82) *)
(* ================================================================== *)

Record FlipInputFieldInfo : Type := {
  currencyName : string;
  currencySymbol : string;
  currencyCode : string;
  (* Maximum number of decimals to allow the user to enter. *)
  maxEntryDecimals : nat;
  (* Maximum number of decimals to convert from the opposite field to this field. *)
  maxConversionDecimals : nat
}.

Module Props.
Record t : Type := {
  overridePrimaryDecimalAmount : string;
  exchangeSecondaryToPrimaryRatio : string;
  primaryInfo : FlipInputFieldInfo;
  secondaryInfo : FlipInputFieldInfo;
  forceUpdateGuiCounter : Z;
  isEditable : bool;
  isFiatOnTop : bool;
  isFocus : bool;
  keyboardVisible : bool
}.
End Props.

Module Amounts.
Record t : Type := {
  primaryDecimalAmount : string;
  primaryDisplayAmount : string;
  secondaryDecimalAmount : string;
  secondaryDisplayAmount : string
}.
End Amounts.

Module State.
Record t : Type := {
  isToggled : bool;
  textInputFrontFocus : bool;
  textInputBackFocus : bool;
  overridePrimaryDecimalAmount : string;
  forceUpdateGuiCounter : Z;
  primaryDisplayAmount : string;
  secondaryDisplayAmount : string;
  primaryDecimalAmount : string;
  secondaryDecimalAmount : string;
  rerenderCounter : Z
}.

(** [Object.assign(state, amounts)], the merge that [setState(amounts)]
    performs: the four amount fields are replaced, the rest is kept. *)
Definition assign (st : t) (a : Amounts.t) : t :=
  {| isToggled := isToggled st;
     textInputFrontFocus := textInputFrontFocus st;
     textInputBackFocus := textInputBackFocus st;
     overridePrimaryDecimalAmount := overridePrimaryDecimalAmount st;
     forceUpdateGuiCounter := forceUpdateGuiCounter st;
     primaryDisplayAmount := Amounts.primaryDisplayAmount a;
     secondaryDisplayAmount := Amounts.secondaryDisplayAmount a;
     primaryDecimalAmount := Amounts.primaryDecimalAmount a;
     secondaryDecimalAmount := Amounts.secondaryDecimalAmount a;
     rerenderCounter := rerenderCounter st |}.

(** The merge of [{...result, overridePrimaryDecimalAmount,
    forceUpdateGuiCounter}]. *)
Definition assignOverride (st : t) (a : Amounts.t) (override : string) (counter : Z) : t :=
  {| isToggled := isToggled st;
     textInputFrontFocus := textInputFrontFocus st;
     textInputBackFocus := textInputBackFocus st;
     overridePrimaryDecimalAmount := override;
     forceUpdateGuiCounter := counter;
     primaryDisplayAmount := Amounts.primaryDisplayAmount a;
     secondaryDisplayAmount := Amounts.secondaryDisplayAmount a;
     primaryDecimalAmount := Amounts.primaryDecimalAmount a;
     secondaryDecimalAmount := Amounts.secondaryDecimalAmount a;
     rerenderCounter := rerenderCounter st |}.

(** The four amount fields of a state. *)
Definition amounts (st : t) : Amounts.t :=
  {| Amounts.primaryDecimalAmount := primaryDecimalAmount st;
     Amounts.primaryDisplayAmount := primaryDisplayAmount st;
     Amounts.secondaryDecimalAmount := secondaryDecimalAmount st;
     Amounts.secondaryDisplayAmount := secondaryDisplayAmount st |}.
End State.

(** A task handed to [setTimeout]. *)
Inductive Deferred : Type :=
| ResetPrimaryAmount.  (* () => this.onKeyPress('0', '', ..., setPrimaryToSecondary) *)

(** The component instance together with what its collaborators have
    received so far. *)
Record Component : Type := {
  props : Props.t;
  state : State.t;
  (* arguments of the calls to props.onAmountChanged, oldest first *)
  amountChangedCalls : list string;
  (* arguments of the calls to showError, oldest first *)
  shownErrors : list Error;
  (* pending setTimeout tasks with their delay in milliseconds *)
  timers : list (nat * Deferred)
}.

(* ================================================================== *)
(** ** Handlers as actions on the component *)
(* ================================================================== *)

(** A method body: it reads and updates the component and returns or throws.
    What was written before a throw stays written. *)
Definition Action (A : Type) : Type := Component -> Outcome A * Component.

Definition ret {A} (a : A) : Action A := fun c => (Returned a, c).

Definition bind {A B} (m : Action A) (k : A -> Action B) : Action B :=
  fun c =>
    match m c with
    | (Returned a, c') => k a c'
    | (Thrown e, c') => (Thrown e, c')
    end.

Declare Scope action_scope.
Delimit Scope action_scope with action.
Notation "x <- m ;; k" := (bind m (fun x => k))
  (at level 61, m at next level, right associativity) : action_scope.
Notation "m ;; k" := (bind m (fun _ => k))
  (at level 61, right associativity) : action_scope.
Open Scope action_scope.

(** A call that may throw, made from inside a method. *)
Definition call {A} (o : Outcome A) : Action A := fun c => (o, c).

Definition getProps : Action Props.t := fun c => (Returned (props c), c).

Definition getState : Action State.t := fun c => (Returned (state c), c).

(** [this.setState(...)], applied at once: every handler below runs outside
    a batched update (after an [await], or one event at a time). *)
Definition setState (f : State.t -> State.t) : Action unit :=
  fun c =>
    (Returned tt,
     {| props := props c; state := f (state c);
        amountChangedCalls := amountChangedCalls c;
        shownErrors := shownErrors c; timers := timers c |}).

(** [this.props.onAmountChanged(decimalAmount)]. *)
Definition onAmountChanged (decimalAmount : string) : Action unit :=
  fun c =>
    (Returned tt,
     {| props := props c; state := state c;
        amountChangedCalls := amountChangedCalls c ++ [decimalAmount];
        shownErrors := shownErrors c; timers := timers c |}).

Definition showError (e : Error) : Action unit :=
  fun c =>
    (Returned tt,
     {| props := props c; state := state c;
        amountChangedCalls := amountChangedCalls c;
        shownErrors := shownErrors c ++ [e]; timers := timers c |}).

Definition setTimeout (task : Deferred) (delay : nat) : Action unit :=
  fun c =>
    (Returned tt,
     {| props := props c; state := state c;
        amountChangedCalls := amountChangedCalls c;
        shownErrors := shownErrors c; timers := timers c ++ [(delay, task)] |}).

(** React installs the new props once the lifecycle method has returned. *)
Definition setProps (p : Props.t) : Action unit :=
  fun c =>
    (Returned tt,
     {| props := p; state := state c;
        amountChangedCalls := amountChangedCalls c;
        shownErrors := shownErrors c; timers := timers c |}).

(** [try { body } catch (error) { handler(error) }]. *)
Definition tryCatch (body : Action unit) (handler : Error -> Action unit) : Action unit :=
  fun c =>
    match body c with
    | (Returned tt, c') => (Returned tt, c')
    | (Thrown e, c') => handler e c'
    end.

(** [for (const x of xs) body(x)]. *)
Fixpoint forOf {A} (xs : list A) (body : A -> Action unit) : Action unit :=
  match xs with
  | [] => ret tt
  | x :: rest => body x ;; forOf rest body
  end.

(** The component after a handler has run, whether it returned or threw. *)
Definition after {A} (m : Action A) (c : Component) : Component := snd (m c).

(* ================================================================== *)
(** ** The conversion engine (FlipInput.js 107-152, 227-250, 339-351, 471-488) *)
(* ================================================================== *)

Section Engine.

Context {bns : BigNumberStrings} {locale : Locale}.

(* Assumes a US locale decimal input *)
Definition setPrimaryToSecondary (props : Props.t) (primaryDecimalAmount : string)
  : Outcome Amounts.t :=
  (* Formats into locale specific format. *)
  let primaryDisplayAmount := formatNumberInput (prettifyNumber primaryDecimalAmount) in
  (* Converts to secondary value using exchange rate *)
  match bns_mul primaryDecimalAmount (Props.exchangeSecondaryToPrimaryRatio props) with
  | Thrown e => Thrown e
  | Returned secondaryDecimalAmount =>
      (* Truncate to however many decimals the secondary format should have *)
      let secondaryDecimalAmount :=
        UTILS_truncateDecimals secondaryDecimalAmount
          (maxConversionDecimals (Props.secondaryInfo props)) in
      (* Format into locale specific format. *)
      let secondaryDisplayAmount := formatNumberInput (prettifyNumber secondaryDecimalAmount) in
      Returned {| Amounts.primaryDecimalAmount := primaryDecimalAmount;
                  Amounts.primaryDisplayAmount := primaryDisplayAmount;
                  Amounts.secondaryDecimalAmount := secondaryDecimalAmount;
                  Amounts.secondaryDisplayAmount := secondaryDisplayAmount |}
  end.

(* Pretty much the same as setPrimaryToSecondary *)
Definition setSecondaryToPrimary (props : Props.t) (secondaryDecimalAmount : string)
  : Outcome Amounts.t :=
  let secondaryDisplayAmount := formatNumberInput (prettifyNumber secondaryDecimalAmount) in
  match (if Props.exchangeSecondaryToPrimaryRatio props =? "0" then Returned "0"
         else bns_div secondaryDecimalAmount (Props.exchangeSecondaryToPrimaryRatio props) 18)
  with
  | Thrown e => Thrown e
  | Returned primaryDecimalAmount =>
      let primaryDecimalAmount :=
        UTILS_truncateDecimals primaryDecimalAmount
          (maxConversionDecimals (Props.primaryInfo props)) in
      let primaryDisplayAmount := formatNumberInput (prettifyNumber primaryDecimalAmount) in
      Returned {| Amounts.primaryDecimalAmount := primaryDecimalAmount;
                  Amounts.primaryDisplayAmount := primaryDisplayAmount;
                  Amounts.secondaryDecimalAmount := secondaryDecimalAmount;
                  Amounts.secondaryDisplayAmount := secondaryDisplayAmount |}
  end.

Definition getInitialState (props : Props.t) : Outcome State.t :=
  let state :=
    {| State.isToggled := false;
       State.textInputFrontFocus := false;
       State.textInputBackFocus := false;
       State.overridePrimaryDecimalAmount := "";
       State.primaryDisplayAmount := "";
       State.forceUpdateGuiCounter := 0%Z;
       State.secondaryDisplayAmount := "";
       State.primaryDecimalAmount := "";
       State.secondaryDecimalAmount := "";
       State.rerenderCounter := 0%Z |} in
  if Props.overridePrimaryDecimalAmount props =? "" then Returned state
  else
    let primaryDecimalAmount :=
      sanitizeDecimalAmount (Props.overridePrimaryDecimalAmount props)
        (maxEntryDecimals (Props.primaryInfo props)) in
    match setPrimaryToSecondary props primaryDecimalAmount with
    | Thrown e => Thrown e
    | Returned amounts => Returned (State.assign state amounts)
    end.

(** The instance right after its constructor has run. *)
Definition construct (props : Props.t) : Outcome Component :=
  match getInitialState props with
  | Thrown e => Thrown e
  | Returned st =>
      Returned {| props := props; state := st; amountChangedCalls := [];
                  shownErrors := []; timers := [] |}
  end.

Definition setStateAmounts (decimalAmount : string)
    (setAmounts : Props.t -> string -> Outcome Amounts.t) : Action unit :=
  props <- getProps ;;
  amounts <- call (setAmounts props decimalAmount) ;;
  setState (fun st => State.assign st amounts) ;;
  onAmountChanged (Amounts.primaryDecimalAmount amounts).

Definition onKeyPress (keyPressed decimalAmount : string) (maxEntryDecimals : nat)
    (setAmounts : Props.t -> string -> Outcome Amounts.t) : Action unit :=
  let keyPressed := JS.replaceFirst "," "." keyPressed in
  if keyPressed =? "Backspace" then
    setStateAmounts (truncateDecimals (JS.sliceInit decimalAmount) maxEntryDecimals) setAmounts
  else if checkKeyPress keyPressed decimalAmount then
    setStateAmounts (truncateDecimals (decimalAmount ++ keyPressed) maxEntryDecimals) setAmounts
  else ret tt.

(** A key that reaches the primary field: the call that [onPrimaryKeyPress]
    and [onPrimaryChangeText] make once their platform filter has let the key
    through (FlipInput.js 357 and 362). *)
Definition onPrimaryKeyPress (key : string) : Action unit :=
  st <- getState ;;
  props <- getProps ;;
  onKeyPress key (State.primaryDecimalAmount st)
    (maxEntryDecimals (Props.primaryInfo props)) setPrimaryToSecondary.

(** The same for the secondary field (FlipInput.js 421 and 426). *)
Definition onSecondaryKeyPress (key : string) : Action unit :=
  st <- getState ;;
  props <- getProps ;;
  onKeyPress key (State.secondaryDecimalAmount st)
    (maxEntryDecimals (Props.secondaryInfo props)) setSecondaryToPrimary.

(** The task that the currency-code change schedules (FlipInput.js 248). *)
Definition runDeferred (task : Deferred) : Action unit :=
  match task with
  | ResetPrimaryAmount =>
      props <- getProps ;;
      onKeyPress "0" "" (maxEntryDecimals (Props.primaryInfo props)) setPrimaryToSecondary
  end.

Definition UNSAFE_componentWillReceiveProps (nextProps : Props.t) : Action unit :=
  st <- getState ;;
  props <- getProps ;;
  (* Check if primary changed first. Don't bother to check secondary if parent passed in a primary *)
  (if negb (Props.overridePrimaryDecimalAmount nextProps =? State.overridePrimaryDecimalAmount st)
      || negb (Props.forceUpdateGuiCounter nextProps =? State.forceUpdateGuiCounter st)%Z
   then
     result <- call (setPrimaryToSecondary nextProps
                       (sanitizeDecimalAmount (Props.overridePrimaryDecimalAmount nextProps)
                          (maxEntryDecimals (Props.primaryInfo nextProps)))) ;;
     setState (fun st => State.assignOverride st result
                           (Props.overridePrimaryDecimalAmount nextProps)
                           (Props.forceUpdateGuiCounter nextProps))
   else
     (* Checks and apply exchange rates *)
     if negb (State.isToggled st) then
       result <- call (setPrimaryToSecondary nextProps (State.primaryDecimalAmount st)) ;;
       setState (fun st => State.assign st result)
     else
       result <- call (setSecondaryToPrimary nextProps (State.secondaryDecimalAmount st)) ;;
       setState (fun st => State.assign st result)) ;;
  if negb (currencyCode (Props.primaryInfo nextProps) =? currencyCode (Props.primaryInfo props))
  then setTimeout ResetPrimaryAmount 50
  else ret tt.

(** The parent re-renders with [nextProps]: the lifecycle method runs against
    the old props, then the new ones are installed. *)
Definition receiveProps (nextProps : Props.t) : Action unit :=
  UNSAFE_componentWillReceiveProps nextProps ;;
  setProps nextProps.

(** [clipboard] is what awaiting [Clipboard.getString()] gave: the text, or
    the rejection that the [await] rethrows inside the [try]. *)
Definition handlePasteClipboard (clipboard : Outcome string) : Action unit :=
  tryCatch
    (clipboard <- call clipboard ;;
     st <- getState ;;
     if State.isToggled st then
       setStateAmounts "" setSecondaryToPrimary ;;
       forOf (JS.splitChars clipboard) (fun string =>
         st <- getState ;;
         props <- getProps ;;
         onKeyPress string (State.secondaryDecimalAmount st)
           (maxEntryDecimals (Props.secondaryInfo props)) setSecondaryToPrimary)
     else
       setStateAmounts "" setSecondaryToPrimary ;;
       forOf (JS.splitChars clipboard) (fun string =>
         st <- getState ;;
         props <- getProps ;;
         onKeyPress string (State.primaryDecimalAmount st)
           (maxEntryDecimals (Props.primaryInfo props)) setPrimaryToSecondary))
    (fun error => showError error).

(* ------------------------------------------------------------------ *)
(** *** What section 4.7 of the specification asks of a paste *)
(* ------------------------------------------------------------------ *)

(** A key typed into whichever side is active. *)
Definition typeKey (key : string) : Action unit :=
  st <- getState ;;
  if State.isToggled st then onSecondaryKeyPress key else onPrimaryKeyPress key.

(** The paste as the specification words it: clear the accumulator of the
    active side to empty, then type the pasted text into that side character
    by character. *)
Definition pasteAsTyped (clipboard : string) : Action unit :=
  st <- getState ;;
  (if State.isToggled st then setStateAmounts "" setSecondaryToPrimary
   else setStateAmounts "" setPrimaryToSecondary) ;;
  forOf (JS.splitChars clipboard) typeKey.

End Engine.

(* ================================================================== *)
(** ** Vocabulary of the properties *)
(* ================================================================== *)

(** The accumulator after a key: the new one when the key is taken, the old
    one when it is ignored. *)
Definition accumulatorAfter (key decimalAmount : string) (maxEntryDecimals : nat) : string :=
  match keyPressAmount key decimalAmount maxEntryDecimals with
  | Some amount => amount
  | None => decimalAmount
  end.

(** The accumulators seen after each key of a sequence, in order. *)
Fixpoint accumulatorTrace (keys : list string) (decimalAmount : string)
    (maxEntryDecimals : nat) : list string :=
  match keys with
  | [] => []
  | key :: rest =>
      let next := accumulatorAfter key decimalAmount maxEntryDecimals in
      next :: accumulatorTrace rest next maxEntryDecimals
  end.

(** One character that is a digit. *)
Definition isDigitKey (key : string) : bool :=
  match key with
  | String c EmptyString => JS.isDigit c
  | _ => false
  end.

(** The keys of the numeric keypad: a digit, the period, the delete key. *)
Definition isKeypadKey (key : string) : bool :=
  isDigitKey key || (key =? ".") || (key =? "Backspace").

(** At most [n] characters follow the period, if there is one. *)
Definition fractionWithin (n : nat) (s : string) : Prop :=
  match afterPeriod s with
  | None => True
  | Some fraction => String.length fraction <= n
  end.

(** Two decimals denote the same number. *)
Definition sameValue (a b : Decimal) : Prop :=
  (mantissa a * 10 ^ Z.of_nat (scale b) = mantissa b * 10 ^ Z.of_nat (scale a))%Z.

(** The value of a decimal cut, not rounded, at [n] fractional digits. *)
Definition cutDecimal (n : nat) (d : Decimal) : Decimal :=
  mkDecimal (mantissa d * 10 ^ Z.of_nat n / 10 ^ Z.of_nat (scale d)) n.

(** Primary to secondary and back again with the same props
    (sections 4.3 then 4.4). *)
Definition roundTrip {bns : BigNumberStrings} {locale : Locale}
    (props : Props.t) (primaryDecimalAmount : string) : Outcome string :=
  match setPrimaryToSecondary props primaryDecimalAmount with
  | Thrown e => Thrown e
  | Returned there =>
      match setSecondaryToPrimary props (Amounts.secondaryDecimalAmount there) with
      | Thrown e => Thrown e
      | Returned back => Returned (Amounts.primaryDecimalAmount back)
      end
  end.

(** Field information with the two decimal bounds of interest. *)
Definition fieldInfo (code : string) (entry conversion : nat) : FlipInputFieldInfo :=
  {| currencyName := code; currencySymbol := ""; currencyCode := code;
     maxEntryDecimals := entry; maxConversionDecimals := conversion |}.

(** Props for a pairing at a given ratio, with no override. *)
Definition pairing (ratio : string) (primary secondary : FlipInputFieldInfo) : Props.t :=
  {| Props.overridePrimaryDecimalAmount := "";
     Props.exchangeSecondaryToPrimaryRatio := ratio;
     Props.primaryInfo := primary;
     Props.secondaryInfo := secondary;
     Props.forceUpdateGuiCounter := 0%Z;
     Props.isEditable := true;
     Props.isFiatOnTop := false;
     Props.isFocus := false;
     Props.keyboardVisible := false |}.

(** The same props with an override amount pushed by the parent. *)
Definition overriding (override : string) (p : Props.t) : Props.t :=
  {| Props.overridePrimaryDecimalAmount := override;
     Props.exchangeSecondaryToPrimaryRatio := Props.exchangeSecondaryToPrimaryRatio p;
     Props.primaryInfo := Props.primaryInfo p;
     Props.secondaryInfo := Props.secondaryInfo p;
     Props.forceUpdateGuiCounter := Props.forceUpdateGuiCounter p;
     Props.isEditable := Props.isEditable p;
     Props.isFiatOnTop := Props.isFiatOnTop p;
     Props.isFocus := Props.isFocus p;
     Props.keyboardVisible := Props.keyboardVisible p |}.

(** A mounted instance with the given amounts on the given side. *)
Definition mounted (props : Props.t) (toggled : bool) (amounts : Amounts.t) : Component :=
  {| props := props;
     state :=
       {| State.isToggled := toggled;
          State.textInputFrontFocus := false;
          State.textInputBackFocus := false;
          State.overridePrimaryDecimalAmount := Props.overridePrimaryDecimalAmount props;
          State.forceUpdateGuiCounter := Props.forceUpdateGuiCounter props;
          State.primaryDisplayAmount := Amounts.primaryDisplayAmount amounts;
          State.secondaryDisplayAmount := Amounts.secondaryDisplayAmount amounts;
          State.primaryDecimalAmount := Amounts.primaryDecimalAmount amounts;
          State.secondaryDecimalAmount := Amounts.secondaryDecimalAmount amounts;
          State.rerenderCounter := 0%Z |};
     amountChangedCalls := [];
     shownErrors := [];
     timers := [] |}.

(** Amounts whose display texts are the decimal texts. *)
Definition plainAmounts (primary secondary : string) : Amounts.t :=
  {| Amounts.primaryDecimalAmount := primary;
     Amounts.primaryDisplayAmount := primary;
     Amounts.secondaryDecimalAmount := secondary;
     Amounts.secondaryDisplayAmount := secondary |}.

(** The exact product of two decimals: mantissas multiply, scales add. *)
Definition product (a b : Decimal) : Decimal :=
  mkDecimal (mantissa a * mantissa b)%Z (scale a + scale b).

(** The component once [setStateAmounts] has stored [amounts] and told the
    parent. *)
Definition stored (amounts : Amounts.t) (c : Component) : Component :=
  {| props := props c;
     state := State.assign (state c) amounts;
     amountChangedCalls := amountChangedCalls c ++ [Amounts.primaryDecimalAmount amounts];
     shownErrors := shownErrors c;
     timers := timers c |}.

(* ================================================================== *)
(** ** More JavaScript string primitives *)
(* ================================================================== *)

Module Text.

(** [s.match(/[^0-9]/)] read as a condition: some character is not a digit. *)
Fixpoint matchesNonDigit (s : string) : bool :=
  match s with
  | EmptyString => false
  | String c r => negb (JS.isDigit c) || matchesNonDigit r
  end.

(** [s.match(/[0-9]/)] read as a condition: some character is a digit. *)
Fixpoint matchesDigit (s : string) : bool :=
  match s with
  | EmptyString => false
  | String c r => JS.isDigit c || matchesDigit r
  end.

(** [s.match(/^0*$/)] read as a condition: nothing but zeros (the empty
    string included). *)
Fixpoint allZeros (s : string) : bool :=
  match s with
  | EmptyString => true
  | String c r => Ascii.eqb c "0" && allZeros r
  end.

(** [s.slice(s.length - 1)]: the last character, or the empty string. *)
Fixpoint sliceLast (s : string) : string :=
  match s with
  | EmptyString => EmptyString
  | String c EmptyString => s
  | String c r => sliceLast r
  end.

(** The characters a key handler can take: digits, periods and commas. *)
Fixpoint keepNumeric (s : string) : string :=
  match s with
  | EmptyString => EmptyString
  | String c r =>
      if JS.isDecimalChar c || Ascii.eqb c ","
      then String c (keepNumeric r) else keepNumeric r
  end.

(** Every character is a digit. *)
Fixpoint allDigits (s : string) : bool :=
  match s with
  | EmptyString => true
  | String c r => JS.isDigit c && allDigits r
  end.

End Text.

(* ================================================================== *)
(** ** Key events behind the platform filter (FlipInput.js 353-363, 417-427) *)
(* ================================================================== *)

(** [Platform.OS]. *)
Inductive OS : Type := ios | android.

Module Platform.

Section Filters.

Context {bns : BigNumberStrings} {locale : Locale}.

Definition onPrimaryChangeText (os : OS) (value : string) : Action unit :=
  (* Hack on android where to only get the number farthest to the right *)
  match os with
  | ios => ret tt
  | android =>
      if Text.matchesNonDigit value then ret tt
      else
        st <- getState ;;
        props <- getProps ;;
        onKeyPress (Text.sliceLast value) (State.primaryDecimalAmount st)
          (maxEntryDecimals (Props.primaryInfo props)) setPrimaryToSecondary
  end.

(** [key] is [e.nativeEvent.key]. *)
Definition onPrimaryKeyPress (os : OS) (key : string) : Action unit :=
  match os with
  | android =>
      if Text.matchesDigit key then ret tt
      else
        st <- getState ;;
        props <- getProps ;;
        onKeyPress key (State.primaryDecimalAmount st)
          (maxEntryDecimals (Props.primaryInfo props)) setPrimaryToSecondary
  | ios =>
      st <- getState ;;
      props <- getProps ;;
      onKeyPress key (State.primaryDecimalAmount st)
        (maxEntryDecimals (Props.primaryInfo props)) setPrimaryToSecondary
  end.

Definition onSecondaryChangeText (os : OS) (value : string) : Action unit :=
  match os with
  | ios => ret tt
  | android =>
      if Text.matchesNonDigit value then ret tt
      else
        st <- getState ;;
        props <- getProps ;;
        onKeyPress (Text.sliceLast value) (State.secondaryDecimalAmount st)
          (maxEntryDecimals (Props.secondaryInfo props)) setSecondaryToPrimary
  end.

Definition onSecondaryKeyPress (os : OS) (key : string) : Action unit :=
  match os with
  | android =>
      if Text.matchesDigit key then ret tt
      else
        st <- getState ;;
        props <- getProps ;;
        onKeyPress key (State.secondaryDecimalAmount st)
          (maxEntryDecimals (Props.secondaryInfo props)) setSecondaryToPrimary
  | ios =>
      st <- getState ;;
      props <- getProps ;;
      onKeyPress key (State.secondaryDecimalAmount st)
        (maxEntryDecimals (Props.secondaryInfo props)) setSecondaryToPrimary
  end.

End Filters.

End Platform.

(* ================================================================== *)
(** ** What the top row shows (FlipInput.js 365-372, 429-435, 462-464) *)
(* ================================================================== *)

(** [!decimalAmount || decimalAmount.match(/^0*$/)]: the amount is replaced
    by the "enter amount" text. *)
Definition displayAmountCheck (decimalAmount : string) : bool :=
  (decimalAmount =? "") || Text.allZeros decimalAmount.

(** The texts of a top row: the amount line and, when an amount is shown,
    the currency beside it. *)
Record TopRow : Type := {
  displayAmountString : string;
  topCurrency : option string;
  muted : bool
}.

(** [string_enter_amount] is [s.strings.string_enter_amount]. *)
Definition topRowFront (string_enter_amount : string) (props : Props.t) (st : State.t)
  : TopRow :=
  let displayAmountCheck := displayAmountCheck (State.primaryDecimalAmount st) in
  {| displayAmountString :=
       if displayAmountCheck then string_enter_amount else State.primaryDisplayAmount st;
     topCurrency :=
       if displayAmountCheck then None else Some (currencyCode (Props.primaryInfo props));
     muted := displayAmountCheck |}.

Definition topRowBack (string_enter_amount : string) (props : Props.t) (st : State.t)
  : TopRow :=
  let displayAmountCheck := displayAmountCheck (State.secondaryDecimalAmount st) in
  {| displayAmountString :=
       if displayAmountCheck then string_enter_amount else State.secondaryDisplayAmount st;
     topCurrency :=
       if displayAmountCheck then None else Some (currencyName (Props.secondaryInfo props));
     muted := displayAmountCheck |}.

Definition bottomRow (fieldInfo : FlipInputFieldInfo) (amount : string) : string :=
  amount ++ " " ++ currencyCode fieldInfo.

(* ================================================================== *)
(** ** Toggle, focus, clipboard menu and mounting
       (FlipInput.js 189-225, 252-337, 398-415) *)
(* ================================================================== *)

(** The comparison of the decimal-string library, used when mounting. *)
Class BigNumberCompare : Type := {
  bns_eq : string -> string -> Outcome bool
}.

(** Modelled from the spec: the "compare" of the exact-decimal arithmetic
    library of section 6, an external library that is not among the
    sources.  Two texts are equal when they denote the same number. *)
Definition exact_eq (x y : string) : Outcome bool :=
  match parseDecimal x, parseDecimal y with
  | Some a, Some b =>
      Returned (mantissa a * 10 ^ Z.of_nat (scale b) =? mantissa b * 10 ^ Z.of_nat (scale a))%Z
  | _, _ => Thrown InvalidNumber
  end.

#[export] Instance exactCompare : BigNumberCompare := {| bns_eq := exact_eq |}.

(** The two hidden text inputs. *)
Inductive Input : Type := Front | Back.

Inductive InputCall : Type :=
| Focus (input : Input)
| Blur (input : Input).

(** [Animated.timing(..., { toValue, duration })] and
    [Animated.spring(..., { toValue, friction: 8, tension: 10 })]. *)
Inductive Animation : Type :=
| Timing (toValue duration : nat)
| Spring (toValue : nat).

(** The three tasks that [componentDidMount] hands to [setTimeout]. *)
Inductive MountTask : Type :=
| GrabFocus            (* after 400 ms *)
| ClearSecondaryDisplay (* after 10 ms *)
| InitialFocus.        (* after 650 ms *)

(** The component with its instance fields and the presentation layer it
    drives: whether the two input refs are set, the focus and blur calls
    made, the animations started, and whether the clipboard menu is open. *)
Record Widget : Type := {
  component : Component;
  textInputFront : bool;
  textInputBack : bool;
  inputCalls : list InputCall;
  animations : list Animation;
  clipboardMenuOpen : bool;
  mountTimers : list (nat * MountTask)
}.

Definition withComponent (c : Component) (w : Widget) : Widget :=
  {| component := c;
     textInputFront := textInputFront w;
     textInputBack := textInputBack w;
     inputCalls := inputCalls w;
     animations := animations w;
     clipboardMenuOpen := clipboardMenuOpen w;
     mountTimers := mountTimers w |}.

(** [this.setState(...)] on the widget. *)
Definition widgetSetState (f : State.t -> State.t) (w : Widget) : Widget :=
  withComponent (snd (setState f (component w))) w.

(** [input.focus()] or [input.blur()] when the ref is set. *)
Definition callInput (call : InputCall) (w : Widget) : Widget :=
  let present :=
    match call with
    | Focus Front | Blur Front => textInputFront w
    | Focus Back | Blur Back => textInputBack w
    end in
  if present then
    {| component := component w;
       textInputFront := textInputFront w;
       textInputBack := textInputBack w;
       inputCalls := inputCalls w ++ [call];
       animations := animations w;
       clipboardMenuOpen := clipboardMenuOpen w;
       mountTimers := mountTimers w |}
  else w.

Definition animate (a : Animation) (w : Widget) : Widget :=
  {| component := component w;
     textInputFront := textInputFront w;
     textInputBack := textInputBack w;
     inputCalls := inputCalls w;
     animations := animations w ++ [a];
     clipboardMenuOpen := clipboardMenuOpen w;
     mountTimers := mountTimers w |}.

(** [this.clipboardMenu.open()] and [this.clipboardMenu.close()]. *)
Definition setClipboardMenu (open : bool) (w : Widget) : Widget :=
  {| component := component w;
     textInputFront := textInputFront w;
     textInputBack := textInputBack w;
     inputCalls := inputCalls w;
     animations := animations w;
     clipboardMenuOpen := open;
     mountTimers := mountTimers w |}.

Definition widgetSetTimeout (task : MountTask) (delay : nat) (w : Widget) : Widget :=
  {| component := component w;
     textInputFront := textInputFront w;
     textInputBack := textInputBack w;
     inputCalls := inputCalls w;
     animations := animations w;
     clipboardMenuOpen := clipboardMenuOpen w;
     mountTimers := mountTimers w ++ [(delay, task)] |}.

(** The state with another toggle. *)
Definition setIsToggled (b : bool) (st : State.t) : State.t :=
  {| State.isToggled := b;
     State.textInputFrontFocus := State.textInputFrontFocus st;
     State.textInputBackFocus := State.textInputBackFocus st;
     State.overridePrimaryDecimalAmount := State.overridePrimaryDecimalAmount st;
     State.forceUpdateGuiCounter := State.forceUpdateGuiCounter st;
     State.primaryDisplayAmount := State.primaryDisplayAmount st;
     State.secondaryDisplayAmount := State.secondaryDisplayAmount st;
     State.primaryDecimalAmount := State.primaryDecimalAmount st;
     State.secondaryDecimalAmount := State.secondaryDecimalAmount st;
     State.rerenderCounter := State.rerenderCounter st |}.

(** The state with other focus flags and rerender counter. *)
Definition setFocusFlags (front back : bool) (counter : Z) (st : State.t) : State.t :=
  {| State.isToggled := State.isToggled st;
     State.textInputFrontFocus := front;
     State.textInputBackFocus := back;
     State.overridePrimaryDecimalAmount := State.overridePrimaryDecimalAmount st;
     State.forceUpdateGuiCounter := State.forceUpdateGuiCounter st;
     State.primaryDisplayAmount := State.primaryDisplayAmount st;
     State.secondaryDisplayAmount := State.secondaryDisplayAmount st;
     State.primaryDecimalAmount := State.primaryDecimalAmount st;
     State.secondaryDecimalAmount := State.secondaryDecimalAmount st;
     State.rerenderCounter := counter |}.

(** The state with another secondary display amount. *)
Definition setSecondaryDisplayAmount (text : string) (st : State.t) : State.t :=
  {| State.isToggled := State.isToggled st;
     State.textInputFrontFocus := State.textInputFrontFocus st;
     State.textInputBackFocus := State.textInputBackFocus st;
     State.overridePrimaryDecimalAmount := State.overridePrimaryDecimalAmount st;
     State.forceUpdateGuiCounter := State.forceUpdateGuiCounter st;
     State.primaryDisplayAmount := State.primaryDisplayAmount st;
     State.secondaryDisplayAmount := text;
     State.primaryDecimalAmount := State.primaryDecimalAmount st;
     State.secondaryDecimalAmount := State.secondaryDecimalAmount st;
     State.rerenderCounter := State.rerenderCounter st |}.

Definition widgetIsToggled (w : Widget) : bool := State.isToggled (state (component w)).

(** [applied] tells whether [this.state] already shows the new toggle when
    it is read back after [setState]: it does not inside a press handler
    (the update is batched until the handler ends), it does when the method
    runs from a timer. *)
Definition onToggleFlipInput (applied : bool) (w : Widget) : Widget :=
  let w := setClipboardMenu false w in
  let before := widgetIsToggled w in
  let w := widgetSetState (setIsToggled (negb before)) w in
  let seen := if applied then negb before else before in
  let w := if seen then animate (Spring 0) (callInput (Focus Front) w) else w in
  if negb seen then animate (Spring 1) (callInput (Focus Back) w) else w.

Definition toggleCryptoOnTop (applied : bool) (w : Widget) : Widget :=
  if widgetIsToggled w then onToggleFlipInput applied w else w.

Definition textInputTopFocus (w : Widget) : Widget :=
  if widgetIsToggled w then callInput (Focus Back) w else callInput (Focus Front) w.

Definition textInputTopBlur (w : Widget) : Widget :=
  if widgetIsToggled w then callInput (Blur Back) w else callInput (Blur Front) w.

Definition textInputFrontFocusTrue (w : Widget) : Widget :=
  widgetSetState
    (fun st => setFocusFlags true (State.textInputBackFocus st)
                 (State.rerenderCounter st + 1)%Z st) w.

Definition textInputFrontFocusFalse (w : Widget) : Widget :=
  widgetSetState
    (fun st => setFocusFlags false (State.textInputBackFocus st) (State.rerenderCounter st) st) w.

Definition textInputBackFocusTrue (w : Widget) : Widget :=
  widgetSetState
    (fun st => setFocusFlags (State.textInputFrontFocus st) true (State.rerenderCounter st) st) w.

Definition textInputBackFocusFalse (w : Widget) : Widget :=
  widgetSetState
    (fun st => setFocusFlags (State.textInputFrontFocus st) false (State.rerenderCounter st) st) w.

(** [clipboard] is what awaiting [Clipboard.getString()] gives; it is only
    awaited when one of the two inputs has focus. *)
Definition openClipboardMenu (clipboard : Outcome string) (w : Widget) : Widget :=
  let w := setClipboardMenu false w in
  let st := state (component w) in
  if State.textInputFrontFocus st || State.textInputBackFocus st then
    match clipboard with
    | Returned text => if text =? "" then w else setClipboardMenu true w
    | Thrown error => withComponent (snd (showError error (component w))) w
    end
  else w.

(** A press on the front top row. *)
Definition textInputFrontFocus (clipboard : Outcome string) (w : Widget) : Widget :=
  callInput (Focus Front) (openClipboardMenu clipboard w).

(** A press on the back top row. *)
Definition textInputBackFocus (clipboard : Outcome string) (w : Widget) : Widget :=
  callInput (Focus Back) (openClipboardMenu clipboard w).

Definition componentDidMount (w : Widget) : Widget :=
  let props := props (component w) in
  let w := widgetSetTimeout GrabFocus 400 w in
  let w :=
    if Props.isFiatOnTop props then
      let w := widgetSetState (fun st => setIsToggled (negb (State.isToggled st)) st) w in
      let w := animate (Timing 1 0) w in
      widgetSetTimeout ClearSecondaryDisplay 10 w
    else w in
  if Props.isFocus props then widgetSetTimeout InitialFocus 650 w else w.

Section Mounting.

Context {compare : BigNumberCompare}.

(** What a task of [componentDidMount] does when its timer fires.
    [applied] is as for [onToggleFlipInput]: whether a [setState] made
    inside a timer shows in [this.state] at once. *)
Definition runMountTask (applied : bool) (task : MountTask) (w : Widget)
  : Outcome unit * Widget :=
  let props := props (component w) in
  match task with
  | GrabFocus =>
      if Props.keyboardVisible props && (Props.overridePrimaryDecimalAmount props =? "0")
      then (Returned tt, callInput (Focus Front) w)
      else (Returned tt, w)
  | ClearSecondaryDisplay =>
      (Returned tt, widgetSetState (setSecondaryDisplayAmount "") w)
  | InitialFocus =>
      if widgetIsToggled w then
        let exchangeSecondaryToPrimaryRatio := Props.exchangeSecondaryToPrimaryRatio props in
        match bns_eq exchangeSecondaryToPrimaryRatio "0" with
        | Thrown e => (Thrown e, w)
        | Returned isZero =>
            if isZero || (exchangeSecondaryToPrimaryRatio =? "")
            then (Returned tt, toggleCryptoOnTop applied w)
            else (Returned tt, callInput (Focus Back) w)
        end
      else (Returned tt, callInput (Focus Front) w)
  end.

(** The timers of a list fire one after the other; a task that throws does
    not stop the later ones. *)
Fixpoint runMountTasks (applied : bool) (tasks : list MountTask) (w : Widget) : Widget :=
  match tasks with
  | [] => w
  | task :: rest => runMountTasks applied rest (snd (runMountTask applied task w))
  end.

End Mounting.

(** A widget around a component, both refs set, nothing called yet. *)
Definition rendered (c : Component) : Widget :=
  {| component := c;
     textInputFront := true;
     textInputBack := true;
     inputCalls := [];
     animations := [];
     clipboardMenuOpen := false;
     mountTimers := [] |}.

(** The tasks of a timer list in the order in which they fire: by delay,
    and in the order of the calls for equal delays. *)
Fixpoint insertByDelay {A} (entry : nat * A) (sorted : list (nat * A)) : list (nat * A) :=
  match sorted with
  | [] => [entry]
  | first :: rest =>
      if (fst entry <? fst first)%nat then entry :: sorted
      else first :: insertByDelay entry rest
  end.

Definition dueOrder {A} (timers : list (nat * A)) : list A :=
  map snd (fold_left (fun sorted entry => insertByDelay entry sorted) timers []).

(* ================================================================== *)
(** ** More vocabulary *)
(* ================================================================== *)

(** The same props with the presentation flags of the parent. *)
Definition presenting (isFiatOnTop isFocus keyboardVisible : bool) (p : Props.t) : Props.t :=
  {| Props.overridePrimaryDecimalAmount := Props.overridePrimaryDecimalAmount p;
     Props.exchangeSecondaryToPrimaryRatio := Props.exchangeSecondaryToPrimaryRatio p;
     Props.primaryInfo := Props.primaryInfo p;
     Props.secondaryInfo := Props.secondaryInfo p;
     Props.forceUpdateGuiCounter := Props.forceUpdateGuiCounter p;
     Props.isEditable := Props.isEditable p;
     Props.isFiatOnTop := isFiatOnTop;
     Props.isFocus := isFocus;
     Props.keyboardVisible := keyboardVisible |}.

(** An amount as the key handlers keep it: digits and periods only, at most
    one period, at most [max] characters behind it. *)
Definition wellFormedAmount (max : nat) (s : string) : Prop :=
  JS.allDecimal s = true /\ JS.periods s <= 1 /\ fractionWithin max s.

(** [a] is at most [b], as numbers. *)
Definition leValue (a b : Decimal) : Prop :=
  (mantissa a * 10 ^ Z.of_nat (scale b) <= mantissa b * 10 ^ Z.of_nat (scale a))%Z.

(** [a] is less than [b], as numbers. *)
Definition ltValue (a b : Decimal) : Prop :=
  (mantissa a * 10 ^ Z.of_nat (scale b) < mantissa b * 10 ^ Z.of_nat (scale a))%Z.

(** [d] plus one unit of the [n]-th decimal place. *)
Definition nextStep (n : nat) (d : Decimal) : Decimal :=
  mkDecimal (mantissa d * 10 ^ Z.of_nat n + 10 ^ Z.of_nat (scale d)) (scale d + n).

(** A handler touched nothing but the four amounts and the callback log,
    to which it only added. *)
Definition touchedAmountsOnly (c c' : Component) : Prop :=
  props c' = props c
  /\ timers c' = timers c
  /\ shownErrors c' = shownErrors c
  /\ State.isToggled (state c') = State.isToggled (state c)
  /\ State.textInputFrontFocus (state c') = State.textInputFrontFocus (state c)
  /\ State.textInputBackFocus (state c') = State.textInputBackFocus (state c)
  /\ State.overridePrimaryDecimalAmount (state c') = State.overridePrimaryDecimalAmount (state c)
  /\ State.forceUpdateGuiCounter (state c') = State.forceUpdateGuiCounter (state c)
  /\ State.rerenderCounter (state c') = State.rerenderCounter (state c)
  /\ exists calls, amountChangedCalls c' = (amountChangedCalls c ++ calls)%list.

(* ================================================================== *)
(** * Properties *)
(* ================================================================== *)

(* ================================================================== *)
(** ** Strings: periods, legal characters, truncation *)
(* ================================================================== *)


Lemma allDecimal_app (s t : string) :
  JS.allDecimal (s ++ t) = JS.allDecimal s && JS.allDecimal t.
Proof.
  induction s as [|c s IH]; simpl; [reflexivity|].
  rewrite IH. now rewrite andb_assoc.
Qed.

Lemma allDecimal_removeNonDecimal (s : string) :
  JS.allDecimal (JS.removeNonDecimal s) = true.
Proof.
  induction s as [|c s IH]; simpl; [reflexivity|].
  destruct (JS.isDecimalChar c) eqn:E; simpl; [rewrite E|]; exact IH.
Qed.



Lemma allDecimal_integersOf (s : string) :
  JS.allDecimal s = true -> JS.allDecimal (integersOf s) = true.
Proof.
  induction s as [|c s IH]; simpl; [reflexivity|].
  intros H. apply andb_prop in H as [Hc Hs].
  destruct (JS.isPeriod c); simpl; [reflexivity|]. rewrite Hc. auto.
Qed.

Lemma allDecimal_afterPeriod (s rest : string) :
  JS.allDecimal s = true -> afterPeriod s = Some rest -> JS.allDecimal rest = true.
Proof.
  induction s as [|c s IH]; simpl; [discriminate 2|].
  intros H. apply andb_prop in H as [Hc Hs].
  destruct (JS.isPeriod c); [intros [= <-]; exact Hs | auto].
Qed.

Lemma allDecimal_slice0 (n : nat) (s : string) :
  JS.allDecimal s = true -> JS.allDecimal (JS.slice0 n s) = true.
Proof.
  revert s. induction n as [|n IH]; intros [|c s]; simpl; intros H; try reflexivity.
  apply andb_prop in H as [Hc Hs]. rewrite Hc. simpl. auto.
Qed.

Lemma afterPeriod_integersOf (s : string) : afterPeriod (integersOf s) = None.
Proof.
  induction s as [|c s IH]; simpl; [reflexivity|].
  destruct (JS.isPeriod c) eqn:E; simpl; [reflexivity|]. now rewrite E.
Qed.

Lemma integersOf_without_period (s : string) :
  afterPeriod s = None -> integersOf s = s.
Proof.
  induction s as [|c s IH]; simpl; [reflexivity|].
  destruct (JS.isPeriod c); [discriminate 1|]. intros H. f_equal. auto.
Qed.

Lemma afterPeriod_slice0 (n : nat) (s : string) :
  afterPeriod s = None -> afterPeriod (JS.slice0 n s) = None.
Proof.
  revert s. induction n as [|n IH]; intros [|c s]; simpl; intros H; try reflexivity.
  destruct (JS.isPeriod c); [discriminate H | auto].
Qed.

Lemma afterPeriod_join (i f : string) :
  afterPeriod i = None -> afterPeriod (i ++ "." ++ f) = Some f.
Proof.
  induction i as [|c i IH]; simpl; [reflexivity|].
  destruct (JS.isPeriod c); [discriminate 1 | auto].
Qed.

Lemma integersOf_join (i f : string) :
  afterPeriod i = None -> integersOf (i ++ "." ++ f) = i.
Proof.
  induction i as [|c i IH]; simpl; [reflexivity|].
  destruct (JS.isPeriod c); [discriminate 1|]. intros H. f_equal. auto.
Qed.


Lemma truncateDecimalsPeriod_without_period (s : string) (n : nat) :
  afterPeriod s = None -> truncateDecimalsPeriod s n = s.
Proof. intros E. unfold truncateDecimalsPeriod. now rewrite E. Qed.

Lemma truncateDecimalsPeriod_with_period (s rest : string) (n : nat) :
  afterPeriod s = Some rest ->
  truncateDecimalsPeriod s n =
    match n with
    | O => integersOf s
    | S _ => integersOf s ++ "." ++ JS.slice0 n (integersOf rest)
    end.
Proof. intros E. unfold truncateDecimalsPeriod. now rewrite E. Qed.


Lemma allDecimal_truncateDecimalsPeriod (s : string) (n : nat) :
  JS.allDecimal s = true -> JS.allDecimal (truncateDecimalsPeriod s n) = true.
Proof.
  intros H. unfold truncateDecimalsPeriod.
  destruct (afterPeriod s) as [rest|] eqn:E; [|exact H].
  destruct n as [|n]; [now apply allDecimal_integersOf|].
  rewrite !allDecimal_app, allDecimal_integersOf by exact H.
  change (JS.allDecimal ".") with true. rewrite !andb_true_l.
  apply allDecimal_slice0, allDecimal_integersOf. eapply allDecimal_afterPeriod; eauto.
Qed.

Lemma periods_app (s t : string) : JS.periods (s ++ t) = JS.periods s + JS.periods t.
Proof. induction s as [|c s IH]; simpl; [reflexivity | rewrite IH; lia]. Qed.

Lemma periods_without_period (s : string) : afterPeriod s = None -> JS.periods s = 0.
Proof.
  induction s as [|c s IH]; simpl; [reflexivity|].
  destruct (JS.isPeriod c); [discriminate 1 | auto].
Qed.

Lemma periods_with_period (s rest : string) :
  afterPeriod s = Some rest -> 1 <= JS.periods s.
Proof.
  induction s as [|c s IH]; simpl; [discriminate 1|].
  destruct (JS.isPeriod c); [lia | auto].
Qed.

Lemma includes_period (s : string) :
  JS.includes "." s = false <-> JS.periods s = 0.
Proof.
  induction s as [|c s IH]; simpl; [tauto|]. unfold JS.isPeriod.
  destruct (Ascii.eqb c "."); simpl; [split; [discriminate | lia] | exact IH].
Qed.

Lemma periods_truncateDecimalsPeriod (s : string) (n : nat) :
  JS.periods (truncateDecimalsPeriod s n) <= 1 /\
  JS.periods (truncateDecimalsPeriod s n) <= JS.periods s.
Proof.
  unfold truncateDecimalsPeriod.
  destruct (afterPeriod s) as [rest|] eqn:E.
  - pose proof (periods_with_period _ _ E) as H1.
    pose proof (periods_without_period _ (afterPeriod_integersOf s)) as Hi.
    destruct n as [|n]; [lia|].
    rewrite !periods_app, Hi. change (JS.periods ".") with 1.
    rewrite (periods_without_period _ (afterPeriod_slice0 (S n) _ (afterPeriod_integersOf rest))).
    lia.
  - rewrite (periods_without_period _ E). lia.
Qed.

Lemma sliceInit_cons (c d : ascii) (s : string) :
  JS.sliceInit (String c (String d s)) = String c (JS.sliceInit (String d s)).
Proof. reflexivity. Qed.

Lemma periods_cons (c : ascii) (s : string) :
  JS.periods (String c s) = (if JS.isPeriod c then 1 else 0) + JS.periods s.
Proof. reflexivity. Qed.

Lemma periods_sliceInit (s : string) : JS.periods (JS.sliceInit s) <= JS.periods s.
Proof.
  induction s as [|c s IH]; [simpl; lia|].
  destruct s as [|d s]; [simpl; lia|].
  rewrite sliceInit_cons, (periods_cons c (String d s)), (periods_cons c (JS.sliceInit _)).
  lia.
Qed.

Lemma length_integersOf (s : string) : String.length (integersOf s) <= String.length s.
Proof.
  induction s as [|c s IH]; simpl; [lia|]. destruct (JS.isPeriod c); simpl; lia.
Qed.

Lemma length_afterPeriod (s rest : string) :
  afterPeriod s = Some rest ->
  String.length s = String.length (integersOf s) + 1 + String.length rest.
Proof.
  revert rest. induction s as [|c s IH]; simpl; [discriminate 1|]. intros rest.
  destruct (JS.isPeriod c); [intros [= <-]; simpl; lia|].
  intros H. simpl. rewrite (IH _ H). lia.
Qed.

Lemma length_slice0 (n : nat) (s : string) :
  String.length (JS.slice0 n s) <= String.length s /\ String.length (JS.slice0 n s) <= n.
Proof.
  revert s. induction n as [|n IH]; intros [|c s]; simpl; try lia.
  specialize (IH s). lia.
Qed.

Lemma length_append (s t : string) :
  String.length (s ++ t) = String.length s + String.length t.
Proof. induction s as [|c s IH]; simpl; [reflexivity | now rewrite IH]. Qed.

Lemma length_truncateDecimalsPeriod (s : string) (n : nat) :
  String.length (truncateDecimalsPeriod s n) <= String.length s.
Proof.
  unfold truncateDecimalsPeriod.
  destruct (afterPeriod s) as [rest|] eqn:E; [|lia].
  destruct n as [|n]; [apply length_integersOf|].
  rewrite (length_afterPeriod _ _ E), !length_append.
  change (String.length ".") with 1.
  pose proof (length_slice0 (S n) (integersOf rest)).
  pose proof (length_integersOf rest). lia.
Qed.

Lemma length_sliceInit (s : string) :
  String.length (JS.sliceInit s) = Nat.pred (String.length s).
Proof.
  induction s as [|c s IH]; [reflexivity|].
  destruct s as [|d s]; [reflexivity|].
  rewrite sliceInit_cons.
  change (S (String.length (JS.sliceInit (String d s))) = String.length (String d s)).
  rewrite IH. reflexivity.
Qed.

(* ================================================================== *)
(** ** The sanitizer and the keystroke accumulator *)
(* ================================================================== *)

Lemma fractionWithin_truncateDecimalsPeriod (s : string) (n : nat) :
  fractionWithin n (truncateDecimalsPeriod s n).
Proof.
  unfold fractionWithin.
  destruct (afterPeriod s) as [rest|] eqn:E.
  - rewrite (truncateDecimalsPeriod_with_period _ _ n E).
    pose proof (afterPeriod_integersOf s) as Hi.
    destruct n as [|n]; [now rewrite Hi|].
    rewrite (afterPeriod_join _ _ Hi). apply length_slice0.
  - rewrite (truncateDecimalsPeriod_without_period _ n E). now rewrite E.
Qed.


(* ------------------------------------------------------------------ *)

Lemma digit_not_comma (c : ascii) : JS.isDigit c = true -> Ascii.eqb c "," = false.
Proof.
  intros H. destruct (Ascii.eqb_spec c ","); [subst c; discriminate H | reflexivity].
Qed.

Lemma digit_not_period (c : ascii) : JS.isDigit c = true -> JS.isPeriod c = false.
Proof.
  intros H. unfold JS.isPeriod.
  destruct (Ascii.eqb_spec c "."); [subst c; discriminate H | reflexivity].
Qed.

Lemma keyPressAmount_backspace (acc : string) (max : nat) :
  keyPressAmount "Backspace" acc max = Some (truncateDecimals (JS.sliceInit acc) max).
Proof. reflexivity. Qed.

Lemma keyPressAmount_period (acc : string) (max : nat) :
  keyPressAmount "." acc max =
    if JS.includes "." acc then None else Some (truncateDecimals (acc ++ ".") max).
Proof.
  unfold keyPressAmount, checkKeyPress. simpl. now destruct (JS.includes "." acc).
Qed.

Lemma keyPressAmount_digit (c : ascii) (acc : string) (max : nat) :
  JS.isDigit c = true ->
  keyPressAmount (String c "") acc max = Some (truncateDecimals (acc ++ String c "") max).
Proof.
  intros H. unfold keyPressAmount, checkKeyPress. simpl.
  rewrite (digit_not_comma c H).
  assert (Hp := digit_not_period c H). unfold JS.isPeriod in Hp.
  assert (Hb : (String c "" =? "Backspace") = false) by (simpl; now destruct (Ascii.eqb c "B")).
  rewrite Hb. simpl. rewrite Hp. simpl.
  unfold JS.isDecimalChar. now rewrite H.
Qed.

Lemma keypad_key_cases (key : string) :
  isKeypadKey key = true ->
  (exists c, key = String c "" /\ JS.isDigit c = true) \/ key = "." \/ key = "Backspace".
Proof.
  unfold isKeypadKey. intros H.
  apply orb_prop in H as [H|H]; [apply orb_prop in H as [H|H]|].
  - left. destruct key as [|c [|d r]]; try discriminate H. now exists c.
  - right; left. now apply String.eqb_eq.
  - right; right. now apply String.eqb_eq.
Qed.

Lemma periods_accumulatorAfter (key acc : string) (max : nat) :
  isKeypadKey key = true -> JS.periods acc <= 1 ->
  JS.periods (accumulatorAfter key acc max) <= 1.
Proof.
  intros Hk Hacc. unfold accumulatorAfter.
  destruct (keypad_key_cases key Hk) as [(c & -> & Hc) | [-> | ->]].
  - rewrite (keyPressAmount_digit c acc max Hc). unfold truncateDecimals.
    pose proof (periods_truncateDecimalsPeriod (acc ++ String c "") max) as [_ H].
    rewrite periods_app in H. simpl in H. rewrite (digit_not_period c Hc) in H. lia.
  - rewrite keyPressAmount_period.
    destruct (JS.includes "." acc) eqn:E; [exact Hacc|].
    apply includes_period in E. unfold truncateDecimals.
    pose proof (periods_truncateDecimalsPeriod (acc ++ ".") max) as [_ H].
    rewrite periods_app in H. simpl in H. lia.
  - rewrite keyPressAmount_backspace. unfold truncateDecimals.
    pose proof (periods_truncateDecimalsPeriod (JS.sliceInit acc) max) as [_ H].
    pose proof (periods_sliceInit acc). lia.
Qed.

(** C6: single decimal point.  Starting from an accumulator with at most
    one period, every accumulator seen while a sequence of digit, period and
    backspace keys is processed has at most one period; a period key is
    ignored whenever the accumulator already includes a period, and no other
    keypad key adds one. *)
Theorem single_decimal_point (keys : list string) (acc : string) (max : nat) :
  Forall (fun key => isKeypadKey key = true) keys ->
  JS.periods acc <= 1 ->
  Forall (fun amount => JS.periods amount <= 1) (accumulatorTrace keys acc max)
  /\ (forall amount, JS.includes "." amount = true -> keyPressAmount "." amount max = None)
  /\ (forall key amount, isKeypadKey key = true -> key <> "." ->
        JS.periods (accumulatorAfter key amount max) <= JS.periods amount).
Proof.
  intros Hkeys Hacc. split; [|split].
  - revert acc Hacc. induction Hkeys as [|key keys Hk _ IH]; intros acc Hacc; simpl.
    + constructor.
    + pose proof (periods_accumulatorAfter key acc max Hk Hacc) as Hnext.
      constructor; [exact Hnext | apply IH, Hnext].
  - intros amount H. rewrite keyPressAmount_period. now rewrite H.
  - intros key amount Hk Hne. unfold accumulatorAfter.
    destruct (keypad_key_cases key Hk) as [(c & -> & Hc) | [-> | ->]].
    + rewrite (keyPressAmount_digit c amount max Hc). unfold truncateDecimals.
      pose proof (periods_truncateDecimalsPeriod (amount ++ String c "") max) as [_ H].
      rewrite periods_app in H. simpl in H. rewrite (digit_not_period c Hc) in H. lia.
    + now elim Hne.
    + rewrite keyPressAmount_backspace. unfold truncateDecimals.
      pose proof (periods_truncateDecimalsPeriod (JS.sliceInit amount) max) as [_ H].
      pose proof (periods_sliceInit amount). lia.
Qed.

(** The keys [1 . 5 . Backspace Backspace .] typed after ["0"]. *)
Lemma single_decimal_point_witness :
  Forall (fun amount => JS.periods amount <= 1)
    (accumulatorTrace ["1"; "."; "5"; "."; "Backspace"; "Backspace"; "."] "0" 8).
Proof.
  apply (single_decimal_point ["1"; "."; "5"; "."; "Backspace"; "Backspace"; "."] "0" 8).
  - repeat constructor.
  - simpl. lia.
Defined.

(* ================================================================== *)
(** ** Decimal texts: reading and printing *)
(* ================================================================== *)

Lemma digitChar_digit (d : Z) :
  (0 <= d < 10)%Z -> JS.isDigit (digitChar d) = true /\ digitValue (digitChar d) = d.
Proof.
  intros H.
  assert (C : (d = 0 \/ d = 1 \/ d = 2 \/ d = 3 \/ d = 4 \/ d = 5 \/ d = 6 \/ d = 7
               \/ d = 8 \/ d = 9)%Z) by lia.
  repeat (destruct C as [-> | C]; [split; reflexivity|]). subst d. split; reflexivity.
Qed.

Lemma digitValue_range (c : ascii) :
  JS.isDigit c = true -> (0 <= digitValue c < 10)%Z.
Proof.
  unfold JS.isDigit, digitValue. intros H. apply andb_prop in H as [H1 H2].
  apply Nat.leb_le in H1, H2. lia.
Qed.

Lemma digit_zero (c : ascii) : Ascii.eqb c "0" = true -> JS.isDigit c = true /\ digitValue c = 0%Z.
Proof. intros H. apply Ascii.eqb_eq in H. subst c. split; reflexivity. Qed.

Lemma readDigits_app (acc : Z) (s t : string) :
  readDigits acc (s ++ t) =
    match readDigits acc s with
    | Some v => readDigits v t
    | None => None
    end.
Proof.
  revert acc. induction s as [|c s IH]; intros acc; simpl; [reflexivity|].
  destruct (JS.isDigit c); [apply IH | reflexivity].
Qed.

Lemma readDigits_fixedDigits (w : nat) (acc n : Z) :
  (0 <= n)%Z ->
  readDigits acc (fixedDigits w n) = Some (acc * 10 ^ Z.of_nat w + n mod 10 ^ Z.of_nat w)%Z.
Proof.
  revert acc n. induction w as [|w IH]; intros acc n Hn.
  - simpl. f_equal. rewrite Z.mod_1_r. lia.
  - cbn [fixedDigits]. rewrite readDigits_app, IH by (apply Z.div_pos; lia).
    assert (Hd : (0 <= n mod 10 < 10)%Z) by (apply Z.mod_pos_bound; lia).
    destruct (digitChar_digit _ Hd) as [Hc Hv].
    cbn [readDigits]. rewrite Hc, Hv. f_equal.
    rewrite Nat2Z.inj_succ, Z.pow_succ_r by lia.
    set (p := (10 ^ Z.of_nat w)%Z).
    assert (Hp : (0 < p)%Z) by (apply Z.pow_pos_nonneg; lia).
    rewrite Z.rem_mul_r by lia. ring.
Qed.

Lemma readDigits_without_period (acc : Z) (s : string) (v : Z) :
  readDigits acc s = Some v -> afterPeriod s = None.
Proof.
  revert acc. induction s as [|c s IH]; intros acc; simpl; [reflexivity|].
  destruct (JS.isDigit c) eqn:E; [|discriminate 1].
  rewrite (digit_not_period c E). apply IH.
Qed.

Lemma readDigits_nonneg (acc : Z) (s : string) (v : Z) :
  (0 <= acc)%Z -> readDigits acc s = Some v -> (0 <= v)%Z.
Proof.
  revert acc. induction s as [|c s IH]; intros acc Hacc; simpl.
  - intros [= <-]. exact Hacc.
  - destruct (JS.isDigit c) eqn:E; [|discriminate 1].
    intros H. apply (IH (10 * acc + digitValue c)%Z); [|exact H].
    pose proof (digitValue_range c E). lia.
Qed.

Lemma length_fixedDigits (w : nat) (n : Z) : String.length (fixedDigits w n) = w.
Proof.
  revert n. induction w as [|w IH]; intros n; [reflexivity|].
  cbn [fixedDigits]. rewrite length_append, IH. simpl. lia.
Qed.

Lemma readDigits_trimLeadingZeros (s : string) :
  readDigits 0 (trimLeadingZeros s) = readDigits 0 s.
Proof.
  induction s as [|c s IH]; [reflexivity|].
  cbn [trimLeadingZeros].
  destruct (Ascii.eqb c "0" && negb (s =? "")) eqn:E; [|reflexivity].
  apply andb_prop in E as [E _]. destruct (digit_zero c E) as [Hd Hv].
  cbn [readDigits]. rewrite Hd, Hv. exact IH.
Qed.

Lemma readDigits_trimTrailingZeros (s : string) (acc v : Z) :
  readDigits acc s = Some v ->
  exists (k : nat) (v' : Z),
    String.length s = String.length (trimTrailingZeros s) + k
    /\ readDigits acc (trimTrailingZeros s) = Some v'
    /\ v = (v' * 10 ^ Z.of_nat k)%Z.
Proof.
  revert acc. induction s as [|c s IH]; intros acc H.
  - exists 0, acc. simpl in *. injection H as <-. repeat split. lia.
  - cbn [readDigits] in H. destruct (JS.isDigit c) eqn:Ec; [|discriminate H].
    destruct (IH _ H) as (k & v' & Hlen & Hread & Hv).
    cbn [trimTrailingZeros].
    destruct (Ascii.eqb c "0" && (trimTrailingZeros s =? "")) eqn:E.
    + apply andb_prop in E as [E0 Et]. apply String.eqb_eq in Et.
      destruct (digit_zero c E0) as [_ Hz].
      rewrite Et in Hread, Hlen. cbn [readDigits] in Hread.
      assert (v' = 10 * acc + digitValue c)%Z by congruence. subst v'.
      exists (S k), acc. repeat split.
      * simpl in *. lia.
      * rewrite Hv, Hz, Nat2Z.inj_succ, Z.pow_succ_r by lia. ring.
    + exists k, v'. repeat split.
      * simpl. lia.
      * cbn [readDigits]. now rewrite Ec.
      * exact Hv.
Qed.

Lemma below_digitsFor (n : Z) : (0 <= n)%Z -> (n < 10 ^ Z.of_nat (digitsFor n))%Z.
Proof.
  intros Hn. unfold digitsFor.
  pose proof (Z.log2_nonneg n) as Hl.
  rewrite Nat2Z.inj_succ, Z2Nat.id by exact Hl.
  assert (H2 : (n < 2 ^ Z.succ (Z.log2 n))%Z).
  { destruct (Z.eq_dec n 0) as [-> | Hne]; [reflexivity|].
    apply Z.log2_spec. lia. }
  assert (H10 : (2 ^ Z.succ (Z.log2 n) <= 10 ^ Z.succ (Z.log2 n))%Z)
    by (apply Z.pow_le_mono_l; lia).
  lia.
Qed.

Lemma readDigits_integers (q : Z) :
  (0 <= q)%Z ->
  readDigits 0 (trimLeadingZeros (fixedDigits (digitsFor q) q)) = Some q.
Proof.
  intros Hq. rewrite readDigits_trimLeadingZeros, readDigits_fixedDigits by exact Hq.
  rewrite Z.mod_small by (split; [exact Hq | now apply below_digitsFor]).
  reflexivity.
Qed.

Lemma pow10_pos (n : nat) : (0 < 10 ^ Z.of_nat n)%Z.
Proof. apply Z.pow_pos_nonneg; lia. Qed.

Lemma pow10_add (a b : nat) :
  (10 ^ Z.of_nat (a + b) = 10 ^ Z.of_nat a * 10 ^ Z.of_nat b)%Z.
Proof. rewrite Nat2Z.inj_add, Z.pow_add_r by lia. reflexivity. Qed.

(** How a printed decimal is built: the integer digits, then a period and
    the fractional digits unless there are none; [k] trailing zeros of the
    fraction were dropped. *)
Lemma printDecimal_shape (d : Decimal) :
  (0 <= mantissa d)%Z ->
  exists (integers decimals : string) (V : Z) (k : nat),
    printDecimal d = (if decimals =? "" then integers else integers ++ "." ++ decimals)
    /\ readDigits 0 integers = Some (mantissa d / 10 ^ Z.of_nat (scale d))%Z
    /\ readDigits (mantissa d / 10 ^ Z.of_nat (scale d)) decimals = Some V
    /\ (V * 10 ^ Z.of_nat k = mantissa d)%Z
    /\ scale d = String.length decimals + k.
Proof.
  destruct d as [m s]. cbn [mantissa scale]. intros Hm.
  unfold printDecimal. cbn [mantissa scale].
  set (u := (10 ^ Z.of_nat s)%Z).
  assert (Hu : (0 < u)%Z) by apply pow10_pos.
  set (q := (m / u)%Z). set (r := (m mod u)%Z).
  assert (Hq : (0 <= q)%Z) by (apply Z.div_pos; lia).
  assert (Hr : (0 <= r < u)%Z) by (apply Z.mod_pos_bound; lia).
  assert (Hm' : (m = q * u + r)%Z)
    by (unfold q, r; rewrite (Z.mul_comm _ u); apply Z.div_mod; lia).
  assert (Hfrac : readDigits q (fixedDigits s r) = Some (q * u + r)%Z).
  { rewrite readDigits_fixedDigits by lia. fold u. now rewrite Z.mod_small by lia. }
  destruct (readDigits_trimTrailingZeros _ _ _ Hfrac) as (k & V & Hlen & Hread & Hv).
  rewrite length_fixedDigits in Hlen.
  exists (trimLeadingZeros (fixedDigits (digitsFor q) q)),
         (trimTrailingZeros (fixedDigits s r)), V, k.
  repeat split.
  - now apply readDigits_integers.
  - exact Hread.
  - lia.
  - exact Hlen.
Qed.

(** Reading back what was printed gives the same number. *)
Lemma parseDecimal_printDecimal (d : Decimal) :
  (0 <= mantissa d)%Z ->
  exists d', parseDecimal (printDecimal d) = Some d'
             /\ sameValue d' d /\ (0 <= mantissa d')%Z.
Proof.
  intros Hm.
  destruct (printDecimal_shape d Hm) as (integers & decimals & V & k & -> & Hi & Hf & HV & Hs).
  pose proof (readDigits_without_period _ _ _ Hi) as Hnp.
  pose proof (pow10_pos k) as Hk.
  pose proof (pow10_pos (scale d)) as Hu.
  assert (Hq : (0 <= mantissa d / 10 ^ Z.of_nat (scale d))%Z) by (apply Z.div_pos; lia).
  destruct (String.eqb_spec decimals "") as [Hd | Hd].
  - exists (mkDecimal (mantissa d / 10 ^ Z.of_nat (scale d)) 0).
    unfold parseDecimal. rewrite Hnp, Hi. repeat split; [|exact Hq].
    unfold sameValue. cbn [mantissa scale].
    rewrite Hd in Hf, Hs. cbn [readDigits] in Hf. simpl in Hs. subst k.
    assert (HVq : (V = mantissa d / 10 ^ Z.of_nat (scale d))%Z) by congruence.
    change (10 ^ Z.of_nat 0)%Z with 1%Z. rewrite <- HVq, HV. ring.
  - exists (mkDecimal V (String.length decimals)). unfold parseDecimal.
    rewrite (afterPeriod_join _ _ Hnp), (integersOf_join _ _ Hnp).
    rewrite readDigits_app, Hi, Hf.
    repeat split.
    + unfold sameValue. cbn [mantissa scale].
      rewrite Hs, pow10_add, <- HV. ring.
    + apply (proj1 (Z.mul_nonneg_cancel_r V _ Hk)). lia.
Qed.

Lemma trimTrailingZeros_app_zero (s : string) :
  trimTrailingZeros (s ++ "0") = trimTrailingZeros s.
Proof.
  induction s as [|c s IH]; [reflexivity|].
  cbn [append trimTrailingZeros]. now rewrite IH.
Qed.

Lemma fixedDigits_times_ten (w : nat) (n : Z) :
  fixedDigits (S w) (n * 10) = fixedDigits w n ++ "0".
Proof.
  cbn [fixedDigits]. rewrite Z.div_mul, Z.mod_mul by lia. reflexivity.
Qed.

Lemma printDecimal_times_ten (m : Z) (s : nat) :
  printDecimal (mkDecimal (m * 10) (S s)) = printDecimal (mkDecimal m s).
Proof.
  unfold printDecimal. cbn [mantissa scale].
  pose proof (pow10_pos s) as Hu.
  rewrite Nat2Z.inj_succ, Z.pow_succ_r by lia.
  rewrite (Z.mul_comm 10 (10 ^ Z.of_nat s)).
  rewrite Z.div_mul_cancel_r, Z.mul_mod_distr_r by lia.
  now rewrite fixedDigits_times_ten, trimTrailingZeros_app_zero.
Qed.

Lemma printDecimal_scaled (m : Z) (s k : nat) :
  printDecimal (mkDecimal (m * 10 ^ Z.of_nat k) (s + k)) = printDecimal (mkDecimal m s).
Proof.
  induction k as [|k IH].
  - rewrite Nat.add_0_r. change (10 ^ Z.of_nat 0)%Z with 1%Z. now rewrite Z.mul_1_r.
  - rewrite Nat.add_succ_r, Nat2Z.inj_succ, Z.pow_succ_r by lia.
    replace (m * (10 * 10 ^ Z.of_nat k))%Z with (m * 10 ^ Z.of_nat k * 10)%Z by ring.
    now rewrite printDecimal_times_ten.
Qed.

Lemma parseDecimal_nonneg (s : string) (d : Decimal) :
  parseDecimal s = Some d -> (0 <= mantissa d)%Z.
Proof.
  unfold parseDecimal. destruct (afterPeriod s) as [fraction|].
  - destruct (readDigits 0 _) as [m|] eqn:E; [|discriminate 1].
    intros [= <-]. cbn. eapply readDigits_nonneg; [|exact E]. lia.
  - destruct (readDigits 0 s) as [m|] eqn:E; [|discriminate 1].
    intros [= <-]. cbn. eapply readDigits_nonneg; [|exact E]. lia.
Qed.

Lemma exact_mul_parsed (x y : string) (a b : Decimal) :
  parseDecimal x = Some a -> parseDecimal y = Some b ->
  exact_mul x y = Returned (printDecimal (product a b)).
Proof. intros Hx Hy. unfold exact_mul. now rewrite Hx, Hy. Qed.

(** Dividing the printed product by one factor gives the other one back,
    cut at the precision of the division. *)
Lemma exact_div_product (y : string) (a b : Decimal) (precision : nat) :
  parseDecimal y = Some b -> (0 <= mantissa a)%Z -> mantissa b <> 0%Z ->
  exact_div (printDecimal (product a b)) y precision
    = Returned (printDecimal (cutDecimal precision a)).
Proof.
  intros Hy Ha Hb.
  pose proof (parseDecimal_nonneg _ _ Hy) as Hb0.
  destruct (parseDecimal_printDecimal (product a b)) as (d & Hd & Hsame & Hd0).
  { cbn. nia. }
  unfold exact_div. rewrite Hd, Hy.
  destruct (Z.eqb_spec (mantissa b) 0) as [E|_]; [contradiction|].
  do 2 f_equal. unfold cutDecimal. f_equal.
  unfold sameValue, product in Hsame. cbn [mantissa scale] in Hsame.
  rewrite pow10_add in Hsame. rewrite pow10_add.
  pose proof (pow10_pos (scale a)) as Pa. pose proof (pow10_pos (scale b)) as Pb.
  pose proof (pow10_pos (scale d)) as Pd. pose proof (pow10_pos precision) as Pp.
  set (A := (10 ^ Z.of_nat (scale a))%Z) in *.
  set (B := (10 ^ Z.of_nat (scale b))%Z) in *.
  set (D := (10 ^ Z.of_nat (scale d))%Z) in *.
  set (P := (10 ^ Z.of_nat precision)%Z) in *.
  rewrite <- (Z.div_mul_cancel_r (mantissa d * (B * P)) (mantissa b * D) A) by nia.
  replace (mantissa d * (B * P) * A)%Z with (mantissa a * P * (mantissa b * D))%Z by nia.
  replace (mantissa b * D * A)%Z with (A * (mantissa b * D))%Z by ring.
  apply Z.div_mul_cancel_r; nia.
Qed.

Lemma printDecimal_cutDecimal (a : Decimal) (precision : nat) :
  scale a <= precision -> printDecimal (cutDecimal precision a) = printDecimal a.
Proof.
  intros H. destruct a as [m s]. cbn [scale] in H. unfold cutDecimal. cbn [mantissa scale].
  replace precision with (s + (precision - s)) at 1 2 by lia.
  rewrite pow10_add. pose proof (pow10_pos s).
  rewrite (Z.mul_comm (10 ^ Z.of_nat s)), Z.mul_assoc, Z.div_mul by lia.
  replace (s + (precision - s)) with precision by lia.
  replace precision with (s + (precision - s)) at 2 by lia.
  apply printDecimal_scaled.
Qed.

Lemma readDigits_bounds (acc : Z) (s : string) (v : Z) :
  (0 <= acc)%Z -> readDigits acc s = Some v ->
  (acc * 10 ^ Z.of_nat (String.length s) <= v
   < (acc + 1) * 10 ^ Z.of_nat (String.length s))%Z.
Proof.
  revert acc. induction s as [|c s IH]; intros acc Hacc H.
  - cbn in H. assert (v = acc) by congruence. subst v.
    change (10 ^ Z.of_nat (String.length ""))%Z with 1%Z. lia.
  - cbn [readDigits] in H. destruct (JS.isDigit c) eqn:E; [|discriminate H].
    pose proof (digitValue_range c E) as Hd.
    assert (Hacc' : (0 <= 10 * acc + digitValue c)%Z) by lia.
    specialize (IH _ Hacc' H).
    cbn [String.length]. rewrite Nat2Z.inj_succ, Z.pow_succ_r by lia.
    pose proof (pow10_pos (String.length s)). nia.
Qed.

Lemma length_slice0_min (n : nat) (s : string) :
  String.length (JS.slice0 n s) = Nat.min n (String.length s).
Proof.
  revert s. induction n as [|n IH]; intros [|c s]; try reflexivity.
  cbn [JS.slice0 String.length]. now rewrite IH.
Qed.

(** Reading the first [n] digits gives the number without its last digits. *)
Lemma readDigits_slice0 (n : nat) (s : string) (acc v : Z) :
  (0 <= acc)%Z -> readDigits acc s = Some v ->
  readDigits acc (JS.slice0 n s)
    = Some (v / 10 ^ Z.of_nat (String.length s - n))%Z.
Proof.
  revert n acc. induction s as [|c s IH]; intros n acc Hacc H.
  - assert (v = acc) by (cbn in H; congruence). subst v.
    destruct n; cbn; now rewrite Z.div_1_r.
  - destruct n as [|n].
    + cbn [JS.slice0 readDigits]. rewrite Nat.sub_0_r. f_equal.
      pose proof (readDigits_bounds _ _ _ Hacc H) as B.
      pose proof (pow10_pos (String.length (String c s))).
      apply Z.div_unique with (r := (v - acc * 10 ^ Z.of_nat (String.length (String c s)))%Z);
        [left|]; lia.
    + cbn [readDigits] in H. destruct (JS.isDigit c) eqn:E; [|discriminate H].
      pose proof (digitValue_range c E) as Hd.
      cbn [JS.slice0 readDigits String.length Nat.sub]. rewrite E.
      apply IH; [lia | exact H].
Qed.

(** Cutting the text of a printed decimal cuts the number. *)
Lemma truncateDecimalsPeriod_printDecimal (d : Decimal) (n : nat) :
  (0 <= mantissa d)%Z ->
  exists t, parseDecimal (truncateDecimalsPeriod (printDecimal d) n) = Some t
            /\ sameValue t (cutDecimal n d).
Proof.
  intros Hm.
  destruct (printDecimal_shape d Hm) as (integers & decimals & V & k & -> & Hi & Hf & HV & Hs).
  pose proof (readDigits_without_period _ _ _ Hi) as Hnp.
  pose proof (readDigits_without_period _ _ _ Hf) as Hdp.
  pose proof (pow10_pos k) as Pk. pose proof (pow10_pos (scale d)) as Pu.
  pose proof (pow10_pos n) as Pn.
  set (q := (mantissa d / 10 ^ Z.of_nat (scale d))%Z) in *.
  assert (Hq : (0 <= q)%Z) by (apply Z.div_pos; lia).
  assert (Hint : parseDecimal integers = Some (mkDecimal q 0))
    by (unfold parseDecimal; now rewrite Hnp, Hi).
  destruct (String.eqb_spec decimals "") as [Hd | Hd].
  - (* no fractional digit *)
    rewrite (truncateDecimalsPeriod_without_period _ n Hnp).
    exists (mkDecimal q 0). split; [exact Hint|].
    rewrite Hd in Hf, Hs. cbn [readDigits] in Hf. simpl in Hs. subst k.
    assert (HVq : V = q) by congruence. subst V.
    unfold sameValue, cutDecimal. cbn [mantissa scale].
    change (10 ^ Z.of_nat 0)%Z with 1%Z.
    rewrite <- HV, <- Z.mul_assoc, (Z.mul_comm (10 ^ Z.of_nat (scale d))), Z.mul_assoc.
    rewrite Z.div_mul by lia. ring.
  - rewrite (truncateDecimalsPeriod_with_period _ decimals n (afterPeriod_join _ _ Hnp)).
    rewrite (integersOf_join _ _ Hnp), (integersOf_without_period _ Hdp).
    destruct n as [|n'].
    + exists (mkDecimal q 0). split; [exact Hint|].
      unfold sameValue, cutDecimal. cbn [mantissa scale].
      change (10 ^ Z.of_nat 0)%Z with 1%Z. rewrite !Z.mul_1_r. reflexivity.
    + set (n := S n') in *.
      set (L := String.length decimals) in *.
      exists (mkDecimal (V / 10 ^ Z.of_nat (L - n)) (Nat.min n L)). split.
      * unfold parseDecimal.
        rewrite (afterPeriod_join _ _ Hnp), (integersOf_join _ _ Hnp).
        rewrite readDigits_app, Hi, length_slice0_min.
        now rewrite (readDigits_slice0 n decimals q V Hq Hf).
      * unfold sameValue, cutDecimal. cbn [mantissa scale].
        pose proof (pow10_pos L) as PL.
        assert (Hcut : (mantissa d * 10 ^ Z.of_nat n / 10 ^ Z.of_nat (scale d)
                        = V * 10 ^ Z.of_nat n / 10 ^ Z.of_nat L)%Z).
        { rewrite <- HV, Hs, pow10_add.
          replace (V * 10 ^ Z.of_nat k * 10 ^ Z.of_nat n)%Z
            with (V * 10 ^ Z.of_nat n * 10 ^ Z.of_nat k)%Z by ring.
          apply Z.div_mul_cancel_r; lia. }
        rewrite Hcut.
        destruct (Nat.le_gt_cases L n) as [Hle | Hgt].
        -- replace (L - n) with 0 by lia. rewrite Nat.min_r by lia.
           change (10 ^ Z.of_nat 0)%Z with 1%Z. rewrite Z.div_1_r.
           replace n with (L + (n - L)) at 2 by lia.
           rewrite pow10_add, (Z.mul_comm (10 ^ Z.of_nat L)), Z.mul_assoc, Z.div_mul by lia.
           replace n with (L + (n - L)) at 1 by lia. rewrite pow10_add. ring.
        -- rewrite Nat.min_l by lia. f_equal.
           replace L with ((L - n) + n) at 2 by lia.
           rewrite pow10_add. symmetry.
           pose proof (pow10_pos (L - n)).
           apply Z.div_mul_cancel_r; lia.
Qed.

(* ================================================================== *)
(** ** Handlers *)
(* ================================================================== *)

Section Handlers.

Context {bns : BigNumberStrings} {locale : Locale}.

Lemma setStateAmounts_run (decimalAmount : string)
    (setAmounts : Props.t -> string -> Outcome Amounts.t) (c : Component) :
  setStateAmounts decimalAmount setAmounts c =
    match setAmounts (props c) decimalAmount with
    | Returned amounts => (Returned tt, stored amounts c)
    | Thrown e => (Thrown e, c)
    end.
Proof.
  unfold setStateAmounts, bind, getProps, call. cbn.
  destruct (setAmounts (props c) decimalAmount); reflexivity.
Qed.

Lemma onKeyPress_run (key decimalAmount : string) (max : nat)
    (setAmounts : Props.t -> string -> Outcome Amounts.t) (c : Component) :
  onKeyPress key decimalAmount max setAmounts c =
    match keyPressAmount key decimalAmount max with
    | Some amount => setStateAmounts amount setAmounts c
    | None => (Returned tt, c)
    end.
Proof.
  unfold onKeyPress, keyPressAmount.
  destruct (JS.replaceFirst "," "." key =? "Backspace"); [reflexivity|].
  destruct (checkKeyPress _ decimalAmount); reflexivity.
Qed.

(** Callback cardinality on the runs that complete: one call for a key that
    is taken and converted, none for a key that is ignored. *)
Lemma onKeyPress_calls (key decimalAmount : string) (max : nat)
    (setAmounts : Props.t -> string -> Outcome Amounts.t) (c : Component) :
  match keyPressAmount key decimalAmount max with
  | Some amount =>
      forall amounts, setAmounts (props c) amount = Returned amounts ->
        onKeyPress key decimalAmount max setAmounts c = (Returned tt, stored amounts c)
  | None => onKeyPress key decimalAmount max setAmounts c = (Returned tt, c)
  end.
Proof.
  rewrite onKeyPress_run.
  destruct (keyPressAmount key decimalAmount max) as [amount|]; [|reflexivity].
  intros amounts H. now rewrite setStateAmounts_run, H.
Qed.

(** After a key the accumulator of the field is the one computed by
    [keyPressAmount], unless the conversion threw and the state is as it
    was. *)
Lemma onPrimaryKeyPress_amount (key : string) (c : Component) :
  let c' := after (onPrimaryKeyPress key) c in
  State.primaryDecimalAmount (state c')
    = accumulatorAfter key (State.primaryDecimalAmount (state c))
        (maxEntryDecimals (Props.primaryInfo (props c)))
  \/ c' = c.
Proof.
  cbv zeta. unfold after, onPrimaryKeyPress, bind, getState, getProps.
  rewrite onKeyPress_run. unfold accumulatorAfter.
  destruct (keyPressAmount key _ _) as [amount|]; [|now right].
  rewrite setStateAmounts_run. unfold setPrimaryToSecondary.
  destruct (bns_mul amount _); [now left | now right].
Qed.

Lemma onSecondaryKeyPress_amount (key : string) (c : Component) :
  let c' := after (onSecondaryKeyPress key) c in
  State.secondaryDecimalAmount (state c')
    = accumulatorAfter key (State.secondaryDecimalAmount (state c))
        (maxEntryDecimals (Props.secondaryInfo (props c)))
  \/ c' = c.
Proof.
  cbv zeta. unfold after, onSecondaryKeyPress, bind, getState, getProps.
  rewrite onKeyPress_run. unfold accumulatorAfter.
  destruct (keyPressAmount key _ _) as [amount|]; [|now right].
  rewrite setStateAmounts_run. unfold setSecondaryToPrimary.
  destruct (if Props.exchangeSecondaryToPrimaryRatio (props c) =? "0" then _ else _);
    [now left | now right].
Qed.

Lemma setPrimaryToSecondary_primary (props : Props.t) (amount : string) (amounts : Amounts.t) :
  setPrimaryToSecondary props amount = Returned amounts ->
  Amounts.primaryDecimalAmount amounts = amount.
Proof.
  unfold setPrimaryToSecondary.
  destruct (bns_mul amount _); [intros [= <-]; reflexivity | discriminate 1].
Qed.

Lemma setSecondaryToPrimary_secondary (props : Props.t) (amount : string) (amounts : Amounts.t) :
  setSecondaryToPrimary props amount = Returned amounts ->
  Amounts.secondaryDecimalAmount amounts = amount.
Proof.
  unfold setSecondaryToPrimary.
  destruct (if Props.exchangeSecondaryToPrimaryRatio props =? "0" then _ else _);
    [intros [= <-]; reflexivity | discriminate 1].
Qed.

(** Once the state records the override amount and the force-update counter
    of the incoming props, receiving the props keeps the toggle and the
    decimal amount of the active side exactly as they were; the state becomes
    the old one with the amounts recomputed from the active side by the
    matching conversion under the new props (and stays as it was if that
    conversion throws); [onAmountChanged] is not called, and nothing is
    scheduled unless the primary currency code changed. *)
Lemma ratio_tick_keeps_active_side (nextProps : Props.t) (c : Component) :
  Props.overridePrimaryDecimalAmount nextProps = State.overridePrimaryDecimalAmount (state c) ->
  Props.forceUpdateGuiCounter nextProps = State.forceUpdateGuiCounter (state c) ->
  let c' := after (UNSAFE_componentWillReceiveProps nextProps) c in
  State.isToggled (state c') = State.isToggled (state c)
  /\ (if State.isToggled (state c)
      then State.secondaryDecimalAmount (state c') = State.secondaryDecimalAmount (state c)
      else State.primaryDecimalAmount (state c') = State.primaryDecimalAmount (state c))
  /\ match (if State.isToggled (state c)
            then setSecondaryToPrimary nextProps (State.secondaryDecimalAmount (state c))
            else setPrimaryToSecondary nextProps (State.primaryDecimalAmount (state c)))
     with
     | Returned amounts => state c' = State.assign (state c) amounts
     | Thrown _ => state c' = state c
     end
  /\ amountChangedCalls c' = amountChangedCalls c
  /\ (currencyCode (Props.primaryInfo nextProps) = currencyCode (Props.primaryInfo (props c)) ->
      timers c' = timers c).
Proof.
  intros Ho Hc. cbv zeta.
  unfold after, UNSAFE_componentWillReceiveProps, bind, getState, getProps, call, setState.
  cbn [fst snd].
  rewrite Ho, Hc, String.eqb_refl, Z.eqb_refl. cbn [negb orb].
  destruct (State.isToggled (state c)) eqn:Et; cbn [negb].
  - destruct (setSecondaryToPrimary nextProps _) as [amounts|e] eqn:E; cbn.
    + pose proof (setSecondaryToPrimary_secondary _ _ _ E) as Hs.
      destruct (negb _) eqn:En; cbn; repeat split; auto.
      intros H. rewrite H, String.eqb_refl in En. discriminate En.
    + rewrite Et. repeat split; auto.
  - destruct (setPrimaryToSecondary nextProps _) as [amounts|e] eqn:E; cbn.
    + pose proof (setPrimaryToSecondary_primary _ _ _ E) as Hs.
      destruct (negb _) eqn:En; cbn; repeat split; auto.
      intros H. rewrite H, String.eqb_refl in En. discriminate En.
    + rewrite Et. repeat split; auto.
Qed.

(** C9: a failed clipboard read.  When reading the clipboard fails, the
    paste reports the error to [showError] and does nothing else: props,
    state (both decimal amounts, both display amounts, the toggle), callback
    log and timers are what they were. *)
Theorem paste_read_failure (e : Error) (c : Component) :
  handlePasteClipboard (Thrown e) c =
    (Returned tt,
     {| props := props c;
        state := state c;
        amountChangedCalls := amountChangedCalls c;
        shownErrors := shownErrors c ++ [e];
        timers := timers c |}).
Proof.
  unfold handlePasteClipboard, tryCatch.
  (* the awaited read rethrows: the body of the [try] stops at its first call *)
  assert (Hbody : forall (k : string -> Action unit),
             bind (call (Thrown e)) k c = (Thrown e, c)) by reflexivity.
  rewrite Hbody.
  (* the [catch] block *)
  unfold showError. reflexivity.
Qed.

Lemma onKeyPress_isToggled (key decimalAmount : string) (max : nat)
    (setAmounts : Props.t -> string -> Outcome Amounts.t) (c : Component) :
  State.isToggled (state (snd (onKeyPress key decimalAmount max setAmounts c)))
    = State.isToggled (state c).
Proof.
  rewrite onKeyPress_run.
  destruct (keyPressAmount key decimalAmount max) as [amount|]; [|reflexivity].
  rewrite setStateAmounts_run. destruct (setAmounts (props c) amount); reflexivity.
Qed.

Lemma typeKey_secondary (key : string) (c : Component) :
  State.isToggled (state c) = true -> typeKey key c = onSecondaryKeyPress key c.
Proof. intros H. unfold typeKey, bind, getState. now rewrite H. Qed.

Lemma typeKey_primary (key : string) (c : Component) :
  State.isToggled (state c) = false -> typeKey key c = onPrimaryKeyPress key c.
Proof. intros H. unfold typeKey, bind, getState. now rewrite H. Qed.

Lemma forOf_typeKey_secondary (keys : list string) (c : Component) :
  State.isToggled (state c) = true ->
  forOf keys typeKey c = forOf keys onSecondaryKeyPress c.
Proof.
  revert c. induction keys as [|key keys IH]; intros c H; [reflexivity|].
  cbn [forOf]. unfold bind. rewrite (typeKey_secondary key c H).
  destruct (onSecondaryKeyPress key c) as [[[]|e] c'] eqn:E; [|reflexivity].
  apply IH.
  assert (Hc : c' = snd (onSecondaryKeyPress key c)) by now rewrite E.
  rewrite Hc. unfold onSecondaryKeyPress, bind, getState, getProps.
  now rewrite onKeyPress_isToggled.
Qed.

(** On the secondary side the paste is the typing of section 4.7, inside
    the [try]. *)
Lemma paste_secondary_as_typed (clipboard : string) (c : Component) :
  State.isToggled (state c) = true ->
  handlePasteClipboard (Returned clipboard) c
    = tryCatch (pasteAsTyped clipboard) showError c.
Proof.
  intros H. unfold handlePasteClipboard, pasteAsTyped, tryCatch.
  unfold bind at 1 2 3. unfold call, getState at 1. rewrite H.
  unfold bind at 3 4. unfold getState at 2. rewrite H.
  unfold bind at 1 2.
  rewrite setStateAmounts_run.
  destruct (setSecondaryToPrimary (props c) "") as [amounts|e]; [|reflexivity].
  rewrite (forOf_typeKey_secondary _ (stored amounts c)) by exact H.
  reflexivity.
Qed.

End Handlers.

(** The ratio moves from ["2"] to ["650.25"] while ["1.5"] is being typed
    into the primary field. *)
Lemma ratio_tick_keeps_active_side_example :
  let c := mounted (pairing "2" (fieldInfo "BTC" 8 8) (fieldInfo "USD" 2 2)) false
             (plainAmounts "1.5" "3") in
  let c' := after (@UNSAFE_componentWillReceiveProps exactDecimals plainLocale
                     (pairing "650.25" (fieldInfo "BTC" 8 8) (fieldInfo "USD" 2 2))) c in
  State.isToggled (state c') = false
  /\ State.primaryDecimalAmount (state c') = "1.5"
  /\ state c' = State.assign (state c) (plainAmounts "1.5" "975.37").
Proof.
  destruct (@ratio_tick_keeps_active_side exactDecimals plainLocale
              (pairing "650.25" (fieldInfo "BTC" 8 8) (fieldInfo "USD" 2 2))
              (mounted (pairing "2" (fieldInfo "BTC" 8 8) (fieldInfo "USD" 2 2)) false
                 (plainAmounts "1.5" "3"))
              eq_refl eq_refl) as (Ht & Ha & Hs & _).
  cbv zeta. split; [exact Ht | split; [exact Ha | exact Hs]].
Defined.

(** C4: a ratio tick right after mounting overwrites what was typed.  The
    constructor leaves the recorded override empty ([getInitialState] merges
    the four amounts only), so after mounting with a non-empty override the
    first props that arrive differ from the record and take the reset
    branch, even when the parent changed the ratio alone.  The instance is
    mounted with the override ["0"] and ratio ["2"], ["5"] is typed into the
    primary field (accumulator ["05"]), and props arrive with the same
    override and counter and the ratio ["3"]: the primary amount is reset to
    ["0"]. *)
Theorem first_tick_after_mount_resets_typing :
  exists c,
    @construct exactDecimals plainLocale
      (overriding "0" (pairing "2" (fieldInfo "BTC" 8 8) (fieldInfo "USD" 2 2))) = Returned c
    /\ State.overridePrimaryDecimalAmount (state c) = ""
    /\ let typed := after (@onPrimaryKeyPress exactDecimals plainLocale "5") c in
       let ticked :=
         after (@UNSAFE_componentWillReceiveProps exactDecimals plainLocale
                  (overriding "0" (pairing "3" (fieldInfo "BTC" 8 8) (fieldInfo "USD" 2 2))))
               typed in
       State.primaryDecimalAmount (state typed) = "05"
       /\ State.primaryDecimalAmount (state ticked) = "0"
       /\ State.overridePrimaryDecimalAmount (state ticked) = "0".
Proof. eexists. split; [reflexivity|]. repeat split. Qed.

(* ================================================================== *)
(** ** Conversions with exact decimals *)
(* ================================================================== *)

Lemma ratio_not_zero_text (ratio : string) (b : Decimal) :
  parseDecimal ratio = Some b -> mantissa b <> 0%Z -> (ratio =? "0") = false.
Proof.
  intros Hb Hne. destruct (String.eqb_spec ratio "0") as [->|]; [|reflexivity].
  cbv in Hb. injection Hb as <-. now elim Hne.
Qed.

(** C1, as amended: round trip without loss.  Let [d] read as the decimal
    [a] with at most 18 fractional digits, and let the ratio read as a
    decimal [b] of non-zero value.  If cutting the exact product at the
    secondary field's [maxConversionDecimals] drops no digit, converting [d]
    primary to secondary and back yields the canonical text of [d] cut at
    the primary field's [maxConversionDecimals]. *)
Theorem round_trip_without_loss {locale : Locale} (props : Props.t) (d : string)
    (a b : Decimal) :
  parseDecimal d = Some a ->
  parseDecimal (Props.exchangeSecondaryToPrimaryRatio props) = Some b ->
  mantissa b <> 0%Z ->
  scale a <= 18 ->
  UTILS_truncateDecimals (printDecimal (product a b))
      (maxConversionDecimals (Props.secondaryInfo props))
    = printDecimal (product a b) ->
  roundTrip props d
    = Returned (UTILS_truncateDecimals (printDecimal a)
                  (maxConversionDecimals (Props.primaryInfo props))).
Proof.
  intros Hd Hr Hb Hs Hkeep.
  unfold roundTrip, setPrimaryToSecondary. cbn [bns_mul exactDecimals].
  rewrite (exact_mul_parsed _ _ _ _ Hd Hr). cbn [Amounts.secondaryDecimalAmount].
  rewrite Hkeep. unfold setSecondaryToPrimary. cbn [bns_div exactDecimals].
  rewrite (ratio_not_zero_text _ _ Hr Hb).
  rewrite (exact_div_product _ a b 18 Hr (parseDecimal_nonneg _ _ Hd) Hb).
  cbn [Amounts.primaryDecimalAmount].
  now rewrite (printDecimal_cutDecimal a 18 Hs).
Qed.

(** The concrete case of section 8: ["1.23456789"] at ratio ["2"], both
    bounds 8. *)
Lemma round_trip_without_loss_witness :
  @setPrimaryToSecondary exactDecimals plainLocale
      (pairing "2" (fieldInfo "BTC" 8 8) (fieldInfo "USD" 8 8)) "1.23456789"
    = Returned (plainAmounts "1.23456789" "2.46913578")
  /\ @roundTrip exactDecimals plainLocale
       (pairing "2" (fieldInfo "BTC" 8 8) (fieldInfo "USD" 8 8)) "1.23456789"
     = Returned "1.23456789".
Proof.
  split; [reflexivity|].
  exact (@round_trip_without_loss plainLocale
           (pairing "2" (fieldInfo "BTC" 8 8) (fieldInfo "USD" 8 8)) "1.23456789"
           (mkDecimal 123456789 8) (mkDecimal 2 0)
           eq_refl eq_refl ltac:(discriminate) ltac:(cbn; lia) eq_refl).
Defined.

(** C1 as stated fails: with ratio ["0.33"], two decimals on the secondary
    side and eight on the primary side, ["0.5"] converts to ["0.16"] and
    back to ["0.48484848"], which is ["0.5"] cut at no number of decimals. *)
Lemma round_trip_not_a_truncation :
  ~ (exists n : nat,
       @roundTrip exactDecimals plainLocale
         (pairing "0.33" (fieldInfo "BTC" 8 8) (fieldInfo "USD" 2 2)) "0.5"
       = Returned (UTILS_truncateDecimals "0.5" n)).
Proof.
  intros [n H].
  assert (E : @roundTrip exactDecimals plainLocale
                (pairing "0.33" (fieldInfo "BTC" 8 8) (fieldInfo "USD" 2 2)) "0.5"
              = Returned "0.48484848") by reflexivity.
  rewrite E in H. destruct n as [|[|n]]; discriminate H.
Qed.

(** C2: with the ratio ["0"] the secondary-to-primary conversion returns
    the primary decimal ["0"] for every secondary amount; with the empty
    ratio the guard is not taken, the division is attempted and, for the
    secondary amount ["5"], it throws. *)
Theorem zero_ratio_guard_misses_empty {locale : Locale} :
  (forall (props : Props.t) (secondary : string),
      Props.exchangeSecondaryToPrimaryRatio props = "0" ->
      exists amounts, setSecondaryToPrimary props secondary = Returned amounts
                      /\ Amounts.primaryDecimalAmount amounts = "0")
  /\ setSecondaryToPrimary (pairing "" (fieldInfo "BTC" 8 8) (fieldInfo "USD" 2 2)) "5"
     = Thrown DivisionByZero.
Proof.
  split; [|reflexivity].
  intros props secondary H. unfold setSecondaryToPrimary. rewrite H. cbn.
  eexists. split; reflexivity.
Qed.

(** C3: a paste while the primary side is active.  With the primary amount
    ["5"], ratio ["2"] and the clipboard text ["12"], the paste ends with the
    primary amount ["012"], whereas clearing the primary accumulator and
    typing ["1"], ["2"] ends with ["12"]; no error is shown. *)
Theorem paste_into_primary_keeps_a_zero :
  let c := mounted (pairing "2" (fieldInfo "BTC" 8 8) (fieldInfo "USD" 2 2)) false
             (plainAmounts "5" "10") in
  State.amounts (state (after (@handlePasteClipboard exactDecimals plainLocale (Returned "12")) c))
    = plainAmounts "012" "24"
  /\ State.amounts (state (after (@pasteAsTyped exactDecimals plainLocale "12") c))
     = plainAmounts "12" "24"
  /\ shownErrors (after (@handlePasteClipboard exactDecimals plainLocale (Returned "12")) c) = [].
Proof. repeat split. Qed.

(** C5: an accepted key that produces no callback.  With the secondary
    side active and an empty ratio, the key ["5"] passes [checkKeyPress], yet
    the handler throws before [setState]: the component is unchanged and
    [onAmountChanged] has not been called. *)
Theorem accepted_key_without_callback :
  let c := mounted (pairing "" (fieldInfo "BTC" 8 8) (fieldInfo "USD" 2 2)) true
             (plainAmounts "" "") in
  checkKeyPress "5" (State.secondaryDecimalAmount (state c)) = true
  /\ @onSecondaryKeyPress exactDecimals plainLocale "5" c = (Thrown DivisionByZero, c)
  /\ amountChangedCalls (after (@onSecondaryKeyPress exactDecimals plainLocale "5") c) = [].
Proof. repeat split. Qed.

(** C10: Backspace lets a fault out and the accumulator does not shrink.
    With the secondary side active and an empty ratio, the Backspace branch
    of [onKeyPress] takes the key, but [setStateAmounts] converts before it
    stores: [setSecondaryToPrimary] divides by the empty ratio and throws
    whatever amount it is handed, so for every accumulator the handler
    throws and leaves the component as it was, however often the key is
    pressed.  From ["12"] the key is taken with ["1"], the division by zero
    comes out, and the secondary amount stays ["12"]: it reaches neither
    [""] nor ["0"].  The ratio ["0.0"] does the same. *)
Theorem backspace_throws_on_empty_ratio (accumulator : string) (presses : nat) :
  let emptyRatio := pairing "" (fieldInfo "BTC" 8 8) (fieldInfo "USD" 2 2) in
  let zeroRatio := pairing "0.0" (fieldInfo "BTC" 8 8) (fieldInfo "USD" 2 2) in
  let c := mounted emptyRatio true (plainAmounts "" accumulator) in
  let backspaceKey := @onSecondaryKeyPress exactDecimals plainLocale "Backspace" in
  (exists e, backspaceKey c = (Thrown e, c))
  /\ Nat.iter presses (after backspaceKey) c = c
  /\ State.secondaryDecimalAmount (state (Nat.iter presses (after backspaceKey) c))
     = accumulator
  /\ keyPressAmount "Backspace" "12" (maxEntryDecimals (Props.secondaryInfo emptyRatio))
     = Some "1"
  /\ backspaceKey (mounted emptyRatio true (plainAmounts "" "12"))
     = (Thrown DivisionByZero, mounted emptyRatio true (plainAmounts "" "12"))
  /\ backspaceKey (mounted zeroRatio true (plainAmounts "" "12"))
     = (Thrown DivisionByZero, mounted zeroRatio true (plainAmounts "" "12")).
Proof.
  cbv zeta.
  set (c := mounted (pairing "" (fieldInfo "BTC" 8 8) (fieldInfo "USD" 2 2)) true
              (plainAmounts "" accumulator)).
  assert (Hthrow : exists e,
             @onSecondaryKeyPress exactDecimals plainLocale "Backspace" c = (Thrown e, c)).
  { unfold onSecondaryKeyPress, bind, getState, getProps.
    rewrite onKeyPress_run, keyPressAmount_backspace, setStateAmounts_run.
    set (amount := truncateDecimals _ _).
    unfold setSecondaryToPrimary. cbn [props c mounted pairing
      Props.exchangeSecondaryToPrimaryRatio String.eqb Ascii.eqb bns_div exactDecimals].
    unfold exact_div. destruct (parseDecimal amount) as [a|].
    - exists DivisionByZero. reflexivity.
    - exists InvalidNumber. reflexivity. }
  assert (Hstay : Nat.iter presses
                    (after (@onSecondaryKeyPress exactDecimals plainLocale "Backspace")) c = c).
  { induction presses as [|n IH]; [reflexivity|].
    rewrite Nat.iter_succ, IH. unfold after. destruct Hthrow as [e ->]. reflexivity. }
  split; [exact Hthrow|]. split; [exact Hstay|]. split; [now rewrite Hstay|].
  split; [reflexivity|]. split; reflexivity.
Qed.

(** C7: primary to secondary is an exact product, then a cut.  When the
    primary amount reads as [a] and the ratio as [b], the conversion returns
    the primary amount as it is and, as secondary amount, the text of the
    exact product cut at the secondary field's [maxConversionDecimals]; read
    back, that text is the product [a * b] cut (not rounded) at that many
    decimals.  With ratio ["650.25"], 8 entry decimals and 2 conversion
    decimals, typing ["1"], ["."], ["5"] into a new instance gives the
    primary amount ["1.5"] and the secondary amount ["975.37"]. *)
Theorem primary_to_secondary_exact {locale : Locale} (props : Props.t) (primary : string)
    (a b : Decimal) :
  parseDecimal primary = Some a ->
  parseDecimal (Props.exchangeSecondaryToPrimaryRatio props) = Some b ->
  (exists amounts t,
      setPrimaryToSecondary props primary = Returned amounts
      /\ Amounts.primaryDecimalAmount amounts = primary
      /\ Amounts.secondaryDecimalAmount amounts
         = UTILS_truncateDecimals (printDecimal (product a b))
             (maxConversionDecimals (Props.secondaryInfo props))
      /\ parseDecimal (Amounts.secondaryDecimalAmount amounts) = Some t
      /\ sameValue t
           (cutDecimal (maxConversionDecimals (Props.secondaryInfo props)) (product a b)))
  /\ (exists c,
        construct (pairing "650.25" (fieldInfo "BTC" 8 8) (fieldInfo "USD" 2 2)) = Returned c
        /\ let c' := after (onPrimaryKeyPress "1" ;; onPrimaryKeyPress "." ;;
                             onPrimaryKeyPress "5") c in
           State.primaryDecimalAmount (state c') = "1.5"
           /\ State.secondaryDecimalAmount (state c') = "975.37").
Proof.
  intros Ha Hb. split.
  - assert (Hp : (0 <= mantissa (product a b))%Z).
    { pose proof (parseDecimal_nonneg _ _ Ha). pose proof (parseDecimal_nonneg _ _ Hb).
      cbn. nia. }
    destruct (truncateDecimalsPeriod_printDecimal (product a b)
                (maxConversionDecimals (Props.secondaryInfo props)) Hp) as (t & Ht & Hsame).
    unfold setPrimaryToSecondary. cbn [bns_mul exactDecimals].
    rewrite (exact_mul_parsed _ _ _ _ Ha Hb).
    eexists. exists t. repeat split; assumption.
  - eexists. split; [reflexivity|]. repeat split.
Qed.

(** ["1.5"] at ratio ["650.25"] with two conversion decimals. *)
Lemma primary_to_secondary_exact_witness :
  exists amounts t,
    @setPrimaryToSecondary exactDecimals plainLocale
      (pairing "650.25" (fieldInfo "BTC" 8 8) (fieldInfo "USD" 2 2)) "1.5" = Returned amounts
    /\ Amounts.primaryDecimalAmount amounts = "1.5"
    /\ Amounts.secondaryDecimalAmount amounts = "975.37"
    /\ parseDecimal (Amounts.secondaryDecimalAmount amounts) = Some t
    /\ sameValue t (mkDecimal 97537 2).
Proof.
  exact (proj1 (@primary_to_secondary_exact plainLocale
                  (pairing "650.25" (fieldInfo "BTC" 8 8) (fieldInfo "USD" 2 2)) "1.5"
                  (mkDecimal 15 1) (mkDecimal 65025 2) eq_refl eq_refl)).
Defined.

(* ================================================================== *)
(** * Further properties of the widget *)
(* ================================================================== *)

(* ================================================================== *)
(** ** The two conversions *)
(* ================================================================== *)

Section ConversionFrames.

Context {bns : BigNumberStrings} {locale : Locale}.

(** Whatever the decimal library and the formatter do, a conversion that
    returns hands back the source amount untouched, a derived amount with at
    most one period and at most [maxConversionDecimals] characters behind
    it, and display amounts that are the formatted decimal amounts. *)
Theorem conversions_frame (props : Props.t) (amount : string) :
  match setPrimaryToSecondary props amount with
  | Returned amounts =>
      Amounts.primaryDecimalAmount amounts = amount
      /\ fractionWithin (maxConversionDecimals (Props.secondaryInfo props))
           (Amounts.secondaryDecimalAmount amounts)
      /\ JS.periods (Amounts.secondaryDecimalAmount amounts) <= 1
      /\ Amounts.primaryDisplayAmount amounts
         = formatNumberInput (prettifyNumber (Amounts.primaryDecimalAmount amounts))
      /\ Amounts.secondaryDisplayAmount amounts
         = formatNumberInput (prettifyNumber (Amounts.secondaryDecimalAmount amounts))
  | Thrown _ => True
  end
  /\ match setSecondaryToPrimary props amount with
     | Returned amounts =>
         Amounts.secondaryDecimalAmount amounts = amount
         /\ fractionWithin (maxConversionDecimals (Props.primaryInfo props))
              (Amounts.primaryDecimalAmount amounts)
         /\ JS.periods (Amounts.primaryDecimalAmount amounts) <= 1
         /\ Amounts.primaryDisplayAmount amounts
            = formatNumberInput (prettifyNumber (Amounts.primaryDecimalAmount amounts))
         /\ Amounts.secondaryDisplayAmount amounts
            = formatNumberInput (prettifyNumber (Amounts.secondaryDecimalAmount amounts))
     | Thrown _ => True
     end.
Proof.
  split.
  - unfold setPrimaryToSecondary.
    destruct (bns_mul amount _) as [text|e]; [|exact I].
    cbn [Amounts.primaryDecimalAmount Amounts.secondaryDecimalAmount
         Amounts.primaryDisplayAmount Amounts.secondaryDisplayAmount].
    unfold UTILS_truncateDecimals. repeat split.
    + apply fractionWithin_truncateDecimalsPeriod.
    + apply periods_truncateDecimalsPeriod.
  - unfold setSecondaryToPrimary.
    destruct (if Props.exchangeSecondaryToPrimaryRatio props =? "0" then _ else _)
      as [text|e]; [|exact I].
    cbn [Amounts.primaryDecimalAmount Amounts.secondaryDecimalAmount
         Amounts.primaryDisplayAmount Amounts.secondaryDisplayAmount].
    unfold UTILS_truncateDecimals. repeat split.
    + apply fractionWithin_truncateDecimalsPeriod.
    + apply periods_truncateDecimalsPeriod.
Qed.

End ConversionFrames.

(* ------------------------------------------------------------------ *)
(** *** With exact decimals *)
(* ------------------------------------------------------------------ *)

Lemma printDecimal_zero (s : nat) : printDecimal (mkDecimal 0 s) = "0".
Proof.
  change (mkDecimal 0 s) with (mkDecimal (0 * 10 ^ Z.of_nat s) (0 + s)).
  now rewrite printDecimal_scaled.
Qed.

Lemma cutDecimal_below (n : nat) (d : Decimal) :
  leValue (cutDecimal n d) d.
Proof.
  unfold leValue, cutDecimal. cbn [mantissa scale].
  pose proof (pow10_pos (scale d)) as Hs.
  rewrite (Z.mul_comm (_ / _)). apply Z.mul_div_le. exact Hs.
Qed.

Lemma cutDecimal_above (n : nat) (d : Decimal) :
  ltValue d (nextStep n (cutDecimal n d)).
Proof.
  unfold ltValue, nextStep, cutDecimal. cbn [mantissa scale].
  pose proof (pow10_pos (scale d)) as Hs. pose proof (pow10_pos n) as Hn.
  rewrite pow10_add.
  set (S := (10 ^ Z.of_nat (scale d))%Z) in *. set (N := (10 ^ Z.of_nat n)%Z) in *.
  pose proof (Z.div_mod (mantissa d * N) S ltac:(lia)) as Hdm.
  pose proof (Z.mod_pos_bound (mantissa d * N) S Hs) as Hb.
  nia.
Qed.

Lemma leValue_sameValue_l (t c d : Decimal) :
  sameValue t c -> leValue c d -> leValue t d.
Proof.
  unfold sameValue, leValue. intros Hs Hl.
  pose proof (pow10_pos (scale t)) as Pt. pose proof (pow10_pos (scale c)) as Pc.
  pose proof (pow10_pos (scale d)) as Pd.
  apply Z.mul_le_mono_pos_r with (p := (10 ^ Z.of_nat (scale c))%Z); [exact Pc|].
  nia.
Qed.

Lemma ltValue_sameValue_r (n : nat) (t c d : Decimal) :
  sameValue t c -> scale c = n -> ltValue d (nextStep n c) -> ltValue d (nextStep n t).
Proof.
  unfold sameValue, ltValue, nextStep. cbn [mantissa scale]. intros Hs Hc Hl. subst n.
  rewrite pow10_add in *.
  pose proof (pow10_pos (scale t)) as Pt. pose proof (pow10_pos (scale c)) as Pc.
  pose proof (pow10_pos (scale d)) as Pd.
  set (T := (10 ^ Z.of_nat (scale t))%Z) in *. set (C := (10 ^ Z.of_nat (scale c))%Z) in *.
  set (D := (10 ^ Z.of_nat (scale d))%Z) in *.
  apply Z.mul_lt_mono_pos_r with (p := C); [exact Pc|].
  nia.
Qed.

Lemma exact_div_parsed (x y : string) (a b : Decimal) (precision : nat) :
  parseDecimal x = Some a -> parseDecimal y = Some b -> mantissa b <> 0%Z ->
  exact_div x y precision
    = Returned (printDecimal
        (mkDecimal ((mantissa a * 10 ^ Z.of_nat (scale b + precision))
                      / (mantissa b * 10 ^ Z.of_nat (scale a)))%Z precision)).
Proof.
  intros Hx Hy Hb. unfold exact_div. rewrite Hx, Hy.
  now destruct (Z.eqb_spec (mantissa b) 0).
Qed.

(** The secondary amount never overstates: read as a number it is at most
    the exact product of the primary amount and the ratio, and less than one
    unit of its last allowed decimal place below it. *)
Theorem primary_to_secondary_never_overstates {locale : Locale} (props : Props.t)
    (primary : string) (a b : Decimal) :
  parseDecimal primary = Some a ->
  parseDecimal (Props.exchangeSecondaryToPrimaryRatio props) = Some b ->
  exists amounts t,
    setPrimaryToSecondary props primary = Returned amounts
    /\ parseDecimal (Amounts.secondaryDecimalAmount amounts) = Some t
    /\ leValue t (product a b)
    /\ ltValue (product a b)
         (nextStep (maxConversionDecimals (Props.secondaryInfo props)) t).
Proof.
  intros Ha Hb.
  set (n := maxConversionDecimals (Props.secondaryInfo props)).
  assert (Hp : (0 <= mantissa (product a b))%Z).
  { pose proof (parseDecimal_nonneg _ _ Ha). pose proof (parseDecimal_nonneg _ _ Hb).
    cbn. nia. }
  destruct (truncateDecimalsPeriod_printDecimal (product a b) n Hp) as (t & Ht & Hsame).
  unfold setPrimaryToSecondary. cbn [bns_mul exactDecimals].
  rewrite (exact_mul_parsed _ _ _ _ Ha Hb).
  eexists. exists t. split; [reflexivity|].
  cbn [Amounts.secondaryDecimalAmount]. repeat split.
  - exact Ht.
  - exact (leValue_sameValue_l _ _ _ Hsame (cutDecimal_below n (product a b))).
  - exact (ltValue_sameValue_r n _ _ _ Hsame eq_refl (cutDecimal_above n (product a b))).
Qed.

Lemma primary_to_secondary_never_overstates_witness :
  exists amounts t,
    @setPrimaryToSecondary exactDecimals plainLocale
      (pairing "650.25" (fieldInfo "BTC" 8 8) (fieldInfo "USD" 2 2)) "1.5" = Returned amounts
    /\ parseDecimal (Amounts.secondaryDecimalAmount amounts) = Some t
    /\ leValue t (mkDecimal 975375 3)
    /\ ltValue (mkDecimal 975375 3) (nextStep 2 t).
Proof.
  exact (@primary_to_secondary_never_overstates plainLocale
           (pairing "650.25" (fieldInfo "BTC" 8 8) (fieldInfo "USD" 2 2)) "1.5"
           (mkDecimal 15 1) (mkDecimal 65025 2) eq_refl eq_refl).
Defined.

(** The primary amount derived from a secondary amount never overstates
    either: valued at the ratio it is at most the secondary amount. *)
Theorem secondary_to_primary_never_overstates {locale : Locale} (props : Props.t)
    (secondary : string) (a b : Decimal) :
  parseDecimal secondary = Some a ->
  parseDecimal (Props.exchangeSecondaryToPrimaryRatio props) = Some b ->
  mantissa b <> 0%Z ->
  exists amounts t,
    setSecondaryToPrimary props secondary = Returned amounts
    /\ parseDecimal (Amounts.primaryDecimalAmount amounts) = Some t
    /\ leValue (product t b) a.
Proof.
  intros Ha Hb Hne.
  pose proof (parseDecimal_nonneg _ _ Ha) as Ha0.
  pose proof (parseDecimal_nonneg _ _ Hb) as Hb0.
  set (n := maxConversionDecimals (Props.primaryInfo props)).
  set (q := mkDecimal ((mantissa a * 10 ^ Z.of_nat (scale b + 18))
                         / (mantissa b * 10 ^ Z.of_nat (scale a)))%Z 18).
  pose proof (pow10_pos (scale a)) as Pa. pose proof (pow10_pos (scale b)) as Pb.
  pose proof (pow10_pos 18) as P18. pose proof (pow10_pos n) as Pn.
  assert (Hden : (0 < mantissa b * 10 ^ Z.of_nat (scale a))%Z) by nia.
  assert (Hq : (0 <= mantissa q)%Z).
  { cbn [mantissa q]. apply Z.div_pos; [|exact Hden].
    pose proof (pow10_pos (scale b + 18)). nia. }
  destruct (truncateDecimalsPeriod_printDecimal q n Hq) as (t & Ht & Hsame).
  unfold setSecondaryToPrimary. cbn [bns_div exactDecimals].
  rewrite (ratio_not_zero_text _ _ Hb Hne).
  rewrite (exact_div_parsed _ _ _ _ 18 Ha Hb Hne). fold q.
  eexists. exists t. split; [reflexivity|].
  cbn [Amounts.primaryDecimalAmount]. split; [exact Ht|].
  pose proof (leValue_sameValue_l _ _ _ Hsame (cutDecimal_below n q)) as Hle.
  clear Ht Hsame Hq. subst q.
  unfold leValue, product in *. cbn [mantissa scale] in *.
  pose proof (pow10_pos (scale t)) as Pt.
  assert (Hfloor : (mantissa b * 10 ^ Z.of_nat (scale a)
                    * ((mantissa a * 10 ^ Z.of_nat (scale b + 18))
                         / (mantissa b * 10 ^ Z.of_nat (scale a)))
                    <= mantissa a * 10 ^ Z.of_nat (scale b + 18))%Z)
    by (apply Z.mul_div_le; exact Hden).
  rewrite !pow10_add in *.
  set (A := (10 ^ Z.of_nat (scale a))%Z) in *. set (B := (10 ^ Z.of_nat (scale b))%Z) in *.
  set (T := (10 ^ Z.of_nat (scale t))%Z) in *. set (E := (10 ^ Z.of_nat 18)%Z) in *.
  set (Q := ((mantissa a * (B * E)) / (mantissa b * A))%Z) in *.
  apply Z.mul_le_mono_pos_r with (p := E); [exact P18|].
  assert (H1 : (mantissa t * E * (mantissa b * A) <= Q * T * (mantissa b * A))%Z)
    by (apply Z.mul_le_mono_nonneg_r; lia).
  nia.
Qed.

Lemma secondary_to_primary_never_overstates_witness :
  exists amounts t,
    @setSecondaryToPrimary exactDecimals plainLocale
      (pairing "3" (fieldInfo "BTC" 8 8) (fieldInfo "USD" 2 2)) "1" = Returned amounts
    /\ parseDecimal (Amounts.primaryDecimalAmount amounts) = Some t
    /\ leValue (product t (mkDecimal 3 0)) (mkDecimal 1 0).
Proof.
  exact (@secondary_to_primary_never_overstates plainLocale
           (pairing "3" (fieldInfo "BTC" 8 8) (fieldInfo "USD" 2 2)) "1"
           (mkDecimal 1 0) (mkDecimal 3 0) eq_refl eq_refl ltac:(discriminate)).
Defined.

(** When the two conversions throw.  On amounts and ratios that are decimal
    texts, primary to secondary always returns, and returns ["0"] as soon as
    the amount or the ratio (the empty one included) is zero; secondary to
    primary returns when the ratio is the text ["0"] or has a non-zero
    value, and throws a division by zero for every other ratio: the empty
    string, ["0.0"], ["00"]. *)
Theorem conversion_faults {locale : Locale} (props : Props.t) (amount : string)
    (a b : Decimal) :
  parseDecimal amount = Some a ->
  parseDecimal (Props.exchangeSecondaryToPrimaryRatio props) = Some b ->
  (exists amounts,
      setPrimaryToSecondary props amount = Returned amounts
      /\ (mantissa a = 0%Z \/ mantissa b = 0%Z ->
          Amounts.secondaryDecimalAmount amounts = "0"))
  /\ (if (Props.exchangeSecondaryToPrimaryRatio props =? "0") || negb (mantissa b =? 0)%Z
      then exists amounts, setSecondaryToPrimary props amount = Returned amounts
      else setSecondaryToPrimary props amount = Thrown DivisionByZero).
Proof.
  intros Ha Hb. split.
  - unfold setPrimaryToSecondary. cbn [bns_mul exactDecimals].
    rewrite (exact_mul_parsed _ _ _ _ Ha Hb). eexists. split; [reflexivity|].
    cbn [Amounts.secondaryDecimalAmount]. intros Hz.
    assert (Hm : (mantissa a * mantissa b = 0)%Z) by (destruct Hz as [-> | ->]; lia).
    unfold product. rewrite Hm, printDecimal_zero. reflexivity.
  - unfold setSecondaryToPrimary. cbn [bns_div exactDecimals].
    destruct (Props.exchangeSecondaryToPrimaryRatio props =? "0") eqn:E0; cbn [orb].
    + eexists. reflexivity.
    + unfold exact_div. rewrite Ha, Hb.
      destruct (mantissa b =? 0)%Z; cbn [negb]; [reflexivity | eexists; reflexivity].
Qed.

Lemma conversion_faults_witness :
  @setSecondaryToPrimary exactDecimals plainLocale
    (pairing "0.0" (fieldInfo "BTC" 8 8) (fieldInfo "USD" 2 2)) "5"
  = Thrown DivisionByZero.
Proof.
  exact (proj2 (@conversion_faults plainLocale
                  (pairing "0.0" (fieldInfo "BTC" 8 8) (fieldInfo "USD" 2 2)) "5"
                  (mkDecimal 5 0) (mkDecimal 0 1) eq_refl eq_refl)).
Defined.

(* ================================================================== *)
(** ** Amounts that the widget keeps are decimal texts *)
(* ================================================================== *)

Lemma readDigits_allDigits (s : string) (acc : Z) :
  Text.allDigits s = true -> exists v, readDigits acc s = Some v.
Proof.
  revert acc. induction s as [|c s IH]; intros acc H; cbn [readDigits].
  - now exists acc.
  - cbn [Text.allDigits] in H. apply andb_prop in H as [Hc Hs]. rewrite Hc. now apply IH.
Qed.

Lemma allDigits_without_period (s : string) :
  JS.allDecimal s = true -> JS.periods s = 0 -> Text.allDigits s = true.
Proof.
  induction s as [|c s IH]; [reflexivity|].
  cbn [JS.allDecimal JS.periods Text.allDigits]. intros H Hp.
  apply andb_prop in H as [Hc Hs]. unfold JS.isDecimalChar in Hc.
  destruct (JS.isPeriod c); [discriminate Hp|].
  rewrite orb_false_r in Hc. rewrite Hc. apply IH; [exact Hs | exact Hp].
Qed.

Lemma allDigits_app (s t : string) :
  Text.allDigits (s ++ t) = Text.allDigits s && Text.allDigits t.
Proof.
  induction s as [|c s IH]; [reflexivity|].
  cbn [append Text.allDigits]. now rewrite IH, andb_assoc.
Qed.

Lemma periods_afterPeriod (s rest : string) :
  afterPeriod s = Some rest -> JS.periods s = S (JS.periods rest).
Proof.
  induction s as [|c s IH]; [discriminate 1|].
  cbn [afterPeriod JS.periods].
  destruct (JS.isPeriod c); [intros [= <-]; reflexivity | exact IH].
Qed.

(** Digits with at most one period always read as a decimal. *)
Lemma parseDecimal_total (s : string) :
  JS.allDecimal s = true -> JS.periods s <= 1 -> exists d, parseDecimal s = Some d.
Proof.
  intros Hl Hp. unfold parseDecimal.
  destruct (afterPeriod s) as [fraction|] eqn:E.
  - pose proof (periods_afterPeriod _ _ E) as Hpf.
    assert (Hd : Text.allDigits (integersOf s ++ fraction) = true).
    { rewrite allDigits_app. apply andb_true_intro. split.
      - apply allDigits_without_period; [now apply allDecimal_integersOf|].
        apply periods_without_period, afterPeriod_integersOf.
      - apply allDigits_without_period; [eapply allDecimal_afterPeriod; eauto | lia]. }
    destruct (readDigits_allDigits _ 0%Z Hd) as [v Hv]. rewrite Hv. eauto.
  - assert (Hd : Text.allDigits s = true)
      by (apply allDigits_without_period; [exact Hl | now apply periods_without_period]).
    destruct (readDigits_allDigits _ 0%Z Hd) as [v Hv]. rewrite Hv. eauto.
Qed.

Lemma wellFormedAmount_truncated (s : string) (max : nat) :
  JS.allDecimal s = true -> wellFormedAmount max (truncateDecimalsPeriod s max).
Proof.
  intros H. repeat split.
  - now apply allDecimal_truncateDecimalsPeriod.
  - apply periods_truncateDecimalsPeriod.
  - apply fractionWithin_truncateDecimalsPeriod.
Qed.

Lemma wellFormedAmount_sanitized (s : string) (max : nat) :
  wellFormedAmount max (sanitizeDecimalAmount s max).
Proof.
  unfold sanitizeDecimalAmount.
  apply wellFormedAmount_truncated, allDecimal_removeNonDecimal.
Qed.

Lemma wellFormedAmount_empty (max : nat) : wellFormedAmount max "".
Proof. repeat split. simpl. lia. Qed.

Lemma wellFormedAmount_parses (max : nat) (s : string) :
  wellFormedAmount max s -> exists d, parseDecimal s = Some d.
Proof. intros (Hl & Hp & _). now apply parseDecimal_total. Qed.

(** The constructor.  Whatever text the parent passes as override, an
    instance whose ratio is a decimal text is constructed without a throw;
    it starts on the primary side, unfocused, with no call to the parent,
    with the sanitized override as primary amount (nothing at all for an
    empty override), and with an empty record of the override and counter it
    was built from. *)
Theorem constructor_total {locale : Locale} (p : Props.t) (b : Decimal) :
  parseDecimal (Props.exchangeSecondaryToPrimaryRatio p) = Some b ->
  exists c,
    construct p = Returned c
    /\ props c = p
    /\ State.isToggled (state c) = false
    /\ State.textInputFrontFocus (state c) = false
    /\ State.textInputBackFocus (state c) = false
    /\ State.overridePrimaryDecimalAmount (state c) = ""
    /\ State.forceUpdateGuiCounter (state c) = 0%Z
    /\ amountChangedCalls c = []
    /\ State.primaryDecimalAmount (state c)
       = (if Props.overridePrimaryDecimalAmount p =? "" then ""
          else sanitizeDecimalAmount (Props.overridePrimaryDecimalAmount p)
                 (maxEntryDecimals (Props.primaryInfo p)))
    /\ wellFormedAmount (maxEntryDecimals (Props.primaryInfo p))
         (State.primaryDecimalAmount (state c)).
Proof.
  intros Hb. unfold construct, getInitialState.
  destruct (Props.overridePrimaryDecimalAmount p =? "") eqn:E.
  - eexists. split; [reflexivity|]. cbn [props state amountChangedCalls].
    repeat (split; [reflexivity|]). apply wellFormedAmount_empty.
  - set (amount := sanitizeDecimalAmount _ _).
    pose proof (wellFormedAmount_sanitized (Props.overridePrimaryDecimalAmount p)
                  (maxEntryDecimals (Props.primaryInfo p))) as Hwf.
    fold amount in Hwf.
    destruct (wellFormedAmount_parses _ _ Hwf) as [a Ha].
    unfold setPrimaryToSecondary. cbn [bns_mul exactDecimals].
    rewrite (exact_mul_parsed _ _ _ _ Ha Hb).
    eexists. split; [reflexivity|]. cbn [props state amountChangedCalls].
    repeat (split; [reflexivity|]). exact Hwf.
Qed.

Lemma constructor_total_witness :
  exists c,
    @construct exactDecimals plainLocale
      (overriding "1,234.5678abc" (pairing "2" (fieldInfo "BTC" 2 8) (fieldInfo "USD" 2 2)))
    = Returned c
    /\ State.primaryDecimalAmount (state c) = "1.23"
    /\ State.overridePrimaryDecimalAmount (state c) = "".
Proof.
  destruct (@constructor_total plainLocale
              (overriding "1,234.5678abc" (pairing "2" (fieldInfo "BTC" 2 8) (fieldInfo "USD" 2 2)))
              (mkDecimal 2 0) eq_refl)
    as (c & Hc & _ & _ & _ & _ & Ho & _ & _ & Hp & _).
  exists c. split; [exact Hc | split; [exact Hp | exact Ho]].
Defined.

(* ================================================================== *)
(** ** Keys *)
(* ================================================================== *)

Lemma allDecimal_accepted (key : string) :
  JS.matchesNonDecimal key = false -> JS.allDecimal key = true.
Proof.
  induction key as [|c key IH]; [reflexivity|].
  cbn [JS.matchesNonDecimal JS.allDecimal]. intros H.
  apply orb_false_elim in H as [Hc Hk]. apply negb_false_iff in Hc.
  rewrite Hc. now apply IH.
Qed.

Lemma allDecimal_sliceInit (s : string) :
  JS.allDecimal s = true -> JS.allDecimal (JS.sliceInit s) = true.
Proof.
  induction s as [|c s IH]; [reflexivity|].
  destruct s as [|d s]; [reflexivity|].
  rewrite sliceInit_cons. intros H.
  change (JS.isDecimalChar c && JS.allDecimal (String d s) = true) in H.
  apply andb_prop in H as [Hc Hs].
  change (JS.isDecimalChar c && JS.allDecimal (JS.sliceInit (String d s)) = true).
  rewrite Hc. now apply IH.
Qed.

(** Whatever the key, an accumulator made of digits and periods stays
    one, with at most one period and at most [max] decimals. *)
Lemma keyPressAmount_wellFormed (key acc : string) (max : nat) (amount : string) :
  JS.allDecimal acc = true ->
  keyPressAmount key acc max = Some amount ->
  wellFormedAmount max amount.
Proof.
  intros Hacc. unfold keyPressAmount, truncateDecimals.
  destruct (JS.replaceFirst "," "." key =? "Backspace").
  - intros [= <-]. apply wellFormedAmount_truncated. now apply allDecimal_sliceInit.
  - unfold checkKeyPress.
    destruct ((JS.replaceFirst "," "." key =? ".") && JS.includes "." acc); [discriminate 1|].
    destruct (JS.matchesNonDecimal (JS.replaceFirst "," "." key)) eqn:E; [discriminate 1|].
    intros [= <-]. apply wellFormedAmount_truncated.
    rewrite allDecimal_app, Hacc. now apply allDecimal_accepted.
Qed.

Lemma accumulatorAfter_wellFormed (key acc : string) (max : nat) :
  wellFormedAmount max acc -> wellFormedAmount max (accumulatorAfter key acc max).
Proof.
  intros Hwf. unfold accumulatorAfter.
  destruct (keyPressAmount key acc max) as [amount|] eqn:E; [|exact Hwf].
  eapply keyPressAmount_wellFormed; [apply Hwf | exact E].
Qed.

Section KeysOnAnyLibrary.

Context {bns : BigNumberStrings} {locale : Locale}.

Lemma onKeyPress_props (key acc : string) (max : nat)
    (setAmounts : Props.t -> string -> Outcome Amounts.t) (c : Component) :
  props (snd (onKeyPress key acc max setAmounts c)) = props c.
Proof.
  rewrite onKeyPress_run.
  destruct (keyPressAmount key acc max) as [amount|]; [|reflexivity].
  rewrite setStateAmounts_run. destruct (setAmounts (props c) amount); reflexivity.
Qed.

End KeysOnAnyLibrary.

(** Typing into the primary field never throws.  With a ratio that is a
    decimal text (the empty one included) and a primary amount made of
    digits with at most one period, any sequence of keys whatsoever (letters,
    commas, several characters at once) is handled without a throw, and the
    primary amount stays a decimal text with at most [maxEntryDecimals]
    decimals. *)
Theorem primary_typing_never_throws {locale : Locale} (keys : list string)
    (c : Component) (b : Decimal) :
  parseDecimal (Props.exchangeSecondaryToPrimaryRatio (props c)) = Some b ->
  wellFormedAmount (maxEntryDecimals (Props.primaryInfo (props c)))
    (State.primaryDecimalAmount (state c)) ->
  fst (forOf keys onPrimaryKeyPress c) = Returned tt
  /\ wellFormedAmount (maxEntryDecimals (Props.primaryInfo (props c)))
       (State.primaryDecimalAmount (state (after (forOf keys onPrimaryKeyPress) c)))
  /\ props (after (forOf keys onPrimaryKeyPress) c) = props c.
Proof.
  revert c. induction keys as [|key keys IH]; intros c Hb Hwf.
  - split; [reflexivity | split; [exact Hwf | reflexivity]].
  - unfold after in *. cbn [forOf]. unfold bind.
    assert (Hstep : exists c1,
               onPrimaryKeyPress key c = (Returned tt, c1)
               /\ props c1 = props c
               /\ wellFormedAmount (maxEntryDecimals (Props.primaryInfo (props c)))
                    (State.primaryDecimalAmount (state c1))).
    { unfold onPrimaryKeyPress, bind, getState, getProps. rewrite onKeyPress_run.
      destruct (keyPressAmount key _ _) as [amount|] eqn:E.
      - pose proof (keyPressAmount_wellFormed _ _ _ _ (proj1 Hwf) E) as Hwf'.
        destruct (wellFormedAmount_parses _ _ Hwf') as [a Ha].
        rewrite setStateAmounts_run. unfold setPrimaryToSecondary.
        cbn [bns_mul exactDecimals]. rewrite (exact_mul_parsed _ _ _ _ Ha Hb).
        eexists. split; [reflexivity|]. split; [reflexivity | exact Hwf'].
      - exists c. split; [reflexivity | split; [reflexivity | exact Hwf]]. }
    destruct Hstep as (c1 & -> & Hp & Hwf1).
    rewrite <- Hp in Hb, Hwf1 |- *. destruct (IH c1 Hb Hwf1) as (H1 & H2 & H3).
    split; [exact H1 | split; [exact H2 | now rewrite H3]].
Qed.



Lemma primary_typing_never_throws_witness :
  fst (@forOf string ["1"; "x"; ","; "5"; "."; "Enter"; "Backspace"; "12"]
         (@onPrimaryKeyPress exactDecimals plainLocale)
         (mounted (pairing "" (fieldInfo "BTC" 8 8) (fieldInfo "USD" 2 2)) false
            (plainAmounts "0" "0")))
  = Returned tt.
Proof.
  assert (Hwf : wellFormedAmount 8 "0") by (split; [reflexivity | split; [simpl; lia | exact I]]).
  exact (proj1 (@primary_typing_never_throws plainLocale
                  ["1"; "x"; ","; "5"; "."; "Enter"; "Backspace"; "12"]
                  (mounted (pairing "" (fieldInfo "BTC" 8 8) (fieldInfo "USD" 2 2)) false
                     (plainAmounts "0" "0"))
                  (mkDecimal 0 0) eq_refl Hwf)).
Defined.

Lemma conversion_faults_aux {locale : Locale} (p : Props.t) (amount : string)
    (a b : Decimal) :
  parseDecimal amount = Some a ->
  parseDecimal (Props.exchangeSecondaryToPrimaryRatio p) = Some b ->
  Props.exchangeSecondaryToPrimaryRatio p = "0" \/ mantissa b <> 0%Z ->
  exists amounts, setSecondaryToPrimary p amount = Returned amounts.
Proof.
  intros Ha Hb Hr. unfold setSecondaryToPrimary. cbn [bns_div exactDecimals].
  destruct (String.eqb_spec (Props.exchangeSecondaryToPrimaryRatio p) "0") as [E|E].
  - eexists. reflexivity.
  - destruct Hr as [Hr|Hr]; [contradiction|].
    rewrite (exact_div_parsed _ _ _ _ 18 Ha Hb Hr). eexists. reflexivity.
Qed.

(** Typing into the secondary field never throws either, provided the
    ratio is the text ["0"] or a decimal text of non-zero value. *)
Theorem secondary_typing_never_throws {locale : Locale} (keys : list string)
    (c : Component) (b : Decimal) :
  parseDecimal (Props.exchangeSecondaryToPrimaryRatio (props c)) = Some b ->
  Props.exchangeSecondaryToPrimaryRatio (props c) = "0" \/ mantissa b <> 0%Z ->
  wellFormedAmount (maxEntryDecimals (Props.secondaryInfo (props c)))
    (State.secondaryDecimalAmount (state c)) ->
  fst (forOf keys onSecondaryKeyPress c) = Returned tt
  /\ wellFormedAmount (maxEntryDecimals (Props.secondaryInfo (props c)))
       (State.secondaryDecimalAmount (state (after (forOf keys onSecondaryKeyPress) c)))
  /\ props (after (forOf keys onSecondaryKeyPress) c) = props c.
Proof.
  revert c. induction keys as [|key keys IH]; intros c Hb Hr Hwf.
  - split; [reflexivity | split; [exact Hwf | reflexivity]].
  - unfold after in *. cbn [forOf]. unfold bind.
    assert (Hstep : exists c1,
               onSecondaryKeyPress key c = (Returned tt, c1)
               /\ props c1 = props c
               /\ wellFormedAmount (maxEntryDecimals (Props.secondaryInfo (props c)))
                    (State.secondaryDecimalAmount (state c1))).
    { unfold onSecondaryKeyPress, bind, getState, getProps. rewrite onKeyPress_run.
      destruct (keyPressAmount key _ _) as [amount|] eqn:E.
      - pose proof (keyPressAmount_wellFormed _ _ _ _ (proj1 Hwf) E) as Hwf'.
        destruct (wellFormedAmount_parses _ _ Hwf') as [a Ha].
        rewrite setStateAmounts_run.
        destruct (conversion_faults_aux (props c) amount a b Ha Hb Hr) as [amounts Hs].
        rewrite Hs. eexists. split; [reflexivity|]. split; [reflexivity|].
        cbn [state stored State.assign State.secondaryDecimalAmount].
        now rewrite (setSecondaryToPrimary_secondary _ _ _ Hs).
      - exists c. split; [reflexivity | split; [reflexivity | exact Hwf]]. }
    destruct Hstep as (c1 & -> & Hp & Hwf1).
    rewrite <- Hp in Hb, Hr, Hwf1 |- *. destruct (IH c1 Hb Hr Hwf1) as (H1 & H2 & H3).
    split; [exact H1 | split; [exact H2 | now rewrite H3]].
Qed.

Lemma secondary_typing_never_throws_witness :
  fst (@forOf string ["7"; "."; "5"; "Backspace"]
         (@onSecondaryKeyPress exactDecimals plainLocale)
         (mounted (pairing "0" (fieldInfo "BTC" 8 8) (fieldInfo "USD" 2 2)) true
            (plainAmounts "0" "")))
  = Returned tt.
Proof.
  assert (Hwf : wellFormedAmount 2 "") by (split; [reflexivity | split; [simpl; lia | exact I]]).
  exact (proj1 (@secondary_typing_never_throws plainLocale ["7"; "."; "5"; "Backspace"]
                  (mounted (pairing "0" (fieldInfo "BTC" 8 8) (fieldInfo "USD" 2 2)) true
                     (plainAmounts "0" ""))
                  (mkDecimal 0 0) eq_refl (or_introl eq_refl) Hwf)).
Defined.

(* ------------------------------------------------------------------ *)
(** *** At the entry bound, and undoing a digit *)
(* ------------------------------------------------------------------ *)

Lemma append_assoc (s t u : string) : (s ++ t) ++ u = s ++ (t ++ u).
Proof. induction s as [|c s IH]; [reflexivity | cbn [append]; now rewrite IH]. Qed.

Lemma integers_period_fraction (s f : string) :
  afterPeriod s = Some f -> s = integersOf s ++ "." ++ f.
Proof.
  revert f. induction s as [|c s IH]; intros f; [discriminate 1|].
  cbn [afterPeriod integersOf]. unfold JS.isPeriod.
  destruct (Ascii.eqb_spec c ".") as [->|].
  - intros [= <-]. reflexivity.
  - intros H. cbn [append]. f_equal. now apply IH.
Qed.

Lemma afterPeriod_app (s f k : string) :
  afterPeriod s = Some f -> afterPeriod (s ++ k) = Some (f ++ k).
Proof.
  revert f. induction s as [|c s IH]; intros f; [discriminate 1|].
  cbn [afterPeriod append]. destruct (JS.isPeriod c); [intros [= <-]; reflexivity | apply IH].
Qed.

Lemma integersOf_app (s f k : string) :
  afterPeriod s = Some f -> integersOf (s ++ k) = integersOf s.
Proof.
  revert f. induction s as [|c s IH]; intros f; [discriminate 1|].
  cbn [afterPeriod integersOf append].
  destruct (JS.isPeriod c); [reflexivity | intros H; f_equal; eapply IH; eauto].
Qed.

Lemma afterPeriod_app_without (s k : string) :
  afterPeriod s = None -> afterPeriod (s ++ k) = afterPeriod k.
Proof.
  induction s as [|c s IH]; [reflexivity|].
  cbn [afterPeriod append]. destruct (JS.isPeriod c); [discriminate 1 | exact IH].
Qed.

Lemma afterPeriod_digit (d : ascii) :
  JS.isDigit d = true -> afterPeriod (String d "") = None.
Proof. intros H. cbn [afterPeriod]. now rewrite (digit_not_period d H). Qed.

Lemma afterPeriod_without_periods (s : string) :
  JS.periods s = 0 -> afterPeriod s = None.
Proof.
  induction s as [|c s IH]; [reflexivity|].
  cbn [JS.periods afterPeriod]. destruct (JS.isPeriod c); [discriminate 1 | exact IH].
Qed.

Lemma slice0_all (n : nat) (s : string) :
  String.length s <= n -> JS.slice0 n s = s.
Proof.
  revert n. induction s as [|c s IH]; intros [|n] H; try reflexivity.
  - simpl in H. lia.
  - cbn [JS.slice0]. f_equal. apply IH. simpl in H. lia.
Qed.

Lemma slice0_app (s k : string) : JS.slice0 (String.length s) (s ++ k) = s.
Proof.
  induction s as [|c s IH]; [destruct k; reflexivity|].
  cbn [String.length JS.slice0 append]. now rewrite IH.
Qed.

Lemma sliceInit_app (s : string) (c : ascii) : JS.sliceInit (s ++ String c "") = s.
Proof.
  induction s as [|a s IH]; [reflexivity|].
  cbn [append]. destruct (s ++ String c "") as [|x r] eqn:E.
  - destruct s; discriminate E.
  - rewrite sliceInit_cons, IH. reflexivity.
Qed.

Lemma truncateDecimalsPeriod_fixed (s : string) (max : nat) :
  JS.periods s <= 1 ->
  (forall f, afterPeriod s = Some f -> 0 < max /\ String.length f <= max) ->
  truncateDecimalsPeriod s max = s.
Proof.
  intros Hp Hroom. destruct (afterPeriod s) as [f|] eqn:E.
  - destruct (Hroom f eq_refl) as [Hmax Hlen].
    rewrite (truncateDecimalsPeriod_with_period _ _ max E).
    destruct max as [|m]; [lia|].
    pose proof (periods_afterPeriod _ _ E) as Hpf.
    rewrite (integersOf_without_period f) by (apply afterPeriod_without_periods; lia).
    rewrite (slice0_all _ _ Hlen). symmetry. now apply integers_period_fraction.
  - now apply truncateDecimalsPeriod_without_period.
Qed.

(** Typing a digit and deleting it gives the accumulator back, as long as
    the accumulator is not empty, has at most one period and has room for
    one more decimal.  Neither key then has the empty text truncated, so the
    result does not depend on what the truncation makes of it. *)
Theorem digit_then_backspace (acc : string) (max : nat) (d : ascii) :
  acc <> "" ->
  JS.isDigit d = true ->
  JS.periods acc <= 1 ->
  (forall f, afterPeriod acc = Some f -> String.length f < max) ->
  accumulatorAfter (String d "") acc max = acc ++ String d ""
  /\ accumulatorAfter "Backspace" (accumulatorAfter (String d "") acc max) max = acc.
Proof.
  intros Hne Hd Hp Hroom.
  assert (Hfix : truncateDecimalsPeriod acc max = acc).
  { apply truncateDecimalsPeriod_fixed; [exact Hp|].
    intros f Hf. specialize (Hroom f Hf). lia. }
  assert (Hnext : truncateDecimalsPeriod (acc ++ String d "") max = acc ++ String d "").
  { apply truncateDecimalsPeriod_fixed.
    - rewrite periods_app. cbn [JS.periods]. rewrite (digit_not_period d Hd). lia.
    - intros f Hf. destruct (afterPeriod acc) as [g|] eqn:E.
      + rewrite (afterPeriod_app _ _ _ E) in Hf. injection Hf as <-.
        specialize (Hroom g eq_refl). rewrite length_append. simpl. lia.
      + rewrite (afterPeriod_app_without _ _ E), (afterPeriod_digit d Hd) in Hf.
        discriminate Hf. }
  assert (Hstep : accumulatorAfter (String d "") acc max = acc ++ String d "").
  { unfold accumulatorAfter. rewrite (keyPressAmount_digit d acc max Hd).
    unfold truncateDecimals. exact Hnext. }
  split; [exact Hstep|].
  rewrite Hstep. unfold accumulatorAfter. rewrite keyPressAmount_backspace.
  unfold truncateDecimals. now rewrite sliceInit_app.
Qed.

Lemma digit_then_backspace_witness :
  accumulatorAfter "Backspace" (accumulatorAfter "7" "12.5" 2) 2 = "12.5".
Proof.
  apply (digit_then_backspace "12.5" 2 "7"); [discriminate | reflexivity | simpl; lia |].
  intros f [= <-]. simpl. lia.
Defined.

Section AtTheBound.

Context {bns : BigNumberStrings} {locale : Locale}.

(** A digit typed when the primary amount already has [maxEntryDecimals]
    decimals changes nothing in the amount, but is not ignored: the amount
    is converted and reported to the parent again. *)
Theorem digit_beyond_entry_bound (d : ascii) (c : Component) (f : string) :
  JS.isDigit d = true ->
  afterPeriod (State.primaryDecimalAmount (state c)) = Some f ->
  afterPeriod f = None ->
  String.length f = maxEntryDecimals (Props.primaryInfo (props c)) ->
  0 < maxEntryDecimals (Props.primaryInfo (props c)) ->
  keyPressAmount (String d "") (State.primaryDecimalAmount (state c))
      (maxEntryDecimals (Props.primaryInfo (props c)))
    = Some (State.primaryDecimalAmount (state c))
  /\ onPrimaryKeyPress (String d "") c
     = setStateAmounts (State.primaryDecimalAmount (state c)) setPrimaryToSecondary c.
Proof.
  intros Hd Hf Hnp Hlen Hmax.
  set (acc := State.primaryDecimalAmount (state c)) in *.
  set (max := maxEntryDecimals (Props.primaryInfo (props c))) in *.
  assert (Hk : keyPressAmount (String d "") acc max = Some acc).
  { rewrite (keyPressAmount_digit d acc max Hd). f_equal. unfold truncateDecimals.
    rewrite (truncateDecimalsPeriod_with_period _ _ max (afterPeriod_app _ _ _ Hf)).
    destruct max as [|m]; [lia|].
    rewrite (integersOf_app _ _ _ Hf).
    rewrite (integersOf_without_period (f ++ String d ""))
      by (rewrite (afterPeriod_app_without _ _ Hnp); now apply afterPeriod_digit).
    rewrite <- Hlen, slice0_app. symmetry. now apply integers_period_fraction. }
  split; [exact Hk|].
  unfold onPrimaryKeyPress, bind, getState, getProps. rewrite onKeyPress_run.
  fold acc max. now rewrite Hk.
Qed.

End AtTheBound.

Lemma digit_beyond_entry_bound_witness :
  @onPrimaryKeyPress exactDecimals plainLocale "9"
    (mounted (pairing "2" (fieldInfo "BTC" 2 8) (fieldInfo "USD" 2 2)) false
       (plainAmounts "1.25" "2.5"))
  = setStateAmounts "1.25" (@setPrimaryToSecondary exactDecimals plainLocale)
      (mounted (pairing "2" (fieldInfo "BTC" 2 8) (fieldInfo "USD" 2 2)) false
         (plainAmounts "1.25" "2.5")).
Proof.
  apply (@digit_beyond_entry_bound exactDecimals plainLocale "9"
           (mounted (pairing "2" (fieldInfo "BTC" 2 8) (fieldInfo "USD" 2 2)) false
              (plainAmounts "1.25" "2.5")) "25");
    [reflexivity | reflexivity | reflexivity | reflexivity | simpl; lia].
Defined.

(* ================================================================== *)
(** ** The platform filter and the paste *)
(* ================================================================== *)

Section KeysAndPaste.

Context {bns : BigNumberStrings} {locale : Locale}.

Lemma bind_ret_r (m : Action unit) (c : Component) : (m ;; ret tt) c = m c.
Proof. unfold bind, ret. destruct (m c) as [[[]|e] c']; reflexivity. Qed.

Lemma bind_ret_l (m : Action unit) (c : Component) : (ret tt ;; m) c = m c.
Proof. reflexivity. Qed.

(** One key of the keyboard reaches [onKeyPress] exactly once.  The hidden
    input reports a typed character to both of its handlers; on either
    platform, and in either order, one of the two ignores it and the other
    makes the one call (on Android digits go through the text handler and
    everything else through the key handler, on iOS everything goes through
    the key handler). *)
Theorem platform_filter_once (os : OS) (ch : ascii) (c : Component) :
  let key := String ch "" in
  (Platform.onPrimaryChangeText os key ;; Platform.onPrimaryKeyPress os key) c
    = onPrimaryKeyPress key c
  /\ (Platform.onPrimaryKeyPress os key ;; Platform.onPrimaryChangeText os key) c
     = onPrimaryKeyPress key c
  /\ (Platform.onSecondaryChangeText os key ;; Platform.onSecondaryKeyPress os key) c
     = onSecondaryKeyPress key c
  /\ (Platform.onSecondaryKeyPress os key ;; Platform.onSecondaryChangeText os key) c
     = onSecondaryKeyPress key c.
Proof.
  cbv zeta.
  unfold Platform.onPrimaryChangeText, Platform.onPrimaryKeyPress,
    Platform.onSecondaryChangeText, Platform.onSecondaryKeyPress.
  destruct os.
  - repeat split; first [apply bind_ret_l | apply bind_ret_r].
  - cbn [Text.matchesNonDigit Text.matchesDigit Text.sliceLast].
    rewrite !orb_false_r.
    destruct (JS.isDigit ch); cbn [negb];
      repeat split; first [apply bind_ret_l | apply bind_ret_r].
Qed.

Lemma onKeyPress_other_character (ch : ascii) (acc : string) (max : nat)
    (setAmounts : Props.t -> string -> Outcome Amounts.t) (c : Component) :
  JS.isDecimalChar ch || Ascii.eqb ch "," = false ->
  onKeyPress (String ch "") acc max setAmounts c = (Returned tt, c).
Proof.
  intros H. apply orb_false_elim in H as [Hd Hc].
  rewrite onKeyPress_run. unfold keyPressAmount. cbn [JS.replaceFirst]. rewrite Hc.
  assert (Hb : (String ch "" =? "Backspace") = false)
    by (simpl; now destruct (Ascii.eqb ch "B")).
  rewrite Hb. unfold checkKeyPress. cbn [JS.matchesNonDecimal]. rewrite Hd. cbn [negb orb].
  now destruct ((String ch "" =? ".") && JS.includes "." acc).
Qed.

Lemma forOf_keepNumeric (body : string -> Action unit) (s : string) (c : Component) :
  (forall ch c, JS.isDecimalChar ch || Ascii.eqb ch "," = false ->
                body (String ch "") c = (Returned tt, c)) ->
  forOf (JS.splitChars s) body c = forOf (JS.splitChars (Text.keepNumeric s)) body c.
Proof.
  intros Hbody. revert c. induction s as [|ch s IH]; intros c; [reflexivity|].
  cbn [JS.splitChars Text.keepNumeric].
  destruct (JS.isDecimalChar ch || Ascii.eqb ch ",") eqn:E.
  - cbn [JS.splitChars forOf]. unfold bind.
    destruct (body (String ch "") c) as [[[]|e] c']; [apply IH | reflexivity].
  - cbn [forOf]. unfold bind. rewrite (Hbody ch c E). apply IH.
Qed.

(** The paste of a text, with the loop bodies named. *)
Lemma handlePasteClipboard_run (text : string) (c : Component) :
  handlePasteClipboard (Returned text) c
    = tryCatch
        (setStateAmounts "" setSecondaryToPrimary ;;
         forOf (JS.splitChars text)
           (if State.isToggled (state c) then onSecondaryKeyPress else onPrimaryKeyPress))
        showError c.
Proof.
  unfold handlePasteClipboard, tryCatch, bind, call, getState.
  destruct (State.isToggled (state c)); reflexivity.
Qed.

Lemma activeKeyPress_other_character (toggled : bool) (ch : ascii) (c : Component) :
  JS.isDecimalChar ch || Ascii.eqb ch "," = false ->
  (if toggled then onSecondaryKeyPress else onPrimaryKeyPress) (String ch "") c
    = (Returned tt, c).
Proof.
  intros H. destruct toggled; unfold onSecondaryKeyPress, onPrimaryKeyPress, bind,
    getState, getProps; now apply onKeyPress_other_character.
Qed.

(** Pasting a text is pasting its digits, periods and commas: every other
    character of the clipboard is skipped, without a callback and without
    an error. *)
Theorem paste_skips_other_characters (clipboard : string) (c : Component) :
  handlePasteClipboard (Returned clipboard) c
    = handlePasteClipboard (Returned (Text.keepNumeric clipboard)) c.
Proof.
  rewrite !handlePasteClipboard_run. unfold tryCatch, bind.
  destruct (setStateAmounts "" setSecondaryToPrimary c) as [[[]|e] c']; [|reflexivity].
  rewrite (forOf_keepNumeric _ clipboard c'); [reflexivity|].
  intros ch c0 H. now apply activeKeyPress_other_character.
Qed.

Lemma touchedAmountsOnly_refl (c : Component) : touchedAmountsOnly c c.
Proof. repeat split. exists []. now rewrite app_nil_r. Qed.

Lemma touchedAmountsOnly_trans (c1 c2 c3 : Component) :
  touchedAmountsOnly c1 c2 -> touchedAmountsOnly c2 c3 -> touchedAmountsOnly c1 c3.
Proof.
  intros (A1 & A2 & A3 & A4 & A5 & A6 & A7 & A8 & A9 & l1 & A10)
         (B1 & B2 & B3 & B4 & B5 & B6 & B7 & B8 & B9 & l2 & B10).
  repeat split; try congruence.
  exists (l1 ++ l2)%list. rewrite B10, A10. now rewrite app_assoc.
Qed.

Lemma touchedAmountsOnly_stored (amounts : Amounts.t) (c : Component) :
  touchedAmountsOnly c (stored amounts c).
Proof. repeat split. now exists [Amounts.primaryDecimalAmount amounts]. Qed.

Lemma touchedAmountsOnly_setStateAmounts (amount : string)
    (setAmounts : Props.t -> string -> Outcome Amounts.t) (c : Component) :
  touchedAmountsOnly c (snd (setStateAmounts amount setAmounts c)).
Proof.
  rewrite setStateAmounts_run. destruct (setAmounts (props c) amount); cbn [snd].
  - apply touchedAmountsOnly_stored.
  - apply touchedAmountsOnly_refl.
Qed.

Lemma touchedAmountsOnly_onKeyPress (key acc : string) (max : nat)
    (setAmounts : Props.t -> string -> Outcome Amounts.t) (c : Component) :
  touchedAmountsOnly c (snd (onKeyPress key acc max setAmounts c)).
Proof.
  rewrite onKeyPress_run. destruct (keyPressAmount key acc max).
  - apply touchedAmountsOnly_setStateAmounts.
  - apply touchedAmountsOnly_refl.
Qed.

Lemma touchedAmountsOnly_forOf (body : string -> Action unit) (keys : list string)
    (c : Component) :
  (forall key c, touchedAmountsOnly c (snd (body key c))) ->
  touchedAmountsOnly c (snd (forOf keys body c)).
Proof.
  intros Hbody. revert c. induction keys as [|key keys IH]; intros c.
  - apply touchedAmountsOnly_refl.
  - cbn [forOf]. unfold bind. pose proof (Hbody key c) as H.
    destruct (body key c) as [[[]|e] c']; cbn [snd] in *.
    + eapply touchedAmountsOnly_trans; [exact H | apply IH].
    + exact H.
Qed.

(** The paste lets no exception out and touches little.  Whatever the
    clipboard gives (a text or a failure) and whatever the decimal library
    does, the handler returns; it leaves the props, the toggle, the focus
    flags, the recorded override and counter and the timers as they were,
    only adds to the calls made to the parent, and shows at most one error,
    the one that stopped it. *)
Theorem paste_never_throws (clipboard : Outcome string) (c : Component) :
  fst (handlePasteClipboard clipboard c) = Returned tt
  /\ exists c1,
       touchedAmountsOnly c c1
       /\ (after (handlePasteClipboard clipboard) c = c1
           \/ exists e, after (handlePasteClipboard clipboard) c = snd (showError e c1)).
Proof.
  unfold after. destruct clipboard as [text|e].
  - rewrite handlePasteClipboard_run. unfold tryCatch.
    set (body := (setStateAmounts "" setSecondaryToPrimary ;; _)).
    assert (Hbody : touchedAmountsOnly c (snd (body c))).
    { unfold body, bind.
      pose proof (touchedAmountsOnly_setStateAmounts "" setSecondaryToPrimary c) as H1.
      destruct (setStateAmounts "" setSecondaryToPrimary c) as [[[]|e] c']; cbn [snd] in *;
        [|exact H1].
      eapply touchedAmountsOnly_trans; [exact H1|].
      apply touchedAmountsOnly_forOf. intros key c0.
      destruct (State.isToggled (state c));
        unfold onSecondaryKeyPress, onPrimaryKeyPress, bind, getState, getProps;
        apply touchedAmountsOnly_onKeyPress. }
    destruct (body c) as [[[]|e] c1]; cbn [fst snd] in *.
    + split; [reflexivity|]. exists c1. split; [exact Hbody | now left].
    + split; [reflexivity|]. exists c1. split; [exact Hbody | right; now exists e].
  - split; [reflexivity|]. exists c. split; [apply touchedAmountsOnly_refl|].
    right. now exists e.
Qed.

End KeysAndPaste.

Lemma paste_secondary_as_typed_witness :
  @handlePasteClipboard exactDecimals plainLocale (Returned "7a.5")
    (mounted (pairing "2" (fieldInfo "BTC" 8 8) (fieldInfo "USD" 2 2)) true
       (plainAmounts "5" "10"))
  = tryCatch (@pasteAsTyped exactDecimals plainLocale "7a.5") showError
      (mounted (pairing "2" (fieldInfo "BTC" 8 8) (fieldInfo "USD" 2 2)) true
         (plainAmounts "5" "10")).
Proof.
  exact (@paste_secondary_as_typed exactDecimals plainLocale "7a.5"
           (mounted (pairing "2" (fieldInfo "BTC" 8 8) (fieldInfo "USD" 2 2)) true
              (plainAmounts "5" "10")) eq_refl).
Defined.

(* ================================================================== *)
(** ** Receiving props *)
(* ================================================================== *)

Section Receiving.

Context {bns : BigNumberStrings} {locale : Locale}.

(** The conversion that [UNSAFE_componentWillReceiveProps] makes, the state
    it stores when the conversion returns, and the timer it sets. *)
Lemma UNSAFE_componentWillReceiveProps_run (nextProps : Props.t) (c : Component) :
  let st := state c in
  let changed :=
    negb (Props.overridePrimaryDecimalAmount nextProps =? State.overridePrimaryDecimalAmount st)
    || negb (Props.forceUpdateGuiCounter nextProps =? State.forceUpdateGuiCounter st)%Z in
  let conversion :=
    if changed then
      setPrimaryToSecondary nextProps
        (sanitizeDecimalAmount (Props.overridePrimaryDecimalAmount nextProps)
           (maxEntryDecimals (Props.primaryInfo nextProps)))
    else if State.isToggled st
         then setSecondaryToPrimary nextProps (State.secondaryDecimalAmount st)
         else setPrimaryToSecondary nextProps (State.primaryDecimalAmount st) in
  UNSAFE_componentWillReceiveProps nextProps c =
    match conversion with
    | Thrown e => (Thrown e, c)
    | Returned amounts =>
        (Returned tt,
         {| props := props c;
            state :=
              if changed
              then State.assignOverride st amounts
                     (Props.overridePrimaryDecimalAmount nextProps)
                     (Props.forceUpdateGuiCounter nextProps)
              else State.assign st amounts;
            amountChangedCalls := amountChangedCalls c;
            shownErrors := shownErrors c;
            timers :=
              if negb (currencyCode (Props.primaryInfo nextProps)
                         =? currencyCode (Props.primaryInfo (props c)))
              then (timers c ++ [(50, ResetPrimaryAmount)])%list
              else timers c |})
    end.
Proof.
  cbv zeta.
  unfold UNSAFE_componentWillReceiveProps, bind, getState, getProps, call, setState,
    setTimeout, ret.
  destruct (negb (_ =? _) || negb (_ =? _)%Z).
  - destruct (setPrimaryToSecondary nextProps _); [|reflexivity].
    now destruct (negb (_ =? _)).
  - destruct (State.isToggled (state c)); cbn [negb].
    + destruct (setSecondaryToPrimary nextProps _); [|reflexivity].
      now destruct (negb (_ =? _)).
    + destruct (setPrimaryToSecondary nextProps _); [|reflexivity].
      now destruct (negb (_ =? _)).
Qed.

(** Receiving props never calls the parent back, never shows an error,
    never toggles, never touches the focus flags, and sets a timer (the
    50 ms reset) exactly when the conversion returned and the primary
    currency code changed. *)
Theorem props_receipt_frame (nextProps : Props.t) (c : Component) :
  let c' := after (UNSAFE_componentWillReceiveProps nextProps) c in
  amountChangedCalls c' = amountChangedCalls c
  /\ shownErrors c' = shownErrors c
  /\ props c' = props c
  /\ State.isToggled (state c') = State.isToggled (state c)
  /\ State.textInputFrontFocus (state c') = State.textInputFrontFocus (state c)
  /\ State.textInputBackFocus (state c') = State.textInputBackFocus (state c)
  /\ State.rerenderCounter (state c') = State.rerenderCounter (state c)
  /\ timers c' =
       match fst (UNSAFE_componentWillReceiveProps nextProps c) with
       | Returned _ =>
           if currencyCode (Props.primaryInfo nextProps)
                =? currencyCode (Props.primaryInfo (props c))
           then timers c else (timers c ++ [(50, ResetPrimaryAmount)])%list
       | Thrown _ => timers c
       end.
Proof.
  cbv zeta. unfold after.
  rewrite (UNSAFE_componentWillReceiveProps_run nextProps c). cbv zeta.
  destruct (if negb (_ =? _) || negb (_ =? _)%Z then _ else _) as [amounts|e];
    cbn [fst snd props state amountChangedCalls shownErrors timers].
  - destruct (negb (_ =? _) || negb (_ =? _)%Z);
      destruct (currencyCode (Props.primaryInfo nextProps)
                  =? currencyCode (Props.primaryInfo (props c))); repeat split.
  - repeat split.
Qed.

Lemma receiveProps_run (p : Props.t) (c : Component) :
  receiveProps p c =
    match UNSAFE_componentWillReceiveProps p c with
    | (Returned _, c1) => setProps p c1
    | (Thrown e, c1) => (Thrown e, c1)
    end.
Proof. reflexivity. Qed.

(** Re-rendering the parent with the same props is harmless while the
    primary side is active (or, on either side, once the state records the
    override and counter of these props): receiving the same props a second
    time leaves the state as the first receipt left it. *)
Theorem same_props_twice (p : Props.t) (c : Component) :
  State.isToggled (state c) = false
  \/ (Props.overridePrimaryDecimalAmount p = State.overridePrimaryDecimalAmount (state c)
      /\ Props.forceUpdateGuiCounter p = State.forceUpdateGuiCounter (state c)) ->
  state (after (receiveProps p ;; receiveProps p) c) = state (after (receiveProps p) c).
Proof.
  intros H. unfold after.
  change ((receiveProps p ;; receiveProps p)%action c)
    with (match receiveProps p c with
          | (Returned _, c1) => receiveProps p c1
          | (Thrown e, c1) => (Thrown e, c1)
          end).
  rewrite (receiveProps_run p c).
  rewrite (UNSAFE_componentWillReceiveProps_run p c). cbv zeta.
  set (changed := negb (_ =? _) || negb (_ =? _)%Z).
  destruct (if changed then _ else _) as [amounts|e] eqn:E; [|reflexivity].
  cbn [setProps fst snd].
  match goal with
  | |- context [receiveProps p ?c1] => set (c1' := c1)
  end.
  rewrite (receiveProps_run p c1').
  rewrite (UNSAFE_componentWillReceiveProps_run p c1'). cbv zeta.
  assert (Hrec : negb (Props.overridePrimaryDecimalAmount p
                         =? State.overridePrimaryDecimalAmount (state c1'))
                 || negb (Props.forceUpdateGuiCounter p
                            =? State.forceUpdateGuiCounter (state c1'))%Z = false).
  { unfold c1'. cbn [state]. destruct changed eqn:Ec.
    - cbn. now rewrite String.eqb_refl, Z.eqb_refl.
    - cbn. exact Ec. }
  rewrite Hrec.
  assert (Hconv : (if State.isToggled (state c1')
                   then setSecondaryToPrimary p (State.secondaryDecimalAmount (state c1'))
                   else setPrimaryToSecondary p (State.primaryDecimalAmount (state c1')))
                  = Returned amounts).
  { unfold c1'. cbn [state]. destruct changed eqn:Ec.
    - cbn. destruct H as [Ht | [Ho Hk]].
      + rewrite Ht. now rewrite (setPrimaryToSecondary_primary _ _ _ E).
      + unfold changed in Ec. rewrite Ho, Hk, String.eqb_refl, Z.eqb_refl in Ec.
        discriminate Ec.
    - cbn. destruct (State.isToggled (state c)).
      + now rewrite (setSecondaryToPrimary_secondary _ _ _ E).
      + now rewrite (setPrimaryToSecondary_primary _ _ _ E). }
  rewrite Hconv. cbn [setProps fst snd state]. unfold c1'. cbn [state].
  now destruct changed.
Qed.

End Receiving.

Lemma same_props_twice_witness :
  state (after (@receiveProps exactDecimals plainLocale
                  (overriding "0.5" (pairing "3" (fieldInfo "BTC" 8 8) (fieldInfo "USD" 2 2))) ;;
                @receiveProps exactDecimals plainLocale
                  (overriding "0.5" (pairing "3" (fieldInfo "BTC" 8 8) (fieldInfo "USD" 2 2))))
           (mounted (pairing "2" (fieldInfo "BTC" 8 8) (fieldInfo "USD" 2 2)) false
              (plainAmounts "7" "14")))
  = state (after (@receiveProps exactDecimals plainLocale
                    (overriding "0.5" (pairing "3" (fieldInfo "BTC" 8 8) (fieldInfo "USD" 2 2))))
             (mounted (pairing "2" (fieldInfo "BTC" 8 8) (fieldInfo "USD" 2 2)) false
                (plainAmounts "7" "14"))).
Proof.
  exact (@same_props_twice exactDecimals plainLocale
           (overriding "0.5" (pairing "3" (fieldInfo "BTC" 8 8) (fieldInfo "USD" 2 2)))
           (mounted (pairing "2" (fieldInfo "BTC" 8 8) (fieldInfo "USD" 2 2)) false
              (plainAmounts "7" "14"))
           (or_introl eq_refl)).
Defined.

Lemma conversion_zero {locale : Locale} (p : Props.t) (b : Decimal) :
  parseDecimal (Props.exchangeSecondaryToPrimaryRatio p) = Some b ->
  exists amounts,
    setPrimaryToSecondary p "0" = Returned amounts
    /\ Amounts.primaryDecimalAmount amounts = "0"
    /\ Amounts.secondaryDecimalAmount amounts = "0".
Proof.
  intros Hb. unfold setPrimaryToSecondary. cbn [bns_mul exactDecimals].
  rewrite (exact_mul_parsed "0" _ (mkDecimal 0 0) b eq_refl Hb).
  eexists. split; [reflexivity|]. split; [reflexivity|].
  cbn [Amounts.secondaryDecimalAmount]. unfold product. cbn [mantissa scale].
  rewrite Z.mul_0_l, printDecimal_zero. reflexivity.
Qed.

(** The reset that a change of currency code schedules.  Whatever was
    typed and whichever side is active, when the timer fires with a ratio
    that is a decimal text, both decimal amounts end at ["0"] and the parent
    is told ["0"] once; the toggle is not touched. *)
Theorem deferred_reset_zeroes {locale : Locale} (c : Component) (b : Decimal) :
  parseDecimal (Props.exchangeSecondaryToPrimaryRatio (props c)) = Some b ->
  exists c',
    runDeferred ResetPrimaryAmount c = (Returned tt, c')
    /\ State.primaryDecimalAmount (state c') = "0"
    /\ State.secondaryDecimalAmount (state c') = "0"
    /\ amountChangedCalls c' = (amountChangedCalls c ++ ["0"])%list
    /\ State.isToggled (state c') = State.isToggled (state c).
Proof.
  intros Hb. unfold runDeferred, bind, getProps. rewrite onKeyPress_run.
  assert (Hk : forall max, keyPressAmount "0" "" max = Some "0") by reflexivity.
  rewrite Hk, setStateAmounts_run.
  destruct (@conversion_zero locale (props c) b Hb) as (amounts & Hs & Hp & Hz).
  rewrite Hs. eexists. split; [reflexivity|].
  cbn [state stored State.assign State.primaryDecimalAmount State.secondaryDecimalAmount
       amountChangedCalls State.isToggled].
  rewrite Hp, Hz. repeat split.
Qed.

Lemma deferred_reset_zeroes_witness :
  exists c',
    @runDeferred exactDecimals plainLocale ResetPrimaryAmount
      (mounted (pairing "650.25" (fieldInfo "BTC" 8 8) (fieldInfo "USD" 2 2)) true
         (plainAmounts "1.5" "975.37"))
    = (Returned tt, c')
    /\ State.primaryDecimalAmount (state c') = "0"
    /\ State.secondaryDecimalAmount (state c') = "0".
Proof.
  destruct (@deferred_reset_zeroes plainLocale
              (mounted (pairing "650.25" (fieldInfo "BTC" 8 8) (fieldInfo "USD" 2 2)) true
                 (plainAmounts "1.5" "975.37"))
              (mkDecimal 65025 2) eq_refl) as (c' & Hr & Hp & Hs & _).
  exists c'. split; [exact Hr | split; [exact Hp | exact Hs]].
Defined.

(* ================================================================== *)
(** ** The top row *)
(* ================================================================== *)

Lemma allZeros_reads_zero (s : string) :
  Text.allZeros s = true -> readDigits 0 s = Some 0%Z.
Proof.
  induction s as [|c s IH]; [reflexivity|].
  cbn [Text.allZeros]. intros H. apply andb_prop in H. destruct H as [Hc Hs].
  apply Ascii.eqb_eq in Hc. subst c. cbn [readDigits].
  change (JS.isDigit "0") with true. cbv iota.
  change (10 * 0 + digitValue "0")%Z with 0%Z. exact (IH Hs).
Qed.

Lemma digit_of_value_zero (c : ascii) :
  JS.isDigit c = true -> digitValue c = 0%Z -> c = "0"%char.
Proof.
  destruct c as [[] [] [] [] [] [] [] []]; intros Hd Hv;
    try discriminate Hd; try discriminate Hv; reflexivity.
Qed.

Lemma digitValue_nonneg (c : ascii) : JS.isDigit c = true -> (0 <= digitValue c)%Z.
Proof.
  destruct c as [[] [] [] [] [] [] [] []]; intros Hd;
    try discriminate Hd; unfold digitValue; cbn; lia.
Qed.

Lemma reads_zero_allZeros (s : string) (acc : Z) :
  (0 <= acc)%Z -> readDigits acc s = Some 0%Z -> acc = 0%Z /\ Text.allZeros s = true.
Proof.
  revert acc. induction s as [|c s IH]; intros acc Hacc; cbn [readDigits Text.allZeros].
  - intros [= ->]. split; reflexivity.
  - destruct (JS.isDigit c) eqn:Hd; [|discriminate 1]. intros H.
    pose proof (digitValue_nonneg c Hd) as Hv.
    assert (Hnext : (0 <= 10 * acc + digitValue c)%Z) by lia.
    destruct (IH _ Hnext H) as [Hz Hs].
    assert (Hacc0 : acc = 0%Z) by lia.
    assert (Hv0 : digitValue c = 0%Z) by lia.
    split; [exact Hacc0|].
    rewrite (digit_of_value_zero c Hd Hv0), Hs. reflexivity.
Qed.

Lemma displayAmountCheck_zero (s : string) :
  displayAmountCheck s = true -> parseDecimal s = Some (mkDecimal 0 0).
Proof.
  unfold displayAmountCheck. intros H. apply orb_prop in H. destruct H as [H|H].
  - apply String.eqb_eq in H. subst s. reflexivity.
  - pose proof (allZeros_reads_zero s H) as Hr.
    unfold parseDecimal. rewrite (readDigits_without_period _ _ _ Hr), Hr. reflexivity.
Qed.

Lemma zero_integer_displayAmountCheck (s : string) :
  Text.allDigits s = true -> parseDecimal s = Some (mkDecimal 0 0) ->
  displayAmountCheck s = true.
Proof.
  intros Hd Hp. unfold displayAmountCheck. apply orb_true_intro. right.
  destruct (readDigits_allDigits s 0 Hd) as [m Hr].
  unfold parseDecimal in Hp. rewrite (readDigits_without_period _ _ _ Hr), Hr in Hp.
  injection Hp as ->. exact (proj2 (reads_zero_allZeros s 0 (Z.le_refl 0) Hr)).
Qed.

(** The "enter amount" text of the two top rows never hides a value: a row
    is muted only when its decimal amount reads as zero, and an amount of
    digits only that reads as zero is always muted.  A muted row shows the
    text in place of the amount and no currency. *)
Theorem top_row_placeholder (string_enter_amount : string) (p : Props.t) (st : State.t) :
  (muted (topRowFront string_enter_amount p st) = true ->
     parseDecimal (State.primaryDecimalAmount st) = Some (mkDecimal 0 0)
     /\ displayAmountString (topRowFront string_enter_amount p st) = string_enter_amount
     /\ topCurrency (topRowFront string_enter_amount p st) = None)
  /\ (muted (topRowBack string_enter_amount p st) = true ->
     parseDecimal (State.secondaryDecimalAmount st) = Some (mkDecimal 0 0)
     /\ displayAmountString (topRowBack string_enter_amount p st) = string_enter_amount
     /\ topCurrency (topRowBack string_enter_amount p st) = None)
  /\ (Text.allDigits (State.primaryDecimalAmount st) = true ->
      parseDecimal (State.primaryDecimalAmount st) = Some (mkDecimal 0 0) ->
      muted (topRowFront string_enter_amount p st) = true)
  /\ (Text.allDigits (State.secondaryDecimalAmount st) = true ->
      parseDecimal (State.secondaryDecimalAmount st) = Some (mkDecimal 0 0) ->
      muted (topRowBack string_enter_amount p st) = true).
Proof.
  unfold topRowFront, topRowBack. cbn [muted displayAmountString topCurrency].
  split; [|split; [|split]].
  - intros H. rewrite H. split; [exact (displayAmountCheck_zero _ H) | split; reflexivity].
  - intros H. rewrite H. split; [exact (displayAmountCheck_zero _ H) | split; reflexivity].
  - exact (zero_integer_displayAmountCheck _).
  - exact (zero_integer_displayAmountCheck _).
Qed.

(* ================================================================== *)
(** ** Toggle, focus and clipboard menu *)
(* ================================================================== *)

(** What each step on the widget leaves alone and what it changes, as
    rewrite rules. *)
Create Rewrite HintDb widget.

Lemma component_setClipboardMenu (open : bool) (w : Widget) :
  component (setClipboardMenu open w) = component w.
Proof. reflexivity. Qed.

#[local] Hint Rewrite component_setClipboardMenu : widget.

Lemma textInputFront_setClipboardMenu (open : bool) (w : Widget) :
  textInputFront (setClipboardMenu open w) = textInputFront w.
Proof. reflexivity. Qed.

#[local] Hint Rewrite textInputFront_setClipboardMenu : widget.

Lemma textInputBack_setClipboardMenu (open : bool) (w : Widget) :
  textInputBack (setClipboardMenu open w) = textInputBack w.
Proof. reflexivity. Qed.

#[local] Hint Rewrite textInputBack_setClipboardMenu : widget.

Lemma inputCalls_setClipboardMenu (open : bool) (w : Widget) :
  inputCalls (setClipboardMenu open w) = inputCalls w.
Proof. reflexivity. Qed.

#[local] Hint Rewrite inputCalls_setClipboardMenu : widget.

Lemma animations_setClipboardMenu (open : bool) (w : Widget) :
  animations (setClipboardMenu open w) = animations w.
Proof. reflexivity. Qed.

#[local] Hint Rewrite animations_setClipboardMenu : widget.

Lemma clipboardMenuOpen_setClipboardMenu (open : bool) (w : Widget) :
  clipboardMenuOpen (setClipboardMenu open w) = open.
Proof. reflexivity. Qed.

#[local] Hint Rewrite clipboardMenuOpen_setClipboardMenu : widget.

Lemma mountTimers_setClipboardMenu (open : bool) (w : Widget) :
  mountTimers (setClipboardMenu open w) = mountTimers w.
Proof. reflexivity. Qed.

#[local] Hint Rewrite mountTimers_setClipboardMenu : widget.

Lemma component_animate (a : Animation) (w : Widget) :
  component (animate a w) = component w.
Proof. reflexivity. Qed.

#[local] Hint Rewrite component_animate : widget.

Lemma textInputFront_animate (a : Animation) (w : Widget) :
  textInputFront (animate a w) = textInputFront w.
Proof. reflexivity. Qed.

#[local] Hint Rewrite textInputFront_animate : widget.

Lemma textInputBack_animate (a : Animation) (w : Widget) :
  textInputBack (animate a w) = textInputBack w.
Proof. reflexivity. Qed.

#[local] Hint Rewrite textInputBack_animate : widget.

Lemma inputCalls_animate (a : Animation) (w : Widget) :
  inputCalls (animate a w) = inputCalls w.
Proof. reflexivity. Qed.

#[local] Hint Rewrite inputCalls_animate : widget.

Lemma animations_animate (a : Animation) (w : Widget) :
  animations (animate a w) = (animations w ++ [a])%list.
Proof. reflexivity. Qed.

#[local] Hint Rewrite animations_animate : widget.

Lemma clipboardMenuOpen_animate (a : Animation) (w : Widget) :
  clipboardMenuOpen (animate a w) = clipboardMenuOpen w.
Proof. reflexivity. Qed.

#[local] Hint Rewrite clipboardMenuOpen_animate : widget.

Lemma mountTimers_animate (a : Animation) (w : Widget) :
  mountTimers (animate a w) = mountTimers w.
Proof. reflexivity. Qed.

#[local] Hint Rewrite mountTimers_animate : widget.

Lemma component_widgetSetTimeout (task : MountTask) (delay : nat) (w : Widget) :
  component (widgetSetTimeout task delay w) = component w.
Proof. reflexivity. Qed.

#[local] Hint Rewrite component_widgetSetTimeout : widget.

Lemma textInputFront_widgetSetTimeout (task : MountTask) (delay : nat) (w : Widget) :
  textInputFront (widgetSetTimeout task delay w) = textInputFront w.
Proof. reflexivity. Qed.

#[local] Hint Rewrite textInputFront_widgetSetTimeout : widget.

Lemma textInputBack_widgetSetTimeout (task : MountTask) (delay : nat) (w : Widget) :
  textInputBack (widgetSetTimeout task delay w) = textInputBack w.
Proof. reflexivity. Qed.

#[local] Hint Rewrite textInputBack_widgetSetTimeout : widget.

Lemma inputCalls_widgetSetTimeout (task : MountTask) (delay : nat) (w : Widget) :
  inputCalls (widgetSetTimeout task delay w) = inputCalls w.
Proof. reflexivity. Qed.

#[local] Hint Rewrite inputCalls_widgetSetTimeout : widget.

Lemma animations_widgetSetTimeout (task : MountTask) (delay : nat) (w : Widget) :
  animations (widgetSetTimeout task delay w) = animations w.
Proof. reflexivity. Qed.

#[local] Hint Rewrite animations_widgetSetTimeout : widget.

Lemma clipboardMenuOpen_widgetSetTimeout (task : MountTask) (delay : nat) (w : Widget) :
  clipboardMenuOpen (widgetSetTimeout task delay w) = clipboardMenuOpen w.
Proof. reflexivity. Qed.

#[local] Hint Rewrite clipboardMenuOpen_widgetSetTimeout : widget.

Lemma mountTimers_widgetSetTimeout (task : MountTask) (delay : nat) (w : Widget) :
  mountTimers (widgetSetTimeout task delay w) = (mountTimers w ++ [(delay, task)])%list.
Proof. reflexivity. Qed.

#[local] Hint Rewrite mountTimers_widgetSetTimeout : widget.

Lemma component_withComponent (c : Component) (w : Widget) :
  component (withComponent c w) = c.
Proof. reflexivity. Qed.

#[local] Hint Rewrite component_withComponent : widget.

Lemma textInputFront_withComponent (c : Component) (w : Widget) :
  textInputFront (withComponent c w) = textInputFront w.
Proof. reflexivity. Qed.

#[local] Hint Rewrite textInputFront_withComponent : widget.

Lemma textInputBack_withComponent (c : Component) (w : Widget) :
  textInputBack (withComponent c w) = textInputBack w.
Proof. reflexivity. Qed.

#[local] Hint Rewrite textInputBack_withComponent : widget.

Lemma inputCalls_withComponent (c : Component) (w : Widget) :
  inputCalls (withComponent c w) = inputCalls w.
Proof. reflexivity. Qed.

#[local] Hint Rewrite inputCalls_withComponent : widget.

Lemma animations_withComponent (c : Component) (w : Widget) :
  animations (withComponent c w) = animations w.
Proof. reflexivity. Qed.

#[local] Hint Rewrite animations_withComponent : widget.

Lemma clipboardMenuOpen_withComponent (c : Component) (w : Widget) :
  clipboardMenuOpen (withComponent c w) = clipboardMenuOpen w.
Proof. reflexivity. Qed.

#[local] Hint Rewrite clipboardMenuOpen_withComponent : widget.

Lemma mountTimers_withComponent (c : Component) (w : Widget) :
  mountTimers (withComponent c w) = mountTimers w.
Proof. reflexivity. Qed.

#[local] Hint Rewrite mountTimers_withComponent : widget.

Lemma textInputFront_widgetSetState (f : State.t -> State.t) (w : Widget) :
  textInputFront (widgetSetState f w) = textInputFront w.
Proof. reflexivity. Qed.

#[local] Hint Rewrite textInputFront_widgetSetState : widget.

Lemma textInputBack_widgetSetState (f : State.t -> State.t) (w : Widget) :
  textInputBack (widgetSetState f w) = textInputBack w.
Proof. reflexivity. Qed.

#[local] Hint Rewrite textInputBack_widgetSetState : widget.

Lemma inputCalls_widgetSetState (f : State.t -> State.t) (w : Widget) :
  inputCalls (widgetSetState f w) = inputCalls w.
Proof. reflexivity. Qed.

#[local] Hint Rewrite inputCalls_widgetSetState : widget.

Lemma animations_widgetSetState (f : State.t -> State.t) (w : Widget) :
  animations (widgetSetState f w) = animations w.
Proof. reflexivity. Qed.

#[local] Hint Rewrite animations_widgetSetState : widget.

Lemma clipboardMenuOpen_widgetSetState (f : State.t -> State.t) (w : Widget) :
  clipboardMenuOpen (widgetSetState f w) = clipboardMenuOpen w.
Proof. reflexivity. Qed.

#[local] Hint Rewrite clipboardMenuOpen_widgetSetState : widget.

Lemma mountTimers_widgetSetState (f : State.t -> State.t) (w : Widget) :
  mountTimers (widgetSetState f w) = mountTimers w.
Proof. reflexivity. Qed.

#[local] Hint Rewrite mountTimers_widgetSetState : widget.

Lemma component_widgetSetState (f : State.t -> State.t) (w : Widget) :
  component (widgetSetState f w)
  = {| props := props (component w);
       state := f (state (component w));
       amountChangedCalls := amountChangedCalls (component w);
       shownErrors := shownErrors (component w);
       timers := timers (component w) |}.
Proof. reflexivity. Qed.

#[local] Hint Rewrite component_widgetSetState : widget.

Lemma component_callInput (call : InputCall) (w : Widget) :
  component (callInput call w) = component w.
Proof. destruct w as [c [] [] calls anims menu tm]; destruct call as [[]|[]]; reflexivity. Qed.

#[local] Hint Rewrite component_callInput : widget.

Lemma textInputFront_callInput (call : InputCall) (w : Widget) :
  textInputFront (callInput call w) = textInputFront w.
Proof. destruct w as [c [] [] calls anims menu tm]; destruct call as [[]|[]]; reflexivity. Qed.

#[local] Hint Rewrite textInputFront_callInput : widget.

Lemma textInputBack_callInput (call : InputCall) (w : Widget) :
  textInputBack (callInput call w) = textInputBack w.
Proof. destruct w as [c [] [] calls anims menu tm]; destruct call as [[]|[]]; reflexivity. Qed.

#[local] Hint Rewrite textInputBack_callInput : widget.

Lemma animations_callInput (call : InputCall) (w : Widget) :
  animations (callInput call w) = animations w.
Proof. destruct w as [c [] [] calls anims menu tm]; destruct call as [[]|[]]; reflexivity. Qed.

#[local] Hint Rewrite animations_callInput : widget.

Lemma clipboardMenuOpen_callInput (call : InputCall) (w : Widget) :
  clipboardMenuOpen (callInput call w) = clipboardMenuOpen w.
Proof. destruct w as [c [] [] calls anims menu tm]; destruct call as [[]|[]]; reflexivity. Qed.

#[local] Hint Rewrite clipboardMenuOpen_callInput : widget.

Lemma mountTimers_callInput (call : InputCall) (w : Widget) :
  mountTimers (callInput call w) = mountTimers w.
Proof. destruct w as [c [] [] calls anims menu tm]; destruct call as [[]|[]]; reflexivity. Qed.

#[local] Hint Rewrite mountTimers_callInput : widget.

Lemma inputCalls_callInput (call : InputCall) (w : Widget) :
  inputCalls (callInput call w)
  = (inputCalls w ++
     (if match call with
         | Focus Front | Blur Front => textInputFront w
         | Focus Back | Blur Back => textInputBack w
         end
      then [call] else []))%list.
Proof.
  destruct w as [c [] [] calls anims menu tm]; destruct call as [[]|[]];
    cbn; rewrite ?app_nil_r; reflexivity.
Qed.

#[local] Hint Rewrite inputCalls_callInput : widget.

Ltac widget_steps :=
  autorewrite with widget;
  cbn [props state amountChangedCalls shownErrors timers setIsToggled setFocusFlags
       setSecondaryDisplayAmount State.isToggled State.textInputFrontFocus
       State.textInputBackFocus State.rerenderCounter State.primaryDecimalAmount
       State.secondaryDecimalAmount State.primaryDisplayAmount
       State.secondaryDisplayAmount State.overridePrimaryDecimalAmount
       State.forceUpdateGuiCounter].

Lemma onToggleFlipInput_run (applied : bool) (w : Widget) :
  onToggleFlipInput applied w
  = (if xorb applied (widgetIsToggled w)
     then animate (Spring 0)
            (callInput (Focus Front)
               (widgetSetState (setIsToggled (negb (widgetIsToggled w)))
                  (setClipboardMenu false w)))
     else animate (Spring 1)
            (callInput (Focus Back)
               (widgetSetState (setIsToggled (negb (widgetIsToggled w)))
                  (setClipboardMenu false w)))).
Proof.
  unfold onToggleFlipInput. cbv zeta.
  change (widgetIsToggled (setClipboardMenu false w)) with (widgetIsToggled w).
  destruct applied, (widgetIsToggled w); reflexivity.
Qed.

Lemma onToggleFlipInput_component (applied : bool) (w : Widget) :
  component (onToggleFlipInput applied w)
  = {| props := props (component w);
       state := setIsToggled (negb (widgetIsToggled w)) (state (component w));
       amountChangedCalls := amountChangedCalls (component w);
       shownErrors := shownErrors (component w);
       timers := timers (component w) |}.
Proof.
  rewrite onToggleFlipInput_run.
  destruct (xorb applied (widgetIsToggled w)); now widget_steps.
Qed.

(** Flipping the card.  The toggle is inverted, the clipboard menu is
    closed, and nothing else of the component changes: amounts, focus flags,
    callbacks, errors and timers stay.  One spring animation is started and
    at most one input is focused.  The side they go to depends on when
    [this.state] shows the update: read before it (a press handler) they go
    to the side that becomes active, read after it they go to the side that
    was left. *)
Theorem toggle_frame (applied : bool) (w : Widget) :
  let w' := onToggleFlipInput applied w in
  let toFront := xorb applied (widgetIsToggled w) in
  widgetIsToggled w' = negb (widgetIsToggled w)
  /\ clipboardMenuOpen w' = false
  /\ state (component w') = setIsToggled (negb (widgetIsToggled w)) (state (component w))
  /\ props (component w') = props (component w)
  /\ amountChangedCalls (component w') = amountChangedCalls (component w)
  /\ shownErrors (component w') = shownErrors (component w)
  /\ timers (component w') = timers (component w)
  /\ animations w' = (animations w ++ [Spring (if toFront then 0 else 1)])%list
  /\ inputCalls w' =
       (inputCalls w ++
        (if toFront
         then (if textInputFront w then [Focus Front] else [])
         else (if textInputBack w then [Focus Back] else [])))%list.
Proof.
  cbv zeta. unfold widgetIsToggled at 1.
  rewrite (onToggleFlipInput_component applied w).
  cbn [props state amountChangedCalls shownErrors timers setIsToggled State.isToggled].
  rewrite onToggleFlipInput_run.
  destruct (xorb applied (widgetIsToggled w)); widget_steps; repeat split.
Qed.

(** Flipping twice brings the component back: the state, the props and the
    logs are those before the first flip, whenever the two flips read
    [this.state]; the refs are kept and two animations were started. *)
Theorem toggle_twice (first second : bool) (w : Widget) :
  component (onToggleFlipInput second (onToggleFlipInput first w)) = component w
  /\ textInputFront (onToggleFlipInput second (onToggleFlipInput first w)) = textInputFront w
  /\ textInputBack (onToggleFlipInput second (onToggleFlipInput first w)) = textInputBack w
  /\ length (animations (onToggleFlipInput second (onToggleFlipInput first w)))
     = length (animations w) + 2.
Proof.
  split; [|split; [|split]].
  - rewrite onToggleFlipInput_component. unfold widgetIsToggled.
    rewrite (onToggleFlipInput_component first w).
    cbn [props state amountChangedCalls shownErrors timers].
    unfold widgetIsToggled. destruct (component w) as [p st calls errors tm].
    cbn [props state amountChangedCalls shownErrors timers].
    destruct st; cbn. now rewrite Bool.negb_involutive.
  - rewrite !onToggleFlipInput_run.
    destruct (xorb second _), (xorb first _); now widget_steps.
  - rewrite !onToggleFlipInput_run.
    destruct (xorb second _), (xorb first _); now widget_steps.
  - rewrite !onToggleFlipInput_run.
    destruct (xorb second _), (xorb first _); widget_steps;
      rewrite !length_app; cbn [length]; lia.
Qed.

Lemma widgetIsToggled_onToggleFlipInput (applied : bool) (w : Widget) :
  widgetIsToggled (onToggleFlipInput applied w) = negb (widgetIsToggled w).
Proof.
  unfold widgetIsToggled at 1. now rewrite onToggleFlipInput_component.
Qed.

(** [toggleCryptoOnTop] settles on the primary side: after it the toggle is
    off, a second call changes nothing at all, and on the primary side the
    first call changes nothing either. *)
Theorem crypto_on_top_settles (first second : bool) (w : Widget) :
  widgetIsToggled (toggleCryptoOnTop first w) = false
  /\ toggleCryptoOnTop second (toggleCryptoOnTop first w) = toggleCryptoOnTop first w
  /\ (widgetIsToggled w = false -> toggleCryptoOnTop first w = w).
Proof.
  assert (H : widgetIsToggled (toggleCryptoOnTop first w) = false).
  { unfold toggleCryptoOnTop. destruct (widgetIsToggled w) eqn:E; [|exact E].
    now rewrite widgetIsToggled_onToggleFlipInput, E. }
  split; [exact H|]. split.
  - unfold toggleCryptoOnTop at 1. now rewrite H.
  - intros E. unfold toggleCryptoOnTop. now rewrite E.
Qed.

Lemma openClipboardMenu_run (clipboard : Outcome string) (w : Widget) :
  openClipboardMenu clipboard w
  = (if State.textInputFrontFocus (state (component w))
        || State.textInputBackFocus (state (component w))
     then match clipboard with
          | Returned text =>
              if text =? "" then setClipboardMenu false w
              else setClipboardMenu true (setClipboardMenu false w)
          | Thrown error =>
              withComponent (snd (showError error (component w))) (setClipboardMenu false w)
          end
     else setClipboardMenu false w).
Proof. reflexivity. Qed.

(** The clipboard menu after [openClipboardMenu] does not depend on whether
    it was open before: it is open exactly when one of the two inputs has
    focus and the clipboard gave a text that is not empty.  An error is
    shown exactly when an input has focus and reading the clipboard failed.
    The state, the focus calls and the animations are not touched. *)
Theorem clipboard_menu_opens (clipboard : Outcome string) (w : Widget) :
  let w' := openClipboardMenu clipboard w in
  let focused := State.textInputFrontFocus (state (component w))
                 || State.textInputBackFocus (state (component w)) in
  clipboardMenuOpen w' =
    focused && match clipboard with
               | Returned text => negb (text =? "")
               | Thrown _ => false
               end
  /\ shownErrors (component w') =
       (shownErrors (component w) ++
        (if focused then match clipboard with Thrown e => [e] | Returned _ => [] end
         else []))%list
  /\ state (component w') = state (component w)
  /\ amountChangedCalls (component w') = amountChangedCalls (component w)
  /\ inputCalls w' = inputCalls w
  /\ animations w' = animations w.
Proof.
  cbv zeta. rewrite openClipboardMenu_run.
  destruct (State.textInputFrontFocus (state (component w))
            || State.textInputBackFocus (state (component w)));
    [destruct clipboard as [text|e]; [destruct (text =? "")|]|];
    widget_steps; cbn [showError snd shownErrors state amountChangedCalls negb andb];
    rewrite ?app_nil_r; repeat split.
Qed.

(** The first press on the front row, with no input focused yet, never
    opens the clipboard menu and leaves the component as it was, whatever
    the clipboard holds; once the input has reported its focus, the next
    press opens the menu for a clipboard text that is not empty. *)
Theorem first_press_opens_no_menu (text : string) (w : Widget) :
  State.textInputFrontFocus (state (component w)) = false ->
  State.textInputBackFocus (state (component w)) = false ->
  text <> "" ->
  let pressed := textInputFrontFocus (Returned text) w in
  clipboardMenuOpen pressed = false
  /\ component pressed = component w
  /\ clipboardMenuOpen
       (textInputFrontFocus (Returned text) (textInputFrontFocusTrue pressed)) = true.
Proof.
  intros Hf Hb Ht. cbv zeta. unfold textInputFrontFocus, textInputFrontFocusTrue.
  apply String.eqb_neq in Ht.
  rewrite !openClipboardMenu_run. widget_steps. rewrite Hf, Hb. cbn [orb].
  widget_steps. cbn [orb]. rewrite Ht. widget_steps.
  repeat split.
Qed.

Lemma first_press_opens_no_menu_witness :
  clipboardMenuOpen
    (textInputFrontFocus (Returned "0.25")
       (rendered (mounted (pairing "2" (fieldInfo "BTC" 8 8) (fieldInfo "USD" 2 2)) false
                    (plainAmounts "" "")))) = false.
Proof.
  exact (proj1 (first_press_opens_no_menu "0.25"
                  (rendered (mounted (pairing "2" (fieldInfo "BTC" 8 8) (fieldInfo "USD" 2 2))
                               false (plainAmounts "" "")))
                  eq_refl eq_refl ltac:(discriminate))).
Defined.

(** The flip and the top row agree on the input.  After a flip made in a
    press handler, with both inputs rendered, the input that the flip
    focused is the one of the side that became active, and it is the one
    that [textInputTopFocus] focuses and [textInputTopBlur] blurs next. *)
Theorem flip_focus_agrees_with_top_row (w : Widget) :
  textInputFront w = true ->
  textInputBack w = true ->
  let input := if widgetIsToggled w then Front else Back in
  inputCalls (textInputTopFocus (onToggleFlipInput false w))
    = (inputCalls w ++ [Focus input; Focus input])%list
  /\ inputCalls (textInputTopBlur (onToggleFlipInput false w))
     = (inputCalls w ++ [Focus input; Blur input])%list
  /\ component (textInputTopFocus (onToggleFlipInput false w))
     = component (onToggleFlipInput false w).
Proof.
  intros Hf Hb. cbv zeta. unfold textInputTopFocus, textInputTopBlur.
  rewrite widgetIsToggled_onToggleFlipInput, onToggleFlipInput_run.
  cbn [xorb]. destruct (widgetIsToggled w); cbn [negb]; widget_steps;
    rewrite ?Hf, ?Hb, <- ?app_assoc; repeat split.
Qed.

Lemma flip_focus_agrees_with_top_row_witness :
  inputCalls
    (textInputTopFocus
       (onToggleFlipInput false
          (rendered (mounted (pairing "2" (fieldInfo "BTC" 8 8) (fieldInfo "USD" 2 2)) false
                       (plainAmounts "1" "2")))))
  = [Focus Back; Focus Back].
Proof.
  exact (proj1 (flip_focus_agrees_with_top_row
                  (rendered (mounted (pairing "2" (fieldInfo "BTC" 8 8) (fieldInfo "USD" 2 2))
                               false (plainAmounts "1" "2")))
                  eq_refl eq_refl)).
Defined.

(* ================================================================== *)
(** ** Mounting *)
(* ================================================================== *)

Lemma componentDidMount_run (w : Widget) :
  componentDidMount w
  = (if Props.isFocus (props (component w))
     then widgetSetTimeout InitialFocus 650
     else fun w => w)
      ((if Props.isFiatOnTop (props (component w))
        then fun first =>
               widgetSetTimeout ClearSecondaryDisplay 10
                 (animate (Timing 1 0)
                    (widgetSetState (fun st => setIsToggled (negb (State.isToggled st)) st)
                       first))
        else fun first => first)
         (widgetSetTimeout GrabFocus 400 w)).
Proof.
  unfold componentDidMount. cbv zeta.
  destruct (Props.isFocus _), (Props.isFiatOnTop _); reflexivity.
Qed.

Lemma component_componentDidMount (w : Widget) :
  component (componentDidMount w)
  = (if Props.isFiatOnTop (props (component w))
     then {| props := props (component w);
             state := setIsToggled (negb (widgetIsToggled w)) (state (component w));
             amountChangedCalls := amountChangedCalls (component w);
             shownErrors := shownErrors (component w);
             timers := timers (component w) |}
     else component w).
Proof.
  rewrite componentDidMount_run.
  destruct (Props.isFocus _), (Props.isFiatOnTop _); now widget_steps.
Qed.

Lemma mountTimers_componentDidMount (w : Widget) :
  mountTimers (componentDidMount w)
  = (mountTimers w ++ [(400, GrabFocus)]
     ++ (if Props.isFiatOnTop (props (component w)) then [(10, ClearSecondaryDisplay)] else [])
     ++ (if Props.isFocus (props (component w)) then [(650, InitialFocus)] else []))%list.
Proof.
  rewrite componentDidMount_run.
  destruct (Props.isFocus _), (Props.isFiatOnTop _); widget_steps;
    rewrite <- ?app_assoc; cbn [app]; rewrite ?app_nil_r; reflexivity.
Qed.

Section MountingProperties.

Context {compare : BigNumberCompare}.

Lemma component_runMountTask (applied : bool) (task : MountTask) (w : Widget) (isZero : bool) :
  bns_eq (Props.exchangeSecondaryToPrimaryRatio (props (component w))) "0" = Returned isZero ->
  component (snd (runMountTask applied task w))
  = match task with
    | GrabFocus => component w
    | ClearSecondaryDisplay =>
        {| props := props (component w);
           state := setSecondaryDisplayAmount "" (state (component w));
           amountChangedCalls := amountChangedCalls (component w);
           shownErrors := shownErrors (component w);
           timers := timers (component w) |}
    | InitialFocus =>
        if widgetIsToggled w
           && (isZero || (Props.exchangeSecondaryToPrimaryRatio (props (component w)) =? ""))
        then {| props := props (component w);
                state := setIsToggled false (state (component w));
                amountChangedCalls := amountChangedCalls (component w);
                shownErrors := shownErrors (component w);
                timers := timers (component w) |}
        else component w
    end.
Proof.
  intros Heq. destruct task; unfold runMountTask; cbv zeta.
  - destruct (Props.keyboardVisible _ && _); cbn [snd]; now widget_steps.
  - reflexivity.
  - destruct (widgetIsToggled w) eqn:Et; cbn [andb].
    + rewrite Heq. destruct (isZero || _); cbn [snd].
      * unfold toggleCryptoOnTop. rewrite Et, onToggleFlipInput_component, Et. reflexivity.
      * now widget_steps.
    + cbn [snd]. now widget_steps.
Qed.

(** Mounting, with the three timers run in the order in which they fire.
    The secondary display is cleared first, the initial focus is taken
    last.  The component ends on the other side than it started exactly
    when it shows fiat on top and does not take the focus with a zero or
    empty ratio; the decimal amounts and the primary display are those of
    the constructor, the parent is not called and no error is shown. *)
Theorem mount_settles (applied : bool) (w : Widget) (isZero : bool) :
  mountTimers w = [] ->
  bns_eq (Props.exchangeSecondaryToPrimaryRatio (props (component w))) "0" = Returned isZero ->
  let p := props (component w) in
  let didMount := componentDidMount w in
  let w' := runMountTasks applied (dueOrder (mountTimers didMount)) didMount in
  let zeroRatio := isZero || (Props.exchangeSecondaryToPrimaryRatio p =? "") in
  dueOrder (mountTimers didMount)
    = ((if Props.isFiatOnTop p then [ClearSecondaryDisplay] else [])
       ++ [GrabFocus]
       ++ (if Props.isFocus p then [InitialFocus] else []))%list
  /\ widgetIsToggled w'
     = xorb (Props.isFiatOnTop p) (widgetIsToggled w) && negb (Props.isFocus p && zeroRatio)
  /\ State.primaryDecimalAmount (state (component w'))
     = State.primaryDecimalAmount (state (component w))
  /\ State.secondaryDecimalAmount (state (component w'))
     = State.secondaryDecimalAmount (state (component w))
  /\ State.primaryDisplayAmount (state (component w'))
     = State.primaryDisplayAmount (state (component w))
  /\ State.secondaryDisplayAmount (state (component w'))
     = (if Props.isFiatOnTop p then ""
        else State.secondaryDisplayAmount (state (component w)))
  /\ amountChangedCalls (component w') = amountChangedCalls (component w)
  /\ shownErrors (component w') = shownErrors (component w).
Proof.
  intros Htimers Heq. cbv zeta.
  assert (Horder :
    dueOrder (mountTimers (componentDidMount w))
    = ((if Props.isFiatOnTop (props (component w)) then [ClearSecondaryDisplay] else [])
       ++ [GrabFocus]
       ++ (if Props.isFocus (props (component w)) then [InitialFocus] else []))%list).
  { rewrite mountTimers_componentDidMount, Htimers.
    destruct (Props.isFiatOnTop _), (Props.isFocus _); vm_compute; reflexivity. }
  split; [exact Horder|]. rewrite Horder. clear Horder.
  pose proof (component_componentDidMount w) as H0.
  set (w0 := componentDidMount w) in *. clearbody w0.
  unfold widgetIsToggled in *.
  destruct (Props.isFiatOnTop (props (component w))) eqn:Efiat;
    destruct (Props.isFocus (props (component w))) eqn:Efocus;
    cbn [app runMountTasks xorb andb negb].
  all: repeat
    match goal with
    | H : component ?x = _ |- context [snd (runMountTask ?a ?task ?x)] =>
        let Hx := fresh "Hx" in
        let Hc := fresh "Hc" in
        assert (Hx : bns_eq (Props.exchangeSecondaryToPrimaryRatio (props (component x))) "0"
                     = Returned isZero) by (rewrite H; exact Heq);
        pose proof (component_runMountTask a task x isZero Hx) as Hc;
        unfold widgetIsToggled in Hc; rewrite H in Hc;
        cbn [props state amountChangedCalls shownErrors timers setIsToggled
             setSecondaryDisplayAmount State.isToggled] in Hc;
        clear Hx H;
        generalize dependent (snd (runMountTask a task x)); clear x; intros x Hc
    end.
  all: destruct (State.isToggled (state (component w))) eqn:Etoggled;
    destruct (isZero || (Props.exchangeSecondaryToPrimaryRatio (props (component w)) =? ""));
    cbn [negb andb] in *;
    match goal with H : component ?x = _ |- _ => rewrite H end;
    cbn [state amountChangedCalls shownErrors State.isToggled State.primaryDecimalAmount
         State.secondaryDecimalAmount State.primaryDisplayAmount
         State.secondaryDisplayAmount];
    rewrite ?Etoggled; repeat split.
Qed.

End MountingProperties.

Lemma mount_settles_witness :
  widgetIsToggled
    (runMountTasks true
       (dueOrder
          (mountTimers
             (componentDidMount
                (rendered
                   (mounted
                      (presenting true true false
                         (pairing "0" (fieldInfo "BTC" 8 8) (fieldInfo "USD" 2 2)))
                      false (plainAmounts "" ""))))))
       (componentDidMount
          (rendered
             (mounted
                (presenting true true false
                   (pairing "0" (fieldInfo "BTC" 8 8) (fieldInfo "USD" 2 2)))
                false (plainAmounts "" ""))))) = false.
Proof.
  exact (proj1 (proj2 (@mount_settles exactCompare true
                         (rendered
                            (mounted
                               (presenting true true false
                                  (pairing "0" (fieldInfo "BTC" 8 8) (fieldInfo "USD" 2 2)))
                               false (plainAmounts "" "")))
                         true eq_refl eq_refl))).
Defined.
